(** * PCEsobol: polynomial-chaos Sobol' indices and their bootstrap intervals

    A shallow embedding of [PCEsobol.py]: the class [OpenTurnsPCESobol]
    (methods [computeChaosSensitivity], [_computeChaosSensitivity],
    [computeBootstrapChaosSobolIndices]) and the module-level functions
    [multiBootstrap] and [computeSobolIndicesConfidenceInterval].

    Python floats are binary64 numbers: they are embedded as Rocq's primitive
    floats, so that constants such as [1e-9] and [(1.0 - 0.95) / 2] have the
    value the interpreter gives them, and comparisons with NaN the outcome
    they have there.  Python dictionaries are [gmap string _].
    Methods run in a state-and-exception monad over a [World] made of the
    analysis object, the standard output, the state of the OpenTURNS random
    generator and a record of the calls made to the chaos algorithm.

    The numerical routines of OpenTURNS that the program calls are not part of
    the program; they are the fields of the record [OpenTURNS], and every
    theorem holds for any value of that record. *)

From Stdlib Require Import Floats.PrimFloat Floats.SpecFloat Floats.FloatOps Floats.FloatAxioms.
From stdpp Require Import gmap strings list pretty.

Set Warnings "-inexact-float".
Set Default Proof Using "Type".

Open Scope float_scope.
Open Scope string_scope.
Open Scope list_scope.
Open Scope nat_scope.

(** ** Exceptions and results *)

(** A Python exception is identified by the name of its class. *)
Definition exception := string.

Inductive result (A : Type) : Type :=
| Ok (a : A)
| Raise (e : exception).
Arguments Ok {A} a.
Arguments Raise {A} e.

Definition result_bind {A B} (r : result A) (k : A -> result B) : result B :=
  match r with
  | Ok a => k a
  | Raise e => Raise e
  end.

(** [mapR f l] is the list comprehension [[f(x) for x in l]] when [f] may
    raise: elements are evaluated from left to right, the first exception
    ends the evaluation. *)
Fixpoint mapR {A B} (f : A -> result B) (l : list A) : result (list B) :=
  match l with
  | [] => Ok []
  | x :: l' =>
      result_bind (f x) (fun y =>
      result_bind (mapR f l') (fun ys => Ok (y :: ys)))
  end.

(** [foldR f l acc] is a [for] loop over [l] whose body [f] updates the local
    variables [acc] and may raise. *)
Fixpoint foldR {A S} (f : S -> A -> result S) (l : list A) (acc : S) : result S :=
  match l with
  | [] => Ok acc
  | x :: l' => result_bind (f acc x) (foldR f l')
  end.

(** [l[i] = v] on a Python list: [IndexError] out of range. *)
Definition list_setitem {A} (l : list A) (i : nat) (v : A) : result (list A) :=
  if decide (i < length l) then Ok (<[i := v]> l) else Raise "IndexError".

(** ** OpenTURNS containers *)

Definition Point := list float.

(** [ot.Sample]: [size] rows of [dimension] numbers, and one name per column. *)
Record Sample := mkSample {
  dimension : nat;
  description : list string;
  rows : list Point
}.

Definition getSize (s : Sample) : nat := length (rows s).
Definition getDimension (s : Sample) : nat := dimension s.
Definition getDescription (s : Sample) : list string := description s.

(** The names OpenTURNS gives to the columns of a sample built without a
    description: [v0], [v1], ... *)
Definition default_description (dim : nat) : list string :=
  map (fun i : nat => "v" +:+ pretty i) (seq 0 dim).

(** [ot.Sample(size, dim)]: [size] null rows. *)
Definition Sample_new (size dim : nat) : Sample :=
  mkSample dim (default_description dim) (repeat (repeat 0%float dim) size).

(** [sample.add(point)]: appends a row; the point must have the dimension of
    the sample. *)
Definition Sample_add (s : Sample) (p : Point) : result Sample :=
  if decide (length p = dimension s)
  then Ok (mkSample (dimension s) (description s) (rows s ++ [p]))
  else Raise "TypeError".

(** [sample[selection]] for a sequence of row indices: the rows at these
    indices, in the order of the selection, repeated when an index is. *)
Definition Sample_select (s : Sample) (selection : list nat) : result Sample :=
  result_bind
    (mapR (fun i : nat =>
             match rows s !! i with
             | Some r => Ok r
             | None => Raise "IndexError"
             end) selection)
    (fun rs => Ok (mkSample (dimension s) (description s) rs)).

(** [sample[:, i]], as the list of the values of the column. *)
Definition Sample_column (s : Sample) (i : nat) : result (list float) :=
  if decide (i < dimension s)
  then Ok (map (fun r : Point => nth i r 0%float) (rows s))
  else Raise "IndexError".

(** [ot.Interval(lowerBound, upperBound)], all bounds finite. *)
Record Interval := mkInterval {
  lowerBound : Point;
  upperBound : Point
}.

(** A coordinate falls outside [[l, u]] when it is below [l] or above [u]. *)
Definition outside (l x u : float) : bool := (x <? l)%float || (u <? x)%float.

Fixpoint insideb (lb p ub : Point) : bool :=
  match lb, p, ub with
  | l :: lb', x :: p', u :: ub' => negb (outside l x u) && insideb lb' p' ub'
  | _, _, _ => true
  end.

(** [interval.contains(point)]: the point must have the dimension of the
    interval; it is contained when no coordinate falls outside its bounds. *)
Definition Interval_contains (I : Interval) (p : Point) : result bool :=
  if decide (length p = length (lowerBound I))
  then Ok (insideb (lowerBound I) p (upperBound I))
  else Raise "TypeError".

(** ** Configuration objects of the chaos algorithm

    These OpenTURNS objects are represented by the arguments of their
    constructors. *)

(** [ot.Uniform(a, b)] *)
Record Uniform := mkUniform { lower : float; upper : float }.

(** [ot.ComposedDistribution(distlist)] *)
Definition ComposedDistribution := list Uniform.

(** An entry of the Python list [polyColl]: the float [0.0] it is created
    with, or the polynomial family of a marginal. *)
Inductive polyEntry :=
| PyFloat (x : float)
| StandardDistributionPolynomialFactory (marginal : Uniform).

Record EnumerateFunction := HyperbolicAnisotropicEnumerateFunction {
  ef_dimension : nat;
  ef_q : float
}.

Record ProductBasis := mkProductBasis {
  pb_polynomials : list Uniform;
  pb_enumerate : EnumerateFunction
}.

(** [ot.OrthogonalProductPolynomialFactory(polyColl, enumerateFunction)]: every
    entry of the collection must be a polynomial family. *)
Definition OrthogonalProductPolynomialFactory
    (polyColl : list polyEntry) (enumerateFunction : EnumerateFunction) : result ProductBasis :=
  result_bind
    (mapR (fun e => match e with
                    | StandardDistributionPolynomialFactory m => Ok m
                    | PyFloat _ => Raise "TypeError"
                    end) polyColl)
    (fun ms => Ok (mkProductBasis ms enumerateFunction)).

Inductive AdaptiveStrategy :=
| FixedStrategy (basis : ProductBasis) (indexMax : nat)
| CleaningStrategy (basis : ProductBasis)
    (maximumDimension maximumSize : nat) (significanceFactor : float).

(** The result of a chaos fit: the multi-indices of the retained basis terms
    and their coefficients (the coefficient spectrum). *)
Record FunctionalChaosResult := mkFunctionalChaosResult {
  res_indices : list (list nat);
  res_coefficients : list float
}.

(** The metamodel of a result is the polynomial these terms and coefficients
    define. *)
Record MetaModel := mkMetaModel {
  mm_indices : list (list nat);
  mm_coefficients : list float
}.

Definition getMetaModel (r : FunctionalChaosResult) : MetaModel :=
  mkMetaModel (res_indices r) (res_coefficients r).

(** [ot.FunctionalChaosSobolIndices(result)] *)
Record FunctionalChaosSobolIndices := mkFunctionalChaosSobolIndices {
  si_result : FunctionalChaosResult
}.

(** The state of [ot.RandomGenerator]. *)
Definition RandomGeneratorState := N.

(** ** The numerical routines of OpenTURNS *)

Record OpenTURNS := mkOpenTURNS {
  (** what the constructor of the enumerate function raises, if anything, for
      a dimension and an exponent [q] *)
  enumerateFunction_rejects : nat -> float -> option exception;
  (** [enumerateFunction.getStrataCumulatedCardinal(degree)] *)
  getStrataCumulatedCardinal : EnumerateFunction -> nat -> nat;
  (** [algo = ot.FunctionalChaosAlgorithm(X, Y, distribution, strategy);
      algo.run(); algo.getResult()] *)
  FunctionalChaosAlgorithm_run :
    Sample -> Sample -> ComposedDistribution -> AdaptiveStrategy ->
    result FunctionalChaosResult;
  (** [chaosSI.getSobolIndex(i)] *)
  getSobolIndex : FunctionalChaosSobolIndices -> nat -> result float;
  (** [chaosSI.getSobolTotalIndex(i)] *)
  getSobolTotalIndex : FunctionalChaosSobolIndices -> nat -> result float;
  (** [chaosSI.summary()] *)
  summary : FunctionalChaosSobolIndices -> string;
  (** [ot.BootstrapExperiment.GenerateSelection(n, N)], on a state of the
      random generator *)
  GenerateSelection :
    nat -> nat -> RandomGeneratorState -> list nat * RandomGeneratorState;
  (** [column.computeQuantile(prob)[0]] for a sample of dimension 1 *)
  computeQuantile : list float -> float -> result float;
  (** [sample.computeMean()] *)
  computeMean : Sample -> result Point;
  (** what [ot.SobolIndicesAlgorithm.DrawSobolIndices] raises, if anything *)
  DrawSobolIndices_rejects :
    list string -> Point -> Point -> Interval -> Interval -> option exception
}.

(** ** The analysis object and the world around it *)

(** What [computeBootstrapChaosSobolIndices] stores in [self.bootstrap]. *)
Record BootstrapStore := mkBootstrapStore {
  FO : gmap string Sample;
  TO : gmap string Sample;
  FOI : gmap string Interval;
  TOI : gmap string Interval
}.

(** The attributes of an [OpenTurnsPCESobol] object that the methods read or
    write.  [input], [output], [inputSample], [outputSample] and
    [distribution] are set by the constructor; the others do not exist
    ([None]) until a method creates them. *)
Record OpenTurnsPCESobol := mkOpenTurnsPCESobol {
  input : list string;
  output : list string;
  inputSample : Sample;
  outputSample : gmap string Sample;
  distribution : ComposedDistribution;
  chaosSI : option (gmap string FunctionalChaosSobolIndices);
  metamodel : option (gmap string MetaModel);
  S1 : option (gmap string (list float));
  ST : option (gmap string (list float));
  bootstrap : option BootstrapStore
}.

(** One call of the chaos algorithm, with its arguments. *)
Record ChaosCall := mkChaosCall {
  call_inputSample : Sample;
  call_outputSample : Sample;
  call_distribution : ComposedDistribution;
  call_strategy : AdaptiveStrategy
}.

(** [chaosRuns] is a history of the calls of the chaos algorithm, oldest
    first; the program never reads it. *)
Record World := mkWorld {
  self : OpenTurnsPCESobol;
  stdout : list (list string);
  randomGenerator : RandomGeneratorState;
  chaosRuns : list ChaosCall
}.

Definition set_self (f : OpenTurnsPCESobol -> OpenTurnsPCESobol) (w : World) : World :=
  mkWorld (f (self w)) (stdout w) (randomGenerator w) (chaosRuns w).

Definition with_chaosSI v (s : OpenTurnsPCESobol) : OpenTurnsPCESobol :=
  mkOpenTurnsPCESobol (input s) (output s) (inputSample s) (outputSample s)
    (distribution s) v (metamodel s) (S1 s) (ST s) (bootstrap s).
Definition with_metamodel v (s : OpenTurnsPCESobol) : OpenTurnsPCESobol :=
  mkOpenTurnsPCESobol (input s) (output s) (inputSample s) (outputSample s)
    (distribution s) (chaosSI s) v (S1 s) (ST s) (bootstrap s).
Definition with_S1 v (s : OpenTurnsPCESobol) : OpenTurnsPCESobol :=
  mkOpenTurnsPCESobol (input s) (output s) (inputSample s) (outputSample s)
    (distribution s) (chaosSI s) (metamodel s) v (ST s) (bootstrap s).
Definition with_ST v (s : OpenTurnsPCESobol) : OpenTurnsPCESobol :=
  mkOpenTurnsPCESobol (input s) (output s) (inputSample s) (outputSample s)
    (distribution s) (chaosSI s) (metamodel s) (S1 s) v (bootstrap s).
Definition with_bootstrap v (s : OpenTurnsPCESobol) : OpenTurnsPCESobol :=
  mkOpenTurnsPCESobol (input s) (output s) (inputSample s) (outputSample s)
    (distribution s) (chaosSI s) (metamodel s) (S1 s) (ST s) v.

(** ** The monad of methods: state and exceptions

    A raised exception keeps the state reached when it was raised. *)

Definition M (A : Type) : Type := World -> World * result A.

Definition ret {A} (a : A) : M A := fun w => (w, Ok a).
Definition raise {A} (e : exception) : M A := fun w => (w, Raise e).
Definition bind {A B} (m : M A) (k : A -> M B) : M B :=
  fun w =>
    match m w with
    | (w', Ok a) => k a w'
    | (w', Raise e) => (w', Raise e)
    end.
Definition lift {A} (r : result A) : M A := fun w => (w, r).
Definition get_self : M OpenTurnsPCESobol := fun w => (w, Ok (self w)).
Definition modify_self (f : OpenTurnsPCESobol -> OpenTurnsPCESobol) : M unit :=
  fun w => (set_self f w, Ok tt).

(** [print(a, b, ...)]: one entry of [stdout] per call, made of the printed
    arguments. *)
Definition print (args : list string) : M unit :=
  fun w => (mkWorld (self w) (stdout w ++ [args]) (randomGenerator w) (chaosRuns w), Ok tt).

(** What a constructor or a drawing routine raises, if anything. *)
Definition reject (r : option exception) : M unit :=
  match r with
  | Some e => raise e
  | None => ret tt
  end.

Notation "'let*' x ':=' m 'in' k" := (bind m (fun x => k))
  (at level 10, x pattern, m at level 100, k at level 200).
Notation "m ';;' k" := (bind m (fun _ => k))
  (at level 100, k at level 200, right associativity).

(** A [for] loop of a method over a list. *)
Fixpoint forM {A} (l : list A) (body : A -> M unit) : M unit :=
  match l with
  | [] => ret tt
  | x :: l' => body x ;; forM l' body
  end.

(** A [for] loop of a method that updates local variables [acc]. *)
Fixpoint foldM {A S} (body : S -> A -> M S) (l : list A) (acc : S) : M S :=
  match l with
  | [] => ret acc
  | x :: l' => let* acc' := body acc x in foldM body l' acc'
  end.

(** [d[key]] on a dictionary: [KeyError] when the key is absent. *)
Definition dict_getitem {V} (d : gmap string V) (key : string) : result V :=
  match d !! key with
  | Some v => Ok v
  | None => Raise "KeyError"
  end.

(** The value of a parameter with a default. *)
Definition param {A} (dflt : A) (given : option A) : A :=
  match given with
  | Some a => a
  | None => dflt
  end.

Definition stars : string := "********************".
Definition equals : string := "====================".
Definition newline : string := String (Ascii.ascii_of_nat 10) "".

(** ** The program *)

Section Program.

Variable ot : OpenTURNS.

(** [ot.BootstrapExperiment.GenerateSelection(n, N)]: draws from the random
    generator and advances it. *)
Definition generateSelection (n N : nat) : M (list nat) :=
  fun w =>
    let '(selection, g) := GenerateSelection ot n N (randomGenerator w) in
    (mkWorld (self w) (stdout w) g (chaosRuns w), Ok selection).

(** [multiBootstrap] applied to the samples [data] *)
Definition multiBootstrap (data : list Sample) : M (list Sample) :=
  match data with
  | [] => raise "AssertionError"
  | data0 :: _ =>
      let size := getSize data0 in
      let* selection := generateSelection size size in
      lift (mapR (fun Z => Sample_select Z selection) data)
  end.

(** The four local lists of [computeSobolIndicesConfidenceInterval]. *)
Record Bounds := mkBounds {
  fo_lb : list float;
  fo_ub : list float;
  to_lb : list float;
  to_ub : list float
}.

(** The body of the loop [for i in range(dim_input)]. *)
Definition confidence_body (fo_sample to_sample : Sample) (alpha : float)
    (acc : Bounds) (i : nat) : result Bounds :=
  result_bind (Sample_column fo_sample i) (fun fo_i =>
  result_bind (Sample_column to_sample i) (fun to_i =>
  let beta := ((1.0 - alpha) / 2)%float in
  result_bind (computeQuantile ot fo_i beta) (fun v1 =>
  result_bind (list_setitem (fo_lb acc) i v1) (fun fo_lb' =>
  result_bind (computeQuantile ot fo_i (1.0 - beta)%float) (fun v2 =>
  result_bind (list_setitem (fo_ub acc) i v2) (fun fo_ub' =>
  result_bind (computeQuantile ot to_i beta) (fun v3 =>
  result_bind (list_setitem (to_lb acc) i v3) (fun to_lb' =>
  result_bind (computeQuantile ot to_i (1.0 - beta)%float) (fun v4 =>
  result_bind (list_setitem (to_ub acc) i v4) (fun to_ub' =>
  Ok (mkBounds fo_lb' fo_ub' to_lb' to_ub'))))))))))).

(** [computeSobolIndicesConfidenceInterval(fo_sample, to_sample, alpha=0.95)] *)
Definition computeSobolIndicesConfidenceInterval
    (fo_sample to_sample : Sample) (alpha : option float) : result (Interval * Interval) :=
  let alpha := param 0.95%float alpha in
  let dim_input := getDimension fo_sample in
  let zeros := repeat 0%float dim_input in
  result_bind
    (foldR (confidence_body fo_sample to_sample alpha) (seq 0 dim_input)
       (mkBounds zeros zeros zeros zeros))
    (fun b =>
       let fo_interval := mkInterval (fo_lb b) (fo_ub b) in
       let to_interval := mkInterval (to_lb b) (to_ub b) in
       Ok (fo_interval, to_interval)).

(** [algo = ot.FunctionalChaosAlgorithm(...); algo.run(); algo.getResult()] *)
Definition runFunctionalChaos (X Y : Sample) (dist : ComposedDistribution)
    (strategy : AdaptiveStrategy) : M FunctionalChaosResult :=
  fun w =>
    (mkWorld (self w) (stdout w) (randomGenerator w)
       (chaosRuns w ++ [mkChaosCall X Y dist strategy]),
     FunctionalChaosAlgorithm_run ot X Y dist strategy).

(** [self.metamodel[oo] = v] *)
Definition metamodel_setitem (oo : string) (v : MetaModel) : M unit :=
  let* s := get_self in
  match metamodel s with
  | None => raise "AttributeError"
  | Some d => modify_self (with_metamodel (Some (<[oo := v]> d)))
  end.

(** [self.chaosSI[oo] = v] *)
Definition chaosSI_setitem (oo : string) (v : FunctionalChaosSobolIndices) : M unit :=
  let* s := get_self in
  match chaosSI s with
  | None => raise "AttributeError"
  | Some d => modify_self (with_chaosSI (Some (<[oo := v]> d)))
  end.

(** [self.chaosSI[oo]] *)
Definition chaosSI_getitem (oo : string) : M FunctionalChaosSobolIndices :=
  let* s := get_self in
  match chaosSI s with
  | None => raise "AttributeError"
  | Some d => lift (dict_getitem d oo)
  end.

(** The loop that fills [polyColl]. *)
Definition polyColl_body (dist : ComposedDistribution)
    (polyColl : list polyEntry) (i : nat) : result (list polyEntry) :=
  match dist !! i with
  | Some marginal => list_setitem polyColl i (StandardDistributionPolynomialFactory marginal)
  | None => Raise "IndexError"
  end.

(** The branch on [strategy]; [None] when the local variable
    [adaptiveStrategy] is left unbound. *)
Definition chooseStrategy (strategy : string) (enumerateFunction : EnumerateFunction)
    (productBasis : ProductBasis) : M (option AdaptiveStrategy) :=
  if decide (strategy = "fixed") then
    let degree := 2 in
    let indexMax := getStrataCumulatedCardinal ot enumerateFunction degree in
    print ["indexMax"; pretty indexMax] ;;
    ret (Some (FixedStrategy productBasis indexMax))
  else if decide (strategy = "cleaning") then
    let maximumDimension := 200 in
    let maximumSize := 20 in
    let significanceFactor := 1e-4%float in
    ret (Some (CleaningStrategy productBasis maximumDimension maximumSize significanceFactor))
  else ret None.

(** [self._computeChaosSensitivity(inputSample, outputSample,
    strategy='cleaning', q=0.4, verbose=False)] *)
Definition _computeChaosSensitivity (inputSample outputSample : Sample)
    (strategy : option string) (q : option float) (verbose : option bool)
    : M (list float * list float) :=
  let strategy := param "cleaning" strategy in
  let q := param 0.4%float q in
  let verbose := param false verbose in
  let* s := get_self in
  let* polyColl :=
    lift (foldR (polyColl_body (distribution s)) (seq 0 (length (distribution s)))
            (repeat (PyFloat 0.0) (length (input s)))) in
  reject (enumerateFunction_rejects ot (length (input s)) q) ;;
  let enumerateFunction := HyperbolicAnisotropicEnumerateFunction (length (input s)) q in
  let* productBasis := lift (OrthogonalProductPolynomialFactory polyColl enumerateFunction) in
  let* adaptiveStrategy := chooseStrategy strategy enumerateFunction productBasis in
  let* oo := lift (match getDescription outputSample with
                   | d :: _ => Ok d
                   | [] => Raise "IndexError"
                   end) in
  let* adaptiveStrategy := lift (match adaptiveStrategy with
                                 | Some a => Ok a
                                 | None => Raise "UnboundLocalError"
                                 end) in
  let* result :=
    runFunctionalChaos inputSample outputSample (distribution s) adaptiveStrategy in
  metamodel_setitem oo (getMetaModel result) ;;
  chaosSI_setitem oo (mkFunctionalChaosSobolIndices result) ;;
  (if verbose
   then let* si := chaosSI_getitem oo in print [summary ot si]
   else ret tt) ;;
  let* si := chaosSI_getitem oo in
  let* S1 := lift (mapR (getSobolIndex ot si) (seq 0 (length (input s)))) in
  let* si := chaosSI_getitem oo in
  let* ST := lift (mapR (getSobolTotalIndex ot si) (seq 0 (length (input s)))) in
  ret (S1, ST).

(** [self.computeChaosSensitivity(strategy='cleaning', q=0.4)] *)
Definition computeChaosSensitivity (strategy : option string) (q : option float) : M unit :=
  let strategy := param "cleaning" strategy in
  let q := param 0.4%float q in
  modify_self (with_chaosSI (Some ∅)) ;;
  modify_self (with_metamodel (Some ∅)) ;;
  modify_self (with_S1 (Some ∅)) ;;
  modify_self (with_ST (Some ∅)) ;;
  let* s := get_self in
  forM (output s) (fun oo =>
    print [equals; oo; equals; newline] ;;
    let* s := get_self in
    let* Y := lift (dict_getitem (outputSample s) oo) in
    let* (S1oo, SToo) :=
      _computeChaosSensitivity (inputSample s) Y (Some strategy) (Some q) (Some false) in
    let* s := get_self in
    match S1 s with
    | None => raise "AttributeError"
    | Some d => modify_self (with_S1 (Some (<[oo := S1oo]> d)))
    end ;;
    let* s := get_self in
    match ST s with
    | None => raise "AttributeError"
    | Some d => modify_self (with_ST (Some (<[oo := SToo]> d)))
    end).

(** [ot.Interval([1e-9] * dim_input, [1 - 1e-9] * dim_input)] *)
Definition unit_eps (dim_input : nat) : Interval :=
  mkInterval (repeat 1e-9%float dim_input) (repeat (1 - 1e-9)%float dim_input).

(** The body of the loop [for i in range(bootstrap_size)]; the local variables
    it updates are [fo_sample] and [to_sample]. *)
Definition replicate_body (X Y : Sample) (eps : Interval)
    (acc : Sample * Sample) (i : nat) : M (Sample * Sample) :=
  let '(fo_sample, to_sample) := acc in
  let* boot := multiBootstrap [X; Y] in
  match boot with
  | [X_boot; Y_boot] =>
      let* (first_order, total_order) :=
        _computeChaosSensitivity X_boot Y_boot None None None in
      let* inside_fo := lift (Interval_contains eps first_order) in
      let* inside :=
        (if inside_fo then lift (Interval_contains eps total_order) else ret false) in
      if inside then
        let* fo_sample' := lift (Sample_add fo_sample first_order) in
        let* to_sample' := lift (Sample_add to_sample total_order) in
        ret (fo_sample', to_sample')
      else ret (fo_sample, to_sample)
  | _ => raise "ValueError"
  end.

(** The loop over the replicates, for one output. *)
Definition bootstrap_loop (bootstrap_size : nat) (X Y : Sample) (dim_input : nat)
    : M (Sample * Sample) :=
  let fo_sample := Sample_new 0 dim_input in
  let to_sample := Sample_new 0 dim_input in
  foldM (replicate_body X Y (unit_eps dim_input)) (seq 0 bootstrap_size)
    (fo_sample, to_sample).

(** The body of the loop [for oo in self.output]; the local variables it
    updates are the dictionaries [FO], [TO], [FOI] and [TOI]. *)
Definition bootstrap_output (bootstrap_size : nat) (verbose plot : bool)
    (X : Sample) (dim_input : nat) (acc : BootstrapStore) (oo : string) : M BootstrapStore :=
  (if verbose then print [stars; oo; stars; newline] else ret tt) ;;
  let* s := get_self in
  let* Y := lift (dict_getitem (outputSample s) oo) in
  let* (fo_sample, to_sample) := bootstrap_loop bootstrap_size X Y dim_input in
  let* (fo_interval, to_interval) :=
    lift (computeSobolIndicesConfidenceInterval fo_sample to_sample None) in
  let acc' := mkBootstrapStore (<[oo := fo_sample]> (FO acc)) (<[oo := to_sample]> (TO acc))
                (<[oo := fo_interval]> (FOI acc)) (<[oo := to_interval]> (TOI acc)) in
  (if plot then
     let* s := get_self in
     let names := getDescription (inputSample s) in
     let* fo_mean := lift (computeMean ot fo_sample) in
     let* to_mean := lift (computeMean ot to_sample) in
     reject (DrawSobolIndices_rejects ot names fo_mean to_mean fo_interval to_interval)
   else ret tt) ;;
  ret acc'.

(** [self.computeBootstrapChaosSobolIndices(bootstrap_size, verbose=True,
    plot=True)] *)
Definition computeBootstrapChaosSobolIndices (bootstrap_size : nat)
    (verbose plot : option bool) : M unit :=
  let verbose := param true verbose in
  let plot := param true plot in
  let* s := get_self in
  let X := inputSample s in
  let dim_input := getDimension X in
  let* store :=
    foldM (bootstrap_output bootstrap_size verbose plot X dim_input) (output s)
      (mkBootstrapStore ∅ ∅ ∅ ∅) in
  modify_self (with_bootstrap (Some store)).

End Program.

(** ** A small instance of the OpenTURNS routines

    [Reference.ot] is an executable instance of [OpenTURNS] used to run the
    program on concrete data.  Its chaos algorithm projects the response on the
    constant and on the normalised linear Legendre polynomial of every input;
    its Sobol' indices are the quotients of sums of squared coefficients; its
    quantile is the order statistic of the inverse empirical distribution
    function; its generator is a linear congruential one. *)
Module Reference.

Fixpoint float_of_nat (n : nat) : float :=
  match n with
  | O => 0%float
  | S n' => (float_of_nat n' + 1)%float
  end.

Definition fsum (l : list float) : float := fold_left PrimFloat.add l 0%float.

Definition fmean (l : list float) : float := (fsum l / float_of_nat (length l))%float.

(** The multi-index of the constant term, and of the linear term of input [i]. *)
Definition constant_index (dim : nat) : list nat := repeat 0 dim.
Definition linear_index (dim i : nat) : list nat := <[i := 1]> (repeat 0 dim).

(** The normalised linear Legendre polynomial of a uniform marginal. *)
Definition legendre1 (m : Uniform) (x : float) : float :=
  (sqrt 3 * ((2 * x - lower m - upper m) / (upper m - lower m)))%float.

Definition project (X Y : Sample) (dist : ComposedDistribution) (i : nat) : float :=
  match dist !! i with
  | Some m =>
      fmean (zip_with (fun (r : Point) (y : Point) =>
                         (nth 0 y 0 * legendre1 m (nth i r 0))%float) (rows X) (rows Y))
  | None => 0%float
  end.

Definition all_terms (X Y : Sample) (dist : ComposedDistribution)
    : list (list nat * float) :=
  let dim := length dist in
  (constant_index dim, fmean (map (fun y : Point => nth 0 y 0%float) (rows Y)))
  :: map (fun i => (linear_index dim i, project X Y dist i)) (seq 0 dim).

Definition fmax (l : list float) : float :=
  fold_left (fun m x => if (m <? abs x)%float then abs x else m) l 0%float.

Definition select_terms (strategy : AdaptiveStrategy) (terms : list (list nat * float))
    : list (list nat * float) :=
  match strategy with
  | FixedStrategy _ indexMax => take indexMax terms
  | CleaningStrategy _ maximumDimension maximumSize significanceFactor =>
      let threshold := (significanceFactor * fmax (map snd terms))%float in
      take maximumSize
        (filter (fun t => (threshold <? abs (snd t))%float = true)
           (take maximumDimension terms))
  end.

Definition run (X Y : Sample) (dist : ComposedDistribution) (strategy : AdaptiveStrategy)
    : result FunctionalChaosResult :=
  if decide (getSize X = 0) then Raise "RuntimeError"
  else if decide (getSize X = getSize Y ∧ getDimension X = length dist)
  then let terms := select_terms strategy (all_terms X Y dist) in
       Ok (mkFunctionalChaosResult (map fst terms) (map snd terms))
  else Raise "TypeError".

Definition is_constant (alpha : list nat) : bool := forallb (Nat.eqb 0) alpha.
Definition involves (i : nat) (alpha : list nat) : bool := negb (Nat.eqb (nth i alpha 0) 0).
Definition only (i : nat) (alpha : list nat) : bool :=
  involves i alpha && is_constant (<[i := 0]> alpha).

Definition partial_variance (keep : list nat -> bool) (r : FunctionalChaosResult) : float :=
  fsum (map (fun t : list nat * float => (snd t * snd t)%float)
          (filter (fun t => keep (fst t) = true) (zip (res_indices r) (res_coefficients r)))).

Definition sobol (keep : nat -> list nat -> bool) (si : FunctionalChaosSobolIndices) (i : nat)
    : result float :=
  let r := si_result si in
  Ok (partial_variance (keep i) r / partial_variance (fun a => negb (is_constant a)) r)%float.

Fixpoint insert_sorted (x : float) (l : list float) : list float :=
  match l with
  | [] => [x]
  | y :: l' => if (x <=? y)%float then x :: l else y :: insert_sorted x l'
  end.

Definition sort (l : list float) : list float := fold_right insert_sorted [] l.

(** The order statistic of rank [k], where [k] counts the [j] in [1..n-1] with
    [j / n < prob]. *)
Definition quantile (values : list float) (prob : float) : result float :=
  match values with
  | [] => Raise "RuntimeError"
  | x :: _ =>
      let n := length values in
      let k := length (filter (fun j => (float_of_nat j / float_of_nat n <? prob)%float = true)
                         (seq 1 (n - 1))) in
      Ok (nth k (sort values) x)
  end.

Definition mean (s : Sample) : result Point :=
  if decide (getSize s = 0) then Raise "RuntimeError"
  else Ok (map (fun i => fmean (map (fun r : Point => nth i r 0%float) (rows s)))
             (seq 0 (dimension s))).

Definition next (g : RandomGeneratorState) : RandomGeneratorState :=
  ((1103515245 * g + 12345) mod 2147483648)%N.

Fixpoint selection (n N : nat) (g : RandomGeneratorState)
    : list nat * RandomGeneratorState :=
  match n with
  | O => ([], g)
  | S n' =>
      let g' := next g in
      let '(l, g'') := selection n' N g' in
      (N.to_nat (g' / 65536) mod N :: l, g'')
  end.

Definition ot : OpenTURNS := {|
  enumerateFunction_rejects := fun dim q =>
    if ((0 <? q) && (q <=? 1))%float then None else Some "TypeError";
  getStrataCumulatedCardinal := fun ef degree => 1 + ef_dimension ef * degree;
  FunctionalChaosAlgorithm_run := run;
  getSobolIndex := sobol only;
  getSobolTotalIndex := sobol involves;
  summary := fun _ => "";
  GenerateSelection := selection;
  computeQuantile := quantile;
  computeMean := mean;
  DrawSobolIndices_rejects := fun _ _ _ _ _ => None
|}.

(** ** Concrete data for the examples *)

Definition sample (names : list string) (rs : list Point) : Sample :=
  mkSample (length names) names rs.

Definition object (names : list string) (bounds : list (float * float)) (X : list Point)
    (outputs : list (string * list float)) : OpenTurnsPCESobol :=
  mkOpenTurnsPCESobol names (map fst outputs) (sample names X)
    (list_to_map (map (fun o => (fst o, sample [fst o] (map (fun y => [y]) (snd o)))) outputs))
    (map (fun b => mkUniform (fst b) (snd b)) bounds)
    None None None None None.

Definition world (o : OpenTurnsPCESobol) : World := mkWorld o [] 1%N [].

(** Two inputs on [[-1, 1]] and the response [3 x1 + 2 x2], on a grid. *)
Definition grid : list Point :=
  [[-1; -1]; [-1; 0]; [-1; 1]; [0; -1]; [0; 0]; [0; 1]; [1; -1]; [1; 0]; [1; 1]]%float.
Definition additive : list float := map (fun r : Point => (3 * nth 0 r 0 + 2 * nth 1 r 0)%float) grid.
Definition car : OpenTurnsPCESobol :=
  object ["x1"; "x2"] [(-1, 1); (-1, 1)]%float grid [("y", additive)].

(** The world after the point estimates of an object have been computed with
    the default parameters. *)
Definition estimated (o : OpenTurnsPCESobol) : World :=
  fst (computeChaosSensitivity ot None None (world o)).

(** The same grid and a response that does not depend on the inputs. *)
Definition flat : OpenTurnsPCESobol :=
  object ["x1"; "x2"] [(-1, 1); (-1, 1)]%float grid [("y", map (fun _ => 5%float) grid)].

(** Two rows only, and twelve rows, of the two inputs. *)
Definition two_rows : list Point := [[-1; -1]; [1; 1]]%float.
Definition twelve_rows : list Point :=
  grid ++ [[-0.5; -0.5]; [0.5; 0.5]; [0.5; -0.5]]%float.
Definition response (X : list Point) : Sample :=
  sample ["y"] (map (fun r : Point => [(3 * nth 0 r 0 + 2 * nth 1 r 0)%float]) X).

(** One input on [[-1, 1]] and a response proportional to it. *)
Definition line : list Point := [[-1]; [-0.5]; [0.5]; [1]]%float.
Definition single : OpenTurnsPCESobol :=
  object ["x1"] [(-1, 1)]%float line
    [("y", map (fun r : Point => (3 * nth 0 r 0 + 2 * nth 1 r 0)%float) line)].

(** The grid with two outputs. *)
Definition crash : OpenTurnsPCESobol :=
  object ["x1"; "x2"] [(-1, 1); (-1, 1)]%float grid
    [("dmax", additive);
     ("fmax", map (fun r : Point => (nth 0 r 0 - 2 * nth 1 r 0)%float) grid)].

(** Two inputs and the marginal of the first one only. *)
Definition mismatched : OpenTurnsPCESobol :=
  object ["x1"; "x2"] [(-1, 1)]%float grid [("y", additive)].

(** The library [ot] with index routines that answer the coordinates of [f]
    and of [t], whatever the result they are asked about. *)
Definition returning (f t : Point) : OpenTURNS := {|
  enumerateFunction_rejects := enumerateFunction_rejects ot;
  getStrataCumulatedCardinal := getStrataCumulatedCardinal ot;
  FunctionalChaosAlgorithm_run := FunctionalChaosAlgorithm_run ot;
  getSobolIndex := fun _ i => Ok (nth i f 0%float);
  getSobolTotalIndex := fun _ i => Ok (nth i t 0%float);
  summary := summary ot;
  GenerateSelection := GenerateSelection ot;
  computeQuantile := computeQuantile ot;
  computeMean := computeMean ot;
  DrawSobolIndices_rejects := DrawSobolIndices_rejects ot
|}.

(** Four points on the axes, and the response [3 x1 + 2 x2]. *)
Definition cross : list Point := [[-1; 0]; [1; 0]; [0; 1]; [0; -1]]%float.
Definition axes : OpenTurnsPCESobol :=
  object ["x1"; "x2"] [(-1, 1); (-1, 1)]%float cross
    [("y", map (fun r : Point => (3 * nth 0 r 0 + 2 * nth 1 r 0)%float) cross)].

End Reference.

(** * Vocabulary of the statements *)

(** The values of column [i] of a sample. *)
Definition column (s : Sample) (i : nat) : list float :=
  map (fun r : Point => nth i r 0%float) (rows s).

(** The quantile of level [p] of column [i] of [s], as the loop of
    [computeSobolIndicesConfidenceInterval] computes it. *)
Definition column_quantile (ot : OpenTURNS) (s : Sample) (p : float) (i : nat) : result float :=
  result_bind (Sample_column s i) (fun c => computeQuantile ot c p).

(** The two index vectors read from the Sobol' indices of a fit, for [D]
    inputs: the two list comprehensions that end [_computeChaosSensitivity]. *)
Definition sobol_vectors (ot : OpenTURNS) (D : nat) (si : FunctionalChaosSobolIndices)
    : result (list float * list float) :=
  result_bind (mapR (getSobolIndex ot si) (seq 0 D)) (fun S1 =>
  result_bind (mapR (getSobolTotalIndex ot si) (seq 0 D)) (fun ST => Ok (S1, ST))).

(** The index vectors that a recorded call of the chaos algorithm leads to. *)
Definition call_indices (ot : OpenTURNS) (D : nat) (c : ChaosCall)
    : result (list float * list float) :=
  result_bind
    (FunctionalChaosAlgorithm_run ot (call_inputSample c) (call_outputSample c)
       (call_distribution c) (call_strategy c))
    (fun res => sobol_vectors ot D (mkFunctionalChaosSobolIndices res)).

(** The test of [unit_eps.contains]: no coordinate of the vector compares
    below [1e-9] or above [1 - 1e-9].  A NaN coordinate compares neither way
    and passes the test. *)
Definition in_unit_eps (p : Point) : Prop :=
  Forall (fun x => outside 1e-9%float x (1 - 1e-9)%float = false) p.

(** Both index vectors of a replicate pass this test. *)
Definition retained (rep : Point * Point) : Prop :=
  in_unit_eps (fst rep) /\ in_unit_eps (snd rep).

#[global] Instance in_unit_eps_dec (p : Point) : Decision (in_unit_eps p).
Proof. unfold in_unit_eps. apply _. Defined.

#[global] Instance retained_dec (rep : Point * Point) : Decision (retained rep).
Proof. unfold retained. apply _. Defined.

(** The state of the generator after one selection of [N] indices among [N]. *)
Definition draw (ot : OpenTURNS) (N : nat) (g : RandomGeneratorState) : RandomGeneratorState :=
  snd (GenerateSelection ot N N g).

(** The samples of the call [c] are the rows of [X] and of [Y] at the
    selection drawn in the generator state [g]. *)
Definition resample_of (ot : OpenTURNS) (X Y : Sample) (g : RandomGeneratorState)
    (c : ChaosCall) : Prop :=
  let selection := fst (GenerateSelection ot (getSize X) (getSize X) g) in
  Sample_select X selection = Ok (call_inputSample c) /\
  Sample_select Y selection = Ok (call_outputSample c).

(** The call [c] uses the cleaning strategy with its default parameters, on a
    basis enumerated with [q = 0.4] in dimension [D]. *)
Definition default_strategy (D : nat) (c : ChaosCall) : Prop :=
  exists basis,
    call_strategy c = CleaningStrategy basis 200 20 1e-4%float /\
    pb_enumerate basis = HyperbolicAnisotropicEnumerateFunction D 0.4%float.

(** The attributes that no fit writes. *)
Definition same_setup (s s' : OpenTurnsPCESobol) : Prop :=
  input s' = input s /\ output s' = output s /\ inputSample s' = inputSample s /\
  outputSample s' = outputSample s /\ distribution s' = distribution s /\
  S1 s' = S1 s /\ ST s' = ST s /\ bootstrap s' = bootstrap s.

(** The variance carried by the nonconstant terms of a coefficient spectrum:
    the sum of the squares of their coefficients. *)
Definition nonconstant_variance (r : FunctionalChaosResult) : float :=
  fold_left PrimFloat.add
    (map (fun t : list nat * float => (snd t * snd t)%float)
       (filter (fun t : list nat * float => forallb (Nat.eqb 0) (fst t) = false)
          (zip (res_indices r) (res_coefficients r))))
    0%float.

(** From [w] to [w'] the chaos algorithm was only called with the default
    strategy, and the list of inputs is the same. *)
Definition default_calls (w w' : World) : Prop :=
  input (self w') = input (self w) /\
  exists calls,
    chaosRuns w' = chaosRuns w ++ calls /\
    Forall (default_strategy (length (input (self w)))) calls.

(** The basis that the first statements of [_computeChaosSensitivity] build
    from the object and the exponent [q], before any sample is used. *)
Definition fit_basis (ot : OpenTURNS) (s : OpenTurnsPCESobol) (q : float) : result ProductBasis :=
  result_bind
    (foldR (polyColl_body (distribution s)) (seq 0 (length (distribution s)))
       (repeat (PyFloat 0.0) (length (input s))))
    (fun polyColl =>
       match enumerateFunction_rejects ot (length (input s)) q with
       | Some e => Raise e
       | None =>
           OrthogonalProductPolynomialFactory polyColl
             (HyperbolicAnisotropicEnumerateFunction (length (input s)) q)
       end).

(** ** Vocabulary of the point estimates and of the bootstrap *)

(** The attributes that the constructor sets and no method writes. *)
Definition same_data (s s' : OpenTurnsPCESobol) : Prop :=
  input s' = input s /\ output s' = output s /\ inputSample s' = inputSample s /\
  outputSample s' = outputSample s /\ distribution s' = distribution s.

(** The body of the loop of [computeChaosSensitivity]. *)
Definition estimate_one (ot : OpenTURNS) (strategy : string) (q : float) (oo : string) : M unit :=
  print [equals; oo; equals; newline] ;;
  let* s := get_self in
  let* Y := lift (dict_getitem (outputSample s) oo) in
  let* (S1oo, SToo) :=
    _computeChaosSensitivity ot (inputSample s) Y (Some strategy) (Some q) (Some false) in
  let* s := get_self in
  match S1 s with
  | None => raise "AttributeError"
  | Some d => modify_self (with_S1 (Some (<[oo := S1oo]> d)))
  end ;;
  let* s := get_self in
  match ST s with
  | None => raise "AttributeError"
  | Some d => modify_self (with_ST (Some (<[oo := SToo]> d)))
  end.

(** The object after the four dictionaries have been emptied. *)
Definition emptied (s : OpenTurnsPCESobol) : OpenTurnsPCESobol :=
  with_ST (Some ∅) (with_S1 (Some ∅) (with_metamodel (Some ∅) (with_chaosSI (Some ∅) s))).

(** A computation whose outcome and whose effect on the object depend on the
    object only, not on the output, the generator or the history of calls. *)
Definition self_only {A} (m : M A) : Prop :=
  forall w v, self w = self v ->
    snd (m w) = snd (m v) /\ self (fst (m w)) = self (fst (m v)).

(** [f] is the first-order vector of a fit of the output [oo] of the object:
    one value per input, read from the result of the chaos algorithm on the
    input sample and the sample of [oo]. *)
Definition first_order_of (ot : OpenTURNS) (s : OpenTurnsPCESobol) (oo : string)
    (f : list float) : Prop :=
  length f = length (input s) /\
  exists Y strategy res,
    outputSample s !! oo = Some Y /\
    FunctionalChaosAlgorithm_run ot (inputSample s) Y (distribution s) strategy = Ok res /\
    mapR (getSobolIndex ot (mkFunctionalChaosSobolIndices res)) (seq 0 (length (input s)))
      = Ok f.

(** The same for the total-order vector. *)
Definition total_order_of (ot : OpenTURNS) (s : OpenTurnsPCESobol) (oo : string)
    (t : list float) : Prop :=
  length t = length (input s) /\
  exists Y strategy res,
    outputSample s !! oo = Some Y /\
    FunctionalChaosAlgorithm_run ot (inputSample s) Y (distribution s) strategy = Ok res /\
    mapR (getSobolTotalIndex ot (mkFunctionalChaosSobolIndices res)) (seq 0 (length (input s)))
      = Ok t.

(** The four dictionaries of the point estimates exist. *)
Definition has_dictionaries (s : OpenTurnsPCESobol) : Prop :=
  is_Some (chaosSI s) /\ is_Some (metamodel s) /\ is_Some (S1 s) /\ is_Some (ST s).

(** From [w] to [w'] the data, the bootstrap results and the random generator
    are unchanged, and the chaos algorithm has been called at most [n] times. *)
Definition estimates_step (n : nat) (w w' : World) : Prop :=
  same_data (self w) (self w') /\
  bootstrap (self w') = bootstrap (self w) /\
  randomGenerator w' = randomGenerator w /\
  has_dictionaries (self w') /\
  exists calls, chaosRuns w' = chaosRuns w ++ calls /\ length calls <= n.

(** The number of terms [indexMax] of the fixed strategy. *)
Definition fixed_indexMax (ot : OpenTURNS) (s : OpenTurnsPCESobol) (q : float) : nat :=
  getStrataCumulatedCardinal ot
    (HyperbolicAnisotropicEnumerateFunction (length (input s)) q) 2.

(** The strategy that a fit builds from the name [strategy] and the basis. *)
Definition requested_strategy (ot : OpenTURNS) (s : OpenTurnsPCESobol) (strategy : string)
    (q : float) (basis : ProductBasis) : AdaptiveStrategy :=
  if decide (strategy = "fixed")
  then FixedStrategy basis (fixed_indexMax ot s q)
  else CleaningStrategy basis 200 20 1e-4%float.

(** The lines printed for the output [oo]. *)
Definition estimate_lines (ot : OpenTURNS) (s : OpenTurnsPCESobol) (strategy : string)
    (q : float) (oo : string) : list (list string) :=
  [equals; oo; equals; newline] ::
  (if decide (strategy = "fixed") then [["indexMax"; pretty (fixed_indexMax ot s q)]] else []).

(** The call [c] is the fit of the output [oo] on the samples of the object. *)
Definition estimate_call (ot : OpenTURNS) (s : OpenTurnsPCESobol) (strategy : string)
    (q : float) (oo : string) (c : ChaosCall) : Prop :=
  call_inputSample c = inputSample s /\
  outputSample s !! oo = Some (call_outputSample c) /\
  call_distribution c = distribution s /\
  exists basis,
    fit_basis ot s q = Ok basis /\
    call_strategy c = requested_strategy ot s strategy q basis.

(** The lines printed for the outputs [outs]. *)
Definition banners (verbose : bool) (outs : list string) : list (list string) :=
  if verbose then map (fun oo => [stars; oo; stars; newline]) outs else [].

(** The entries of a store: the collections of an output and their
    confidence intervals. *)
Definition consistent_store (ot : OpenTURNS) (bootstrap_size dim_input : nat)
    (store : BootstrapStore) : Prop :=
  forall oo,
    (FO store !! oo = None /\ TO store !! oo = None /\
     FOI store !! oo = None /\ TOI store !! oo = None) \/
    exists fo to foI toI,
      FO store !! oo = Some fo /\ TO store !! oo = Some to /\
      FOI store !! oo = Some foI /\ TOI store !! oo = Some toI /\
      computeSobolIndicesConfidenceInterval ot fo to None = Ok (foI, toI) /\
      getDimension fo = dim_input /\ getDimension to = dim_input /\
      getSize fo = getSize to /\ getSize fo <= bootstrap_size.

(** ** Vocabulary of the interval test, of the exceptions and of the refits *)

(** The number [x] lies in [[1e-9, 1 - 1e-9]]. *)
Definition lies_inside (x : float) : Prop :=
  (1e-9 <=? x)%float = true /\ (x <=? 1 - 1e-9)%float = true.

(** Every coordinate of the vector lies in [[1e-9, 1 - 1e-9]] or is NaN. *)
Definition inside_or_nan (p : Point) : Prop :=
  Forall (fun x => lies_inside x \/ x = nan) p.

(** No routine of the library that a fit calls raises the exception [e]. *)
Definition library_never_raises (ot : OpenTURNS) (e : exception) : Prop :=
  (forall dim q, enumerateFunction_rejects ot dim q <> Some e) /\
  (forall X Y dist strategy, FunctionalChaosAlgorithm_run ot X Y dist strategy <> Raise e) /\
  (forall si i, getSobolIndex ot si i <> Raise e) /\
  (forall si i, getSobolTotalIndex ot si i <> Raise e).

(** The exceptions that the statements of a fit raise by themselves. *)
Definition python_exceptions : list exception :=
  ["IndexError"; "TypeError"; "UnboundLocalError"; "AttributeError"; "KeyError"].

(** The call of index [j * bootstrap_size + i] is the fit of replicate [i] of
    the output of index [j], on the resample drawn at its turn. *)
Definition refits_of (ot : OpenTURNS) (bootstrap_size : nat) (X : Sample)
    (outputs : list string) (samples : gmap string Sample) (g : RandomGeneratorState)
    (calls : list ChaosCall) : Prop :=
  forall j i oo c,
    outputs !! j = Some oo -> i < bootstrap_size ->
    calls !! (j * bootstrap_size + i) = Some c ->
    exists Y,
      samples !! oo = Some Y /\
      resample_of ot X Y (Nat.iter (j * bootstrap_size + i) (draw ot (getSize X)) g) c.

(** * Properties *)

(** ** Loops that may raise *)

Lemma mapR_Forall2 {A B} (f : A -> result B) (l : list A) (r : list B) :
  mapR f l = Ok r <-> Forall2 (fun x y => f x = Ok y) l r.
Proof.
  revert r. induction l as [|x l IH]; intros r; simpl.
  - split.
    + intros [= <-]. constructor.
    + intros H. inversion H. reflexivity.
  - split.
    + destruct (f x) as [y|e] eqn:Hx; simpl; [|discriminate].
      destruct (mapR f l) as [ys|e] eqn:Hl; simpl; [|discriminate].
      intros [= <-]. constructor; [assumption|]. apply IH. reflexivity.
    + intros H. inversion H as [|x' y l' ys Hx Hl]; subst.
      rewrite Hx. simpl. apply IH in Hl. rewrite Hl. reflexivity.
Qed.

Lemma mapR_length {A B} (f : A -> result B) (l : list A) (r : list B) :
  mapR f l = Ok r -> length r = length l.
Proof.
  intros H. apply mapR_Forall2 in H. symmetry. eapply Forall2_length, H.
Qed.

Lemma mapR_app {A B} (f : A -> result B) (l1 l2 : list A) :
  mapR f (l1 ++ l2) =
  result_bind (mapR f l1) (fun r1 => result_bind (mapR f l2) (fun r2 => Ok (r1 ++ r2))).
Proof.
  induction l1 as [|x l1 IH]; simpl.
  - destruct (mapR f l2); reflexivity.
  - destruct (f x); simpl; [|reflexivity]. rewrite IH.
    destruct (mapR f l1); simpl; [|reflexivity].
    destruct (mapR f l2); reflexivity.
Qed.

(** A list computed index by index over [seq 0 n]. *)
Lemma Forall2_seq_nth {B} (P : nat -> B -> Prop) (d : B) (k n : nat) (r : list B) :
  Forall2 P (seq k n) r <->
  length r = n /\ forall i, i < n -> P (k + i) (nth i r d).
Proof.
  revert k r. induction n as [|n IH]; intros k r; simpl.
  - split.
    + intros H. inversion H. split; [reflexivity|]. intros i Hi. lia.
    + intros [Hlen _]. destruct r; [constructor|discriminate].
  - split.
    + intros H. inversion H as [|x y l' ys Hx Hl]; subst.
      apply IH in Hl as [Hlen Hnth]. split; [simpl; lia|].
      intros [|i] Hi; simpl.
      * rewrite Nat.add_0_r. assumption.
      * replace (k + S i) with (S k + i) by lia. apply Hnth. lia.
    + intros [Hlen Hnth]. destruct r as [|y ys]; [discriminate|].
      constructor.
      * specialize (Hnth 0). simpl in Hnth. rewrite Nat.add_0_r in Hnth.
        apply Hnth. lia.
      * apply IH. split; [simpl in Hlen; lia|].
        intros i Hi. specialize (Hnth (S i)). simpl in Hnth.
        replace (S k + i) with (k + S i) by lia. apply Hnth. lia.
Qed.

(** ** The confidence intervals *)

Section Confidence.

Variable ot : OpenTURNS.

Lemma list_setitem_middle {A} (pre : list A) (x v : A) (post : list A) :
  list_setitem (pre ++ x :: post) (length pre) v = Ok ((pre ++ [v]) ++ post).
Proof.
  unfold list_setitem. rewrite decide_True.
  - f_equal. rewrite <- app_assoc. simpl.
    replace (length pre) with (length pre + 0) by lia.
    rewrite insert_app_r. reflexivity.
  - rewrite length_app. simpl. lia.
Qed.

Lemma confidence_loop (fo_sample to_sample : Sample) (alpha : float) :
  let beta := ((1.0 - alpha) / 2)%float in
  forall (n k : nat) (a1 a2 a3 a4 : list float) (b : Bounds),
    length a1 = k -> length a2 = k -> length a3 = k -> length a4 = k ->
    (foldR (confidence_body ot fo_sample to_sample alpha) (seq k n)
       (mkBounds (a1 ++ repeat 0%float n) (a2 ++ repeat 0%float n)
          (a3 ++ repeat 0%float n) (a4 ++ repeat 0%float n)) = Ok b
     <->
     exists r1 r2 r3 r4,
       b = mkBounds (a1 ++ r1) (a2 ++ r2) (a3 ++ r3) (a4 ++ r4) /\
       mapR (column_quantile ot fo_sample beta) (seq k n) = Ok r1 /\
       mapR (column_quantile ot fo_sample (1.0 - beta)%float) (seq k n) = Ok r2 /\
       mapR (column_quantile ot to_sample beta) (seq k n) = Ok r3 /\
       mapR (column_quantile ot to_sample (1.0 - beta)%float) (seq k n) = Ok r4).
Proof.
  intros beta n. induction n as [|n IH]; intros k a1 a2 a3 a4 b H1 H2 H3 H4.
  - simpl. rewrite !app_nil_r. split.
    + intros [= <-]. exists [], [], [], []. rewrite !app_nil_r. auto.
    + intros (r1 & r2 & r3 & r4 & -> & [= <-] & [= <-] & [= <-] & [= <-]).
      rewrite !app_nil_r. reflexivity.
  - cbn [seq foldR mapR repeat]. unfold confidence_body at 1. cbn [fo_lb fo_ub to_lb to_ub].
    fold beta. unfold column_quantile at 1 3 5 7.
    destruct (Sample_column fo_sample k) as [fo_i|e] eqn:Hfo; cbn [result_bind].
    2:{ split; [discriminate|]. intros (r1 & r2 & r3 & r4 & _ & H & _). discriminate. }
    destruct (Sample_column to_sample k) as [to_i|e] eqn:Hto; cbn [result_bind].
    2:{ split; [discriminate|]. intros (r1 & r2 & r3 & r4 & _ & _ & _ & H & _). discriminate. }
    destruct (computeQuantile ot fo_i beta) as [v1|e]; cbn [result_bind].
    2:{ split; [discriminate|]. intros (r1 & r2 & r3 & r4 & _ & H & _). discriminate. }
    rewrite <- H1 at 1. rewrite list_setitem_middle. cbn [result_bind].
    destruct (computeQuantile ot fo_i (1.0 - beta)) as [v2|e]; cbn [result_bind].
    2:{ split; [discriminate|]. intros (r1 & r2 & r3 & r4 & _ & _ & H & _). discriminate. }
    rewrite <- H2 at 1. rewrite list_setitem_middle. cbn [result_bind].
    destruct (computeQuantile ot to_i beta) as [v3|e]; cbn [result_bind].
    2:{ split; [discriminate|]. intros (r1 & r2 & r3 & r4 & _ & _ & _ & H & _). discriminate. }
    rewrite <- H3 at 1. rewrite list_setitem_middle. cbn [result_bind].
    destruct (computeQuantile ot to_i (1.0 - beta)) as [v4|e]; cbn [result_bind].
    2:{ split; [discriminate|]. intros (r1 & r2 & r3 & r4 & _ & _ & _ & _ & H). discriminate. }
    rewrite <- H4 at 1. rewrite list_setitem_middle. cbn [result_bind].
    rewrite (IH (S k) (a1 ++ [v1]) (a2 ++ [v2]) (a3 ++ [v3]) (a4 ++ [v4]) b)
      by (rewrite length_app; simpl; lia).
    split.
    + intros (r1 & r2 & r3 & r4 & -> & E1 & E2 & E3 & E4).
      exists (v1 :: r1), (v2 :: r2), (v3 :: r3), (v4 :: r4).
      rewrite E1, E2, E3, E4. cbn [result_bind].
      rewrite <- !app_assoc. auto.
    + intros (r1 & r2 & r3 & r4 & -> & E1 & E2 & E3 & E4).
      destruct (mapR (column_quantile ot fo_sample beta) (seq (S k) n)) as [s1|]; [|discriminate].
      destruct (mapR (column_quantile ot fo_sample (1.0 - beta)) (seq (S k) n)) as [s2|]; [|discriminate].
      destruct (mapR (column_quantile ot to_sample beta) (seq (S k) n)) as [s3|]; [|discriminate].
      destruct (mapR (column_quantile ot to_sample (1.0 - beta)) (seq (S k) n)) as [s4|]; [|discriminate].
      cbn [result_bind] in *.
      injection E1 as <-. injection E2 as <-. injection E3 as <-. injection E4 as <-.
      exists s1, s2, s3, s4. rewrite <- !app_assoc. auto.
Qed.

End Confidence.

Lemma column_quantile_Ok (ot : OpenTURNS) (s : Sample) (p : float) (i : nat) (v : float) :
  column_quantile ot s p i = Ok v <->
  i < getDimension s /\ computeQuantile ot (column s i) p = Ok v.
Proof.
  unfold column_quantile, Sample_column, getDimension, column.
  destruct (decide (i < dimension s)) as [Hi|Hi]; simpl.
  - split; [auto|]. intros [_ H]. exact H.
  - split; [discriminate|]. intros [H _]. contradiction.
Qed.

(** C1: [computeSobolIndicesConfidenceInterval] returns the intervals
    [fo_interval] and [to_interval] exactly when, for every input dimension
    [i], their lower and upper bounds at [i] are the quantiles of levels
    [beta] and [1 - beta] of column [i] of the first-order and of the
    total-order replicates, with [beta = (1 - alpha) / 2] and [alpha = 0.95]
    when it is not given. *)
Theorem confidence_interval_quantiles (ot : OpenTURNS) (fo_sample to_sample : Sample)
    (alpha : option float) (fo_interval to_interval : Interval) :
  let beta := ((1.0 - param 0.95 alpha) / 2)%float in
  let D := getDimension fo_sample in
  computeSobolIndicesConfidenceInterval ot fo_sample to_sample alpha
    = Ok (fo_interval, to_interval)
  <->
  length (lowerBound fo_interval) = D /\ length (upperBound fo_interval) = D /\
  length (lowerBound to_interval) = D /\ length (upperBound to_interval) = D /\
  forall i, i < D ->
    i < getDimension to_sample /\
    computeQuantile ot (column fo_sample i) beta
      = Ok (nth i (lowerBound fo_interval) 0%float) /\
    computeQuantile ot (column fo_sample i) (1.0 - beta)%float
      = Ok (nth i (upperBound fo_interval) 0%float) /\
    computeQuantile ot (column to_sample i) beta
      = Ok (nth i (lowerBound to_interval) 0%float) /\
    computeQuantile ot (column to_sample i) (1.0 - beta)%float
      = Ok (nth i (upperBound to_interval) 0%float).
Proof.
  intros beta D. unfold computeSobolIndicesConfidenceInterval. fold D.
  set (a := param 0.95%float alpha). set (zeros := repeat 0%float D).
  pose proof (confidence_loop ot fo_sample to_sample a D 0 [] [] [] []) as Hloop.
  cbn zeta in Hloop. simpl app in Hloop. fold beta in Hloop. fold zeros in Hloop.
  split.
  - destruct (foldR _ _ _) as [b|e] eqn:Hb in |- *; simpl; [|discriminate].
    intros [= <- <-]. simpl.
    apply Hloop in Hb as (r1 & r2 & r3 & r4 & -> & E1 & E2 & E3 & E4);
      [|reflexivity..]. simpl.
    apply mapR_Forall2, (Forall2_seq_nth _ 0%float) in E1 as [L1 N1].
    apply mapR_Forall2, (Forall2_seq_nth _ 0%float) in E2 as [L2 N2].
    apply mapR_Forall2, (Forall2_seq_nth _ 0%float) in E3 as [L3 N3].
    apply mapR_Forall2, (Forall2_seq_nth _ 0%float) in E4 as [L4 N4].
    repeat (split; [assumption|]). intros i Hi.
    specialize (N1 i Hi). specialize (N2 i Hi). specialize (N3 i Hi). specialize (N4 i Hi).
    simpl in N1, N2, N3, N4.
    apply column_quantile_Ok in N1 as [_ N1]. apply column_quantile_Ok in N2 as [_ N2].
    apply column_quantile_Ok in N3 as [Hto N3]. apply column_quantile_Ok in N4 as [_ N4].
    auto.
  - intros (L1 & L2 & L3 & L4 & HN).
    destruct fo_interval as [l1 u1], to_interval as [l3 u3]. simpl in *.
    assert (Hb : foldR (confidence_body ot fo_sample to_sample a) (seq 0 D)
                   (mkBounds zeros zeros zeros zeros) = Ok (mkBounds l1 u1 l3 u3)).
    { apply Hloop; [reflexivity..|]. exists l1, u1, l3, u3.
      split; [reflexivity|].
      repeat split; apply mapR_Forall2, (Forall2_seq_nth _ 0%float);
        (split; [assumption|]); intros i Hi; simpl;
        apply column_quantile_Ok; destruct (HN i Hi) as (? & ? & ? & ? & ?); auto. }
    rewrite Hb. reflexivity.
Qed.

(** ** Bootstrap resampling *)

Lemma Sample_select_Forall2 (s : Sample) (selection : list nat) (s' : Sample) :
  Sample_select s selection = Ok s' <->
  dimension s' = dimension s /\ description s' = description s /\
  Forall2 (fun i r => rows s !! i = Some r) selection (rows s').
Proof.
  unfold Sample_select.
  set (f := fun i : nat => match rows s !! i with
                           | Some r => Ok r
                           | None => Raise "IndexError"
                           end).
  assert (Hf : forall i r, f i = Ok r <-> rows s !! i = Some r).
  { intros i r. unfold f. destruct (rows s !! i); split; congruence. }
  split.
  - destruct (mapR f selection) as [rs|e] eqn:Hrs; simpl; [|discriminate].
    intros [= <-]. simpl. repeat split.
    apply mapR_Forall2 in Hrs. eapply Forall2_impl; [exact Hrs|].
    intros i r. apply Hf.
  - intros (Hdim & Hdesc & Hrows).
    assert (Hrs : mapR f selection = Ok (rows s')).
    { apply mapR_Forall2. eapply Forall2_impl; [exact Hrows|]. intros i r. apply Hf. }
    rewrite Hrs. simpl. destruct s'. simpl in *. congruence.
Qed.

Lemma Sample_select_total (s : Sample) (selection : list nat) :
  Forall (fun i => i < getSize s) selection ->
  exists s', Sample_select s selection = Ok s' /\ getSize s' = length selection.
Proof.
  intros Hsel.
  assert (exists rs, Forall2 (fun i r => rows s !! i = Some r) selection rs) as [rs Hrs].
  { induction Hsel as [|i l Hi _ [rs IH]].
    - exists []. constructor.
    - apply lookup_lt_is_Some_2 in Hi as [r Hr]. exists (r :: rs). constructor; assumption. }
  exists (mkSample (dimension s) (description s) rs). split.
  - apply Sample_select_Forall2. simpl. auto.
  - unfold getSize. simpl. symmetry. eapply Forall2_length, Hrs.
Qed.

Lemma multiBootstrap_pair (ot : OpenTURNS) (X Y : Sample) (w : World) :
  multiBootstrap ot [X; Y] w =
  (mkWorld (self w) (stdout w)
     (snd (GenerateSelection ot (getSize X) (getSize X) (randomGenerator w))) (chaosRuns w),
   let selection := fst (GenerateSelection ot (getSize X) (getSize X) (randomGenerator w)) in
   result_bind (Sample_select X selection) (fun X_boot =>
   result_bind (Sample_select Y selection) (fun Y_boot => Ok [X_boot; Y_boot]))).
Proof.
  unfold multiBootstrap, bind, generateSelection, lift.
  destruct (GenerateSelection ot _ _ _) as [selection g]. simpl.
  destruct (Sample_select X selection); simpl; [|reflexivity].
  destruct (Sample_select Y selection); reflexivity.
Qed.

(** Whatever the selection drawn, the rows of the two resamples come in pairs
    of the original data. *)
Lemma select_pairing (X Y X_boot Y_boot : Sample) (selection : list nat) :
  Sample_select X selection = Ok X_boot ->
  Sample_select Y selection = Ok Y_boot ->
  forall k x y,
    rows X_boot !! k = Some x -> rows Y_boot !! k = Some y ->
    exists j, selection !! k = Some j /\ rows X !! j = Some x /\ rows Y !! j = Some y.
Proof.
  intros HX HY k x y Hx Hy.
  apply Sample_select_Forall2 in HX as (_ & _ & HX).
  apply Sample_select_Forall2 in HY as (_ & _ & HY).
  destruct (Forall2_lookup_r _ _ _ _ _ HX Hx) as (j & Hj & Hjx).
  destruct (Forall2_lookup_r _ _ _ _ _ HY Hy) as (j' & Hj' & Hjy).
  exists j. rewrite Hj in Hj'. injection Hj' as <-. auto.
Qed.

(** C2: [multiBootstrap(X, Y)] on two samples of the same size [N], with a
    generator that returns [N] indices below [N], returns two samples of size
    [N] made with one and the same selection of row indices: row [k] of the
    resampled inputs and row [k] of the resampled outputs are the rows of one
    original index [j], so every resampled pair is a pair of the original
    data. *)
Theorem multiBootstrap_pairing (ot : OpenTURNS) (X Y : Sample) (w : World) :
  let N := getSize X in
  let selection := fst (GenerateSelection ot N N (randomGenerator w)) in
  length selection = N ->
  Forall (fun i => i < N) selection ->
  getSize Y = N ->
  exists X_boot Y_boot,
    snd (multiBootstrap ot [X; Y] w) = Ok [X_boot; Y_boot] /\
    getSize X_boot = N /\ getSize Y_boot = N /\
    (forall k, k < N ->
       exists j x y, selection !! k = Some j /\ j < N /\
         rows X_boot !! k = Some x /\ rows X !! j = Some x /\
         rows Y_boot !! k = Some y /\ rows Y !! j = Some y) /\
    (forall x y, (x, y) ∈ zip (rows X_boot) (rows Y_boot) ->
                 (x, y) ∈ zip (rows X) (rows Y)).
Proof.
  intros N selection Hlen Hrange HY.
  destruct (Sample_select_total X selection Hrange) as (X_boot & HXb & HXs).
  assert (HrangeY : Forall (fun i => i < getSize Y) selection) by (rewrite HY; exact Hrange).
  destruct (Sample_select_total Y selection HrangeY) as (Y_boot & HYb & HYs).
  exists X_boot, Y_boot.
  rewrite multiBootstrap_pair. cbn [snd]. fold N. fold selection.
  rewrite HXb. cbn [result_bind]. rewrite HYb. cbn [result_bind].
  split; [reflexivity|]. split; [congruence|]. split; [congruence|]. split.
  - intros k Hk.
    assert (is_Some (rows X_boot !! k)) as [x Hx].
    { apply lookup_lt_is_Some_2. unfold getSize in HXs. lia. }
    assert (is_Some (rows Y_boot !! k)) as [y Hy].
    { apply lookup_lt_is_Some_2. unfold getSize in HYs. lia. }
    destruct (select_pairing _ _ _ _ _ HXb HYb k x y Hx Hy) as (j & Hj & Hjx & Hjy).
    exists j, x, y. repeat split; try assumption.
    apply lookup_lt_Some in Hjx. exact Hjx.
  - intros x y Hin.
    apply list_elem_of_lookup in Hin as [k Hk].
    apply lookup_zip_with_Some in Hk as (x' & y' & [= <- <-] & Hx & Hy).
    destruct (select_pairing _ _ _ _ _ HXb HYb k x y Hx Hy) as (j & Hj & Hjx & Hjy).
    apply list_elem_of_lookup. exists j.
    apply lookup_zip_with_Some. exists x, y. auto.
Qed.

(** ** One fit *)

Ltac unfold_fit :=
  unfold _computeChaosSensitivity, chooseStrategy, metamodel_setitem, chaosSI_setitem,
    chaosSI_getitem, runFunctionalChaos, bind, lift, reject, ret, raise, get_self,
    modify_self, print, set_self, dict_getitem.

Ltac project_world :=
  cbn beta iota zeta delta [fst snd self stdout randomGenerator chaosRuns
     input output inputSample outputSample distribution chaosSI metamodel S1 ST bootstrap
     with_metamodel with_chaosSI param] in *;
  rewrite ?lookup_insert_eq.

(** Case analysis on the next statement that may raise. *)
Ltac step :=
  match goal with
  | |- context [match ?x with _ => _ end] =>
      lazymatch x with
      | context [match _ with _ => _ end] => fail
      | _ => destruct x eqn:?
      end
  end; project_world;
  try match goal with
      | H : @eq string _ _ |- _ => discriminate H
      | H : ¬ @eq string ?x ?x |- _ => destruct (H eq_refl)
      end.

Ltac use_results :=
  repeat (match goal with H : _ = Ok _ |- _ => rewrite H; clear H end; cbn [result_bind]).

Lemma basis_enumerate (polyColl : list polyEntry) (ef : EnumerateFunction) (basis : ProductBasis) :
  OrthogonalProductPolynomialFactory polyColl ef = Ok basis -> pb_enumerate basis = ef.
Proof.
  unfold OrthogonalProductPolynomialFactory.
  destruct (mapR _ polyColl); simpl; [|discriminate]. intros [= <-]. reflexivity.
Qed.

(** C7, as amended: a fit writes, in the analysis object, the entry of the
    name of the output in [self.metamodel] and in [self.chaosSI], and nothing
    else: the other attributes, the other entries of these dictionaries and
    the random generator are unchanged, and the standard output only grows. *)
Theorem fit_frame (ot : OpenTURNS) (X Y : Sample)
    (strategy : option string) (q : option float) (verbose : option bool) (w : World) :
  let w' := fst (_computeChaosSensitivity ot X Y strategy q verbose w) in
  same_setup (self w) (self w') /\
  randomGenerator w' = randomGenerator w /\
  (exists printed, stdout w' = stdout w ++ printed) /\
  (metamodel (self w') = metamodel (self w) \/
   exists d oo names res,
     getDescription Y = oo :: names /\ metamodel (self w) = Some d /\
     metamodel (self w') = Some (<[oo := getMetaModel res]> d)) /\
  (chaosSI (self w') = chaosSI (self w) \/
   exists d oo names res,
     getDescription Y = oo :: names /\ chaosSI (self w) = Some d /\
     chaosSI (self w') = Some (<[oo := mkFunctionalChaosSobolIndices res]> d)).
Proof.
  unfold same_setup. unfold_fit. project_world. repeat step.
  all: split; [repeat split|].
  all: split; [reflexivity|].
  all: (split; [eexists; first [ symmetry; apply app_nil_r
                               | reflexivity
                               | rewrite <- app_assoc; reflexivity ] |]).
  all: split; first [ left; congruence | right; eauto 10 ].
Qed.

(** What a successful fit with the default parameters has done. *)
Lemma fit_default_Ok (ot : OpenTURNS) (X Y : Sample) (w w' : World) (f t : list float) :
  _computeChaosSensitivity ot X Y None None None w = (w', Ok (f, t)) ->
  same_setup (self w) (self w') /\
  randomGenerator w' = randomGenerator w /\
  exists c,
    chaosRuns w' = chaosRuns w ++ [c] /\
    call_inputSample c = X /\ call_outputSample c = Y /\
    default_strategy (length (input (self w))) c /\
    call_indices ot (length (input (self w))) c = Ok (f, t).
Proof.
  unfold_fit. project_world. repeat step.
  all: intros [= <- <- <-] || (intros ?; discriminate).
  all: split; [repeat split|]. all: split; [reflexivity|].
  all: eexists; split; [reflexivity|]; simpl; repeat split.
  all: try (eexists; split; [reflexivity|]; eapply basis_enumerate; eassumption).
  all: unfold call_indices, sobol_vectors; simpl; use_results; reflexivity.
Qed.

(** The calls of the chaos algorithm that a fit with the default parameters
    makes, whether it returns or raises. *)
Lemma fit_default_calls (ot : OpenTURNS) (X Y : Sample) (w : World) :
  let w' := fst (_computeChaosSensitivity ot X Y None None None w) in
  same_setup (self w) (self w') /\
  exists calls,
    chaosRuns w' = chaosRuns w ++ calls /\
    Forall (default_strategy (length (input (self w)))) calls.
Proof.
  unfold same_setup. unfold_fit. project_world. repeat step.
  all: split; [repeat split|].
  all: first [ exists []; split; [symmetry; apply app_nil_r | constructor]
             | eexists [_]; split; [reflexivity|]; repeat constructor;
               eexists; split; [reflexivity|]; eapply basis_enumerate; eassumption ].
Qed.

(** ** The loop over the replicates *)

Lemma insideb_repeat (l u : float) (p : Point) :
  insideb (repeat l (length p)) p (repeat u (length p)) = true <->
  Forall (fun x => outside l x u = false) p.
Proof.
  induction p as [|x p IH]; simpl.
  - split; [constructor|reflexivity].
  - rewrite andb_true_iff, negb_true_iff, IH. split.
    + intros [H1 H2]. constructor; assumption.
    + intros H. inversion H. auto.
Qed.

Lemma contains_unit_eps (dim : nat) (p : Point) (b : bool) :
  Interval_contains (unit_eps dim) p = Ok b ->
  length p = dim /\ (b = true <-> in_unit_eps p).
Proof.
  unfold Interval_contains, unit_eps. simpl. rewrite repeat_length.
  destruct (decide (length p = dim)) as [<-|]; [|discriminate].
  intros [= <-]. split; [reflexivity|]. apply insideb_repeat.
Qed.

Lemma replicate_body_Ok (ot : OpenTURNS) (X Y : Sample) (dim : nat)
    (fo0 to0 : Sample) (i : nat) (w w' : World) (fo to : Sample) :
  dimension fo0 = dim -> dimension to0 = dim ->
  replicate_body ot X Y (unit_eps dim) (fo0, to0) i w = (w', Ok (fo, to)) ->
  same_setup (self w) (self w') /\
  randomGenerator w' = draw ot (getSize X) (randomGenerator w) /\
  dimension fo = dim /\ dimension to = dim /\
  description fo = description fo0 /\ description to = description to0 /\
  exists c rep,
    chaosRuns w' = chaosRuns w ++ [c] /\
    resample_of ot X Y (randomGenerator w) c /\
    default_strategy (length (input (self w))) c /\
    call_indices ot (length (input (self w))) c = Ok rep /\
    rows fo = rows fo0 ++ (if decide (retained rep) then [fst rep] else []) /\
    rows to = rows to0 ++ (if decide (retained rep) then [snd rep] else []).
Proof.
  intros Hfo0 Hto0. unfold replicate_body. unfold bind at 1.
  rewrite multiBootstrap_pair. cbv zeta.
  destruct (Sample_select X _) as [X_boot|e] eqn:HX; cbn [result_bind]; [|discriminate].
  destruct (Sample_select Y _) as [Y_boot|e] eqn:HY; cbn [result_bind]; [|discriminate].
  unfold bind at 1.
  destruct (_computeChaosSensitivity ot X_boot Y_boot None None None _)
    as [w2 [[f t]|e]] eqn:Hfit; [|discriminate].
  apply fit_default_Ok in Hfit as (Hsetup & Hrng & c & Hruns & HcX & HcY & Hdef & Hind).
  cbn [self randomGenerator chaosRuns] in Hsetup, Hrng, Hruns, Hdef, Hind.
  unfold bind, lift, ret.
  destruct (Interval_contains (unit_eps dim) f) as [b1|e] eqn:Hf; [|discriminate].
  apply contains_unit_eps in Hf as [Hlf Hb1].
  assert (Hcommon : forall fo to,
             fo = fo0 -> to = to0 -> ~ retained (f, t) ->
             same_setup (self w) (self w2) /\
             randomGenerator w2 = draw ot (getSize X) (randomGenerator w) /\
             dimension fo = dim /\ dimension to = dim /\
             description fo = description fo0 /\ description to = description to0 /\
             exists c rep,
               chaosRuns w2 = chaosRuns w ++ [c] /\
               resample_of ot X Y (randomGenerator w) c /\
               default_strategy (length (input (self w))) c /\
               call_indices ot (length (input (self w))) c = Ok rep /\
               rows fo = rows fo0 ++ (if decide (retained rep) then [fst rep] else []) /\
               rows to = rows to0 ++ (if decide (retained rep) then [snd rep] else [])).
  { intros ? ? -> -> Hnot. repeat (split; [assumption || reflexivity|]).
    exists c, (f, t). split; [assumption|]. split.
    { unfold resample_of. cbv zeta. rewrite HcX, HcY. split; assumption. }
    split; [assumption|]. split; [assumption|].
    rewrite !decide_False by assumption. rewrite !app_nil_r. auto. }
  destruct b1.
  - destruct (Interval_contains (unit_eps dim) t) as [b2|e] eqn:Ht; [|discriminate].
    apply contains_unit_eps in Ht as [Hlt Hb2].
    destruct b2.
    + unfold Sample_add. rewrite !decide_True by congruence.
      intros [= <- <- <-]. cbn [dimension description rows].
      repeat (split; [assumption || reflexivity|]).
      exists c, (f, t). split; [assumption|]. split.
      { unfold resample_of. cbv zeta. rewrite HcX, HcY. split; assumption. }
      split; [assumption|]. split; [assumption|].
      assert (Hret : retained (f, t)) by (split; [apply Hb1 | apply Hb2]; reflexivity).
      rewrite !decide_True by assumption. auto.
    + intros [= <- <- <-]. apply Hcommon; [reflexivity..|].
      intros [_ H]. apply Hb2 in H. discriminate.
  - intros [= <- <- <-]. apply Hcommon; [reflexivity..|].
    intros [H _]. apply Hb1 in H. discriminate.
Qed.

Lemma same_setup_refl (s : OpenTurnsPCESobol) : same_setup s s.
Proof. repeat split. Qed.

Lemma same_setup_trans (s1 s2 s3 : OpenTurnsPCESobol) :
  same_setup s1 s2 -> same_setup s2 s3 -> same_setup s1 s3.
Proof.
  unfold same_setup. intros (?&?&?&?&?&?&?&?) (?&?&?&?&?&?&?&?).
  repeat split; congruence.
Qed.

Lemma replicate_loop_Ok (ot : OpenTURNS) (X Y : Sample) (dim : nat) :
  forall (n k : nat) (fo0 to0 : Sample) (w w' : World) (fo to : Sample),
    dimension fo0 = dim -> dimension to0 = dim ->
    foldM (replicate_body ot X Y (unit_eps dim)) (seq k n) (fo0, to0) w = (w', Ok (fo, to)) ->
    same_setup (self w) (self w') /\
    randomGenerator w' = Nat.iter n (draw ot (getSize X)) (randomGenerator w) /\
    dimension fo = dim /\ dimension to = dim /\
    description fo = description fo0 /\ description to = description to0 /\
    exists calls reps,
      chaosRuns w' = chaosRuns w ++ calls /\
      length calls = n /\
      Forall2 (fun c rep => call_indices ot (length (input (self w))) c = Ok rep) calls reps /\
      Forall (default_strategy (length (input (self w)))) calls /\
      (forall i c, calls !! i = Some c ->
         resample_of ot X Y (Nat.iter i (draw ot (getSize X)) (randomGenerator w)) c) /\
      rows fo = rows fo0 ++ map fst (filter retained reps) /\
      rows to = rows to0 ++ map snd (filter retained reps).
Proof.
  induction n as [|n IH]; intros k fo0 to0 w w' fo to Hfo0 Hto0; cbn [seq foldM].
  - unfold ret. intros [= <- <- <-].
    split; [apply same_setup_refl|]. repeat (split; [assumption || reflexivity|]).
    exists [], []. rewrite !app_nil_r.
    split; [reflexivity|]. split; [reflexivity|].
    split; [constructor|]. split; [constructor|].
    split; [|split; reflexivity].
    intros j c Hc. discriminate.
  - unfold bind at 1.
    destruct (replicate_body ot X Y (unit_eps dim) (fo0, to0) k w)
      as [w1 [[fo1 to1]|e]] eqn:Hbody; [|discriminate].
    apply replicate_body_Ok in Hbody
      as (Hs1 & Hg1 & Hdf1 & Hdt1 & Hnf1 & Hnt1 & c & rep & Hr1 & Hres & Hdef & Hind & Hrf1 & Hrt1);
      [|assumption..].
    intros Hloop. apply IH in Hloop
      as (Hs2 & Hg2 & Hdf2 & Hdt2 & Hnf2 & Hnt2 & calls & reps & Hr2 & Hlen & Hinds & Hdefs
          & Hress & Hrf2 & Hrt2); [|assumption..].
    assert (Hinput : input (self w1) = input (self w)) by apply Hs1.
    rewrite Hinput in Hinds, Hdefs.
    split; [eapply same_setup_trans; eassumption|].
    split; [rewrite Hg2, Hg1; symmetry; apply Nat.iter_succ_r|].
    repeat (split; [congruence|]).
    exists (c :: calls), (rep :: reps).
    split; [rewrite Hr2, Hr1, <- app_assoc; reflexivity|].
    split; [simpl; congruence|].
    split; [constructor; assumption|].
    split; [constructor; assumption|].
    split.
    { intros [|i] c' Hc'; simpl in Hc'.
      - injection Hc' as <-. exact Hres.
      - rewrite Nat.iter_succ_r, <- Hg1. apply Hress. exact Hc'. }
    rewrite filter_cons. rewrite Hrf2, Hrt2, Hrf1, Hrt1.
    destruct (decide (retained rep)); simpl; rewrite <- !app_assoc; auto.
Qed.

(** ** Comparisons of binary64 numbers *)

Lemma compare_cont_opp (m1 m2 : positive) :
  PosDef.Pos.compare_cont Eq m2 m1 = CompOpp (PosDef.Pos.compare_cont Eq m1 m2).
Proof. symmetry. exact (Pos.compare_cont_antisym m1 m2 Eq). Qed.

Lemma SFcompare_antisym (a b : spec_float) :
  SFcompare b a = option_map CompOpp (SFcompare a b).
Proof.
  destruct a as [s1| s1 | |s1 m1 e1], b as [s2|s2| |s2 m2 e2]; simpl;
    try reflexivity;
    try (destruct s1; reflexivity); try (destruct s2; reflexivity);
    try (destruct s1, s2; reflexivity).
  destruct s1, s2; simpl; try reflexivity.
  - rewrite (Z.compare_antisym e1 e2). destruct (e1 ?= e2)%Z; simpl; try reflexivity.
    rewrite (compare_cont_opp m1 m2).
    destruct (PosDef.Pos.compare_cont Eq m1 m2); reflexivity.
  - rewrite (Z.compare_antisym e1 e2). destruct (e1 ?= e2)%Z; simpl; try reflexivity.
    rewrite (compare_cont_opp m1 m2). reflexivity.
Qed.

Lemma SFcompare_None (a b : spec_float) :
  SFcompare a b = None <-> a = S754_nan \/ b = S754_nan.
Proof.
  destruct a, b; simpl; split; intros H; try discriminate; auto;
    destruct H as [H|H]; discriminate.
Qed.

(** [x < y] is false exactly when [y <= x] or one of the two is NaN. *)
Lemma ltb_false (x y : float) :
  (x <? y)%float = false <-> (y <=? x)%float = true \/ x = nan \/ y = nan.
Proof.
  rewrite ltb_spec, leb_spec. unfold SFltb, SFleb.
  rewrite (SFcompare_antisym (Prim2SF x) (Prim2SF y)).
  assert (Hn : forall z, Prim2SF z = S754_nan <-> z = nan).
  { intros z. split; [intros H; apply Prim2SF_inj; rewrite H; reflexivity
                     | intros ->; reflexivity]. }
  pose proof (SFcompare_None (Prim2SF x) (Prim2SF y)) as HN. rewrite !Hn in HN.
  destruct (SFcompare (Prim2SF x) (Prim2SF y)) as [[]|]; simpl.
  - split; auto.
  - split; [discriminate|]. intros [H|H]; [discriminate|]. apply HN in H. discriminate.
  - split; auto.
  - split; [intros _; right; apply HN; reflexivity | reflexivity].
Qed.

Lemma not_nan (x : float) : Prim2SF x <> S754_nan -> x <> nan.
Proof. intros H ->. apply H. reflexivity. Qed.

(** The test of one coordinate by [unit_eps.contains]. *)
Lemma outside_unit_eps (x : float) :
  outside 1e-9%float x (1 - 1e-9)%float = false <-> lies_inside x \/ x = nan.
Proof.
  unfold outside, lies_inside. rewrite orb_false_iff, !ltb_false.
  assert (Hl : 1e-9%float <> nan) by (apply not_nan; vm_compute; discriminate).
  assert (Hu : (1 - 1e-9)%float <> nan) by (apply not_nan; vm_compute; discriminate).
  split.
  - intros [[H1|[H1|H1]] [H2|[H2|H2]]]; try contradiction; auto.
  - intros [[H1 H2]|H]; auto.
Qed.

Lemma in_unit_eps_spec (p : Point) : in_unit_eps p <-> inside_or_nan p.
Proof.
  unfold in_unit_eps, inside_or_nan. rewrite !Forall_forall.
  split; intros H x Hx; apply outside_unit_eps, H, Hx.
Qed.

Lemma retained_spec (rep : Point * Point) :
  retained rep <-> inside_or_nan (fst rep) /\ inside_or_nan (snd rep).
Proof. unfold retained. rewrite !in_unit_eps_spec. reflexivity. Qed.

(** C3, as amended: when the loop over the replicates of one output returns,
    the chaos algorithm has been run exactly [bootstrap_size] times, each
    time on a resample drawn from the next state of the generator (no
    replicate is drawn again); the retained first-order and total-order
    collections are, in order, the index vectors of the replicates that pass
    the test of [unit_eps.contains], and of no other; a replicate passes it
    exactly when every coordinate of its two vectors lies in
    [[1e-9, 1 - 1e-9]] or is NaN, so that a vector with a NaN coordinate is
    kept; the size of the collections is at most [bootstrap_size]. *)
Theorem bootstrap_loop_retains (ot : OpenTURNS) (bootstrap_size : nat) (X Y : Sample)
    (dim_input : nat) (w w' : World) (fo_sample to_sample : Sample) :
  bootstrap_loop ot bootstrap_size X Y dim_input w = (w', Ok (fo_sample, to_sample)) ->
  exists (calls : list ChaosCall) (reps : list (Point * Point)),
    chaosRuns w' = chaosRuns w ++ calls /\
    length calls = bootstrap_size /\
    randomGenerator w' =
      Nat.iter bootstrap_size (draw ot (getSize X)) (randomGenerator w) /\
    (forall i c, calls !! i = Some c ->
       resample_of ot X Y (Nat.iter i (draw ot (getSize X)) (randomGenerator w)) c) /\
    Forall2 (fun c rep => call_indices ot (length (input (self w))) c = Ok rep) calls reps /\
    rows fo_sample = map fst (filter retained reps) /\
    rows to_sample = map snd (filter retained reps) /\
    (forall rep, retained rep <-> inside_or_nan (fst rep) /\ inside_or_nan (snd rep)) /\
    getSize fo_sample <= bootstrap_size /\
    getSize to_sample <= bootstrap_size.
Proof.
  unfold bootstrap_loop. intros Hloop.
  apply replicate_loop_Ok in Hloop
    as (_ & Hg & _ & _ & _ & _ & calls & reps & Hruns & Hlen & Hinds & _ & Hres & Hfo & Hto);
    [|reflexivity..].
  simpl in Hfo, Hto.
  exists calls, reps. repeat (split; [assumption|]).
  split; [exact retained_spec|].
  assert (Hreps : length reps = bootstrap_size).
  { rewrite <- Hlen. symmetry. eapply Forall2_length, Hinds. }
  split.
  - unfold getSize. rewrite Hfo, length_map, <- Hreps. apply length_filter.
  - unfold getSize. rewrite Hto, length_map, <- Hreps. apply length_filter.
Qed.

(** ** The strategy of the replicates *)

Lemma foldM_preserves {A S} (P : World -> World -> Prop) (body : S -> A -> M S) :
  (forall w, P w w) ->
  (forall w1 w2 w3, P w1 w2 -> P w2 w3 -> P w1 w3) ->
  (forall acc x w, P w (fst (body acc x w))) ->
  forall l acc w, P w (fst (foldM body l acc w)).
Proof.
  intros Hrefl Htrans Hbody. induction l as [|x l IH]; intros acc w; simpl.
  - apply Hrefl.
  - unfold bind. pose proof (Hbody acc x w) as H1.
    destruct (body acc x w) as [w1 [acc'|e]]; simpl in *.
    + eapply Htrans; [exact H1|]. apply IH.
    + exact H1.
Qed.

Lemma default_calls_refl (w : World) : default_calls w w.
Proof.
  split; [reflexivity|]. exists []. split; [symmetry; apply app_nil_r|constructor].
Qed.

Lemma default_calls_trans (w1 w2 w3 : World) :
  default_calls w1 w2 -> default_calls w2 w3 -> default_calls w1 w3.
Proof.
  intros (Hi1 & c1 & Hr1 & Hd1) (Hi2 & c2 & Hr2 & Hd2).
  split; [congruence|]. exists (c1 ++ c2).
  split; [rewrite Hr2, Hr1, app_assoc; reflexivity|].
  rewrite Hi1 in Hd2. apply Forall_app. split; assumption.
Qed.

(** A step that leaves the object and the history of calls as they are. *)
Lemma default_calls_same (w w' : World) :
  self w' = self w -> chaosRuns w' = chaosRuns w -> default_calls w w'.
Proof.
  intros Hs Hc. split; [rewrite Hs; reflexivity|].
  exists []. split; [rewrite Hc; symmetry; apply app_nil_r|constructor].
Qed.

Lemma replicate_body_calls (ot : OpenTURNS) (X Y : Sample) (eps : Interval)
    (acc : Sample * Sample) (i : nat) (w : World) :
  default_calls w (fst (replicate_body ot X Y eps acc i w)).
Proof.
  unfold replicate_body. destruct acc as [fo to]. unfold bind at 1.
  rewrite multiBootstrap_pair. cbv zeta.
  destruct (Sample_select X _) as [X_boot|e]; cbn [result_bind];
    [|apply default_calls_same; reflexivity].
  destruct (Sample_select Y _) as [Y_boot|e]; cbn [result_bind];
    [|apply default_calls_same; reflexivity].
  unfold bind at 1.
  match goal with
  | |- context [_computeChaosSensitivity ot X_boot Y_boot None None None ?w1] =>
      pose proof (fit_default_calls ot X_boot Y_boot w1) as (Hsetup & calls & Hruns & Hdef);
      destruct (_computeChaosSensitivity ot X_boot Y_boot None None None w1)
        as [w2 [[f t]|e]]
  end; cbn [fst self chaosRuns] in Hsetup, Hruns, Hdef.
  all: assert (Hw2 : default_calls w w2)
    by (split; [apply Hsetup | exists calls; split; assumption]).
  2: exact Hw2.
  unfold bind, lift, ret.
  destruct (Interval_contains eps f) as [[|]|]; cbn [fst]; try exact Hw2.
  destruct (Interval_contains eps t) as [[|]|]; cbn [fst]; try exact Hw2.
  destruct (Sample_add fo f); cbn [fst]; try exact Hw2.
  destruct (Sample_add to t); exact Hw2.
Qed.

Lemma bootstrap_output_calls (ot : OpenTURNS) (bootstrap_size : nat) (verbose plot : bool)
    (X : Sample) (dim_input : nat) (acc : BootstrapStore) (oo : string) (w : World) :
  default_calls w (fst (bootstrap_output ot bootstrap_size verbose plot X dim_input acc oo w)).
Proof.
  unfold bootstrap_output. unfold bind at 1.
  set (w0 := fst ((if verbose then print [stars; oo; stars; newline] else ret tt) w)).
  assert (H0 : default_calls w w0).
  { subst w0. destruct verbose; apply default_calls_same; reflexivity. }
  assert (Hprint : (if verbose then print [stars; oo; stars; newline] else ret tt) w
                   = (w0, Ok tt)).
  { subst w0. destruct verbose; reflexivity. }
  rewrite Hprint. unfold bind at 1. unfold get_self at 1. unfold bind at 1. unfold lift at 1.
  destruct (dict_getitem (outputSample (self w0)) oo) as [Y|e]; [|exact H0].
  unfold bind at 1. unfold bootstrap_loop.
  pose proof (foldM_preserves default_calls
                (replicate_body ot X Y (unit_eps dim_input))
                default_calls_refl default_calls_trans
                (replicate_body_calls ot X Y (unit_eps dim_input))
                (seq 0 bootstrap_size) (Sample_new 0 dim_input, Sample_new 0 dim_input) w0)
    as H1.
  destruct (foldM _ _ _ w0) as [w1 [[fo to]|e]]; cbn [fst] in H1 |- *.
  2: { eapply default_calls_trans; eassumption. }
  assert (Hw1 : default_calls w w1) by (eapply default_calls_trans; eassumption).
  unfold bind, lift, ret, get_self, reject, raise.
  destruct (computeSobolIndicesConfidenceInterval ot fo to None) as [[foI toI]|e];
    [|exact Hw1].
  destruct plot; [|exact Hw1].
  destruct (computeMean ot fo); [|exact Hw1].
  destruct (computeMean ot to); [|exact Hw1].
  destruct (DrawSobolIndices_rejects ot _ _ _ _ _); exact Hw1.
Qed.

Lemma bootstrap_calls (ot : OpenTURNS) (bootstrap_size : nat) (verbose plot : option bool)
    (w : World) :
  default_calls w (fst (computeBootstrapChaosSobolIndices ot bootstrap_size verbose plot w)).
Proof.
  unfold computeBootstrapChaosSobolIndices. unfold bind at 1. unfold get_self at 1.
  unfold bind.
  match goal with
  | |- context [foldM ?body ?l ?acc w] =>
      pose proof (foldM_preserves default_calls body
                    default_calls_refl default_calls_trans
                    (bootstrap_output_calls ot bootstrap_size _ _ _ _) l acc w) as H1;
      destruct (foldM body l acc w) as [w1 [store|e]]
  end; cbn [fst] in H1 |- *; [|exact H1].
  eapply default_calls_trans; [exact H1|].
  unfold modify_self, set_self. cbn [fst].
  split; [reflexivity|]. exists []. cbn [chaosRuns]. rewrite app_nil_r.
  split; [reflexivity|constructor].
Qed.

(** One output of the bootstrap, when it does not raise. *)
Lemma bootstrap_output_Ok (ot : OpenTURNS) (bootstrap_size : nat) (verbose plot : bool)
    (X : Sample) (dim_input : nat) (acc : BootstrapStore) (oo : string)
    (w w' : World) (acc' : BootstrapStore) :
  bootstrap_output ot bootstrap_size verbose plot X dim_input acc oo w = (w', Ok acc') ->
  exists Y w0 fo to foI toI,
    outputSample (self w) !! oo = Some Y /\
    self w0 = self w /\
    stdout w0 = stdout w ++ banners verbose [oo] /\
    randomGenerator w0 = randomGenerator w /\
    chaosRuns w0 = chaosRuns w /\
    bootstrap_loop ot bootstrap_size X Y dim_input w0 = (w', Ok (fo, to)) /\
    computeSobolIndicesConfidenceInterval ot fo to None = Ok (foI, toI) /\
    acc' = mkBootstrapStore (<[oo := fo]> (FO acc)) (<[oo := to]> (TO acc))
             (<[oo := foI]> (FOI acc)) (<[oo := toI]> (TOI acc)).
Proof.
  unfold bootstrap_output. unfold bind at 1.
  set (w0 := fst ((if verbose then print [stars; oo; stars; newline] else ret tt) w)).
  assert (H0 : self w0 = self w) by (subst w0; destruct verbose; reflexivity).
  assert (Hout : stdout w0 = stdout w ++ banners verbose [oo]).
  { subst w0. destruct verbose; cbn [fst print ret stdout banners map];
      [reflexivity | symmetry; apply app_nil_r]. }
  assert (Hrng : randomGenerator w0 = randomGenerator w)
    by (subst w0; destruct verbose; reflexivity).
  assert (Hruns : chaosRuns w0 = chaosRuns w) by (subst w0; destruct verbose; reflexivity).
  assert (Hprint : (if verbose then print [stars; oo; stars; newline] else ret tt) w
                   = (w0, Ok tt)) by (subst w0; destruct verbose; reflexivity).
  rewrite Hprint. unfold bind at 1. unfold get_self at 1. unfold bind at 1. unfold lift at 1.
  unfold dict_getitem. rewrite H0.
  destruct (outputSample (self w) !! oo) as [Y|] eqn:HY; [|discriminate].
  unfold bind at 1.
  destruct (bootstrap_loop ot bootstrap_size X Y dim_input w0) as [w1 [[fo to]|e]] eqn:Hloop;
    [|discriminate].
  unfold bind at 1. unfold lift at 1.
  destruct (computeSobolIndicesConfidenceInterval ot fo to None) as [[foI toI]|e] eqn:HCI;
    [|discriminate].
  intros Hrest.
  assert (Hw : w' = w1 /\ acc' = mkBootstrapStore (<[oo := fo]> (FO acc))
                 (<[oo := to]> (TO acc)) (<[oo := foI]> (FOI acc)) (<[oo := toI]> (TOI acc))).
  { revert Hrest. unfold bind, lift, ret, get_self, reject, raise.
    destruct plot; [|intros [= <- <-]; auto].
    destruct (computeMean ot fo); [|discriminate].
    destruct (computeMean ot to); [|discriminate].
    destruct (DrawSobolIndices_rejects ot _ _ _ _ _); [discriminate|].
    intros [= <- <-]. auto. }
  destruct Hw as [-> ->].
  exists Y, w0, fo, to, foI, toI. repeat (split; [first [reflexivity|assumption]|]).
  reflexivity.
Qed.

(** The loop over the outputs, when it does not raise: one fit per replicate
    and per output, each on the resample drawn at its turn. *)
Lemma bootstrap_outputs_refits (ot : OpenTURNS) (bootstrap_size : nat) (verbose plot : bool)
    (X : Sample) (dim_input : nat) :
  forall (l : list string) (acc : BootstrapStore) (w w' : World) (store : BootstrapStore),
    foldM (bootstrap_output ot bootstrap_size verbose plot X dim_input) l acc w
      = (w', Ok store) ->
    same_setup (self w) (self w') /\
    randomGenerator w' =
      Nat.iter (length l * bootstrap_size) (draw ot (getSize X)) (randomGenerator w) /\
    exists calls,
      chaosRuns w' = chaosRuns w ++ calls /\
      length calls = length l * bootstrap_size /\
      refits_of ot bootstrap_size X l (outputSample (self w)) (randomGenerator w) calls.
Proof.
  induction l as [|oo l IH]; intros acc w w' store; cbn [foldM].
  - unfold ret. intros [= <- <-]. split; [apply same_setup_refl|].
    split; [reflexivity|]. exists []. split; [symmetry; apply app_nil_r|].
    split; [reflexivity|]. intros j i k c Hj. discriminate.
  - unfold bind at 1.
    destruct (bootstrap_output ot bootstrap_size verbose plot X dim_input acc oo w)
      as [w1 [acc1|e]] eqn:Hone; [|discriminate].
    apply bootstrap_output_Ok in Hone
      as (Y & w0 & fo & to & foI & toI & HY & Hw0 & _ & Hrng & Hruns & Hloop & _ & _).
    unfold bootstrap_loop in Hloop.
    apply replicate_loop_Ok in Hloop
      as (Hs1 & Hg1 & _ & _ & _ & _ & c1 & reps & Hc1 & Hl1 & _ & _ & Hres & _);
      [|reflexivity..].
    rewrite Hw0 in Hs1. rewrite Hrng in Hg1, Hres. rewrite Hruns in Hc1.
    intros Hrest. apply IH in Hrest as (Hs2 & Hg2 & c2 & Hc2 & Hl2 & Hrefits).
    split; [eapply same_setup_trans; eassumption|].
    split.
    { rewrite Hg2, Hg1. cbn [length Nat.mul]. rewrite Nat.add_comm.
      symmetry. apply Nat.iter_add. }
    exists (c1 ++ c2). split; [rewrite Hc2, Hc1, app_assoc; reflexivity|].
    split; [rewrite length_app, Hl1, Hl2; reflexivity|].
    intros j i k c Hj Hi Hc. destruct j as [|j].
    + injection Hj as <-. cbn [Nat.mul Nat.add] in Hc |- *.
      rewrite lookup_app_l in Hc by lia.
      exists Y. split; [exact HY|]. apply Hres. exact Hc.
    + cbn [lookup] in Hj. change ((oo :: l) !! S j) with (l !! j) in Hj.
      replace (S j * bootstrap_size + i) with (length c1 + (j * bootstrap_size + i)) in Hc |- *
        by (rewrite Hl1; simpl; lia).
      rewrite lookup_app_r in Hc by lia.
      replace (length c1 + (j * bootstrap_size + i) - length c1)
        with (j * bootstrap_size + i) in Hc by lia.
      destruct (Hrefits j i k c Hj Hi Hc) as (Y' & HY' & Hr).
      assert (HoS : outputSample (self w1) = outputSample (self w)) by apply Hs1.
      rewrite HoS in HY'. exists Y'. split; [exact HY'|].
      rewrite Hg1 in Hr. rewrite Hl1.
      rewrite (Nat.add_comm bootstrap_size), Nat.iter_add. exact Hr.
Qed.

(** C10: whatever strategy and exponent [q] the point estimates were computed
    with, every call of the chaos algorithm made by the bootstrap uses the
    cleaning strategy with [maximumDimension = 200], [maximumSize = 20] and
    [significanceFactor = 1e-4], on a basis enumerated with [q = 0.4]; and a
    bootstrap that returns has made exactly one such call for every replicate
    of every output, on the resample of the input sample and of the sample of
    that output drawn for this replicate. *)
Theorem bootstrap_uses_default_strategy (ot : OpenTURNS)
    (strategy : option string) (q : option float)
    (bootstrap_size : nat) (verbose plot : option bool) (w0 : World) :
  let w := fst (computeChaosSensitivity ot strategy q w0) in
  let w' := fst (computeBootstrapChaosSobolIndices ot bootstrap_size verbose plot w) in
  exists calls,
    chaosRuns w' = chaosRuns w ++ calls /\
    Forall (fun c =>
              exists basis,
                call_strategy c = CleaningStrategy basis 200 20 1e-4%float /\
                pb_enumerate basis =
                  HyperbolicAnisotropicEnumerateFunction (length (input (self w))) 0.4%float)
      calls /\
    (snd (computeBootstrapChaosSobolIndices ot bootstrap_size verbose plot w) = Ok tt ->
     length calls = length (output (self w)) * bootstrap_size /\
     refits_of ot bootstrap_size (inputSample (self w)) (output (self w))
       (outputSample (self w)) (randomGenerator w) calls).
Proof.
  intros w w'. destruct (bootstrap_calls ot bootstrap_size verbose plot w)
    as (_ & calls & Hruns & Hdef).
  exists calls. split; [exact Hruns|]. split; [exact Hdef|].
  fold w' in Hruns. clearbody w. subst w'. revert Hruns.
  unfold computeBootstrapChaosSobolIndices. unfold bind at 1 2. unfold get_self at 1 2.
  unfold bind.
  match goal with
  | |- context [foldM ?body ?l ?acc w] =>
      destruct (foldM body l acc w) as [w1 [store|e]] eqn:Hfold
  end; cbn [fst snd]; [|discriminate].
  unfold modify_self, set_self. cbn [fst snd chaosRuns]. intros Hruns _.
  apply bootstrap_outputs_refits in Hfold as (_ & _ & calls' & Hc & Hl & Hrefits).
  rewrite Hc in Hruns. apply app_inv_head in Hruns. subst calls'.
  split; [exact Hl|exact Hrefits].
Qed.

(** ** Running a fit twice *)

(** Follow the branch that an earlier case analysis has fixed. *)
Ltac reuse :=
  repeat match goal with
         | H : ?x = _ |- context [match ?x with _ => _ end] => rewrite H; project_world
         end.

(** C8: a second run of the fit on the same samples, with the same strategy,
    exponent and verbosity, started in the state the first run left, has the
    outcome of the first run (the same two index vectors, or the same
    exception) and leaves the object as the first run left it: the stored
    metamodel (its coefficients) and Sobol' indices are the same. *)
Theorem fit_twice (ot : OpenTURNS) (X Y : Sample)
    (strategy : option string) (q : option float) (verbose : option bool) (w : World) :
  let run := _computeChaosSensitivity ot X Y strategy q verbose in
  snd (run (fst (run w))) = snd (run w) /\
  self (fst (run (fst (run w)))) = self (fst (run w)).
Proof.
  cbv zeta.
  destruct (_computeChaosSensitivity ot X Y strategy q verbose w) as [w1 r1] eqn:H1.
  cbn [fst snd].
  remember (_computeChaosSensitivity ot X Y strategy q verbose) as run2 eqn:Hrun2 in |- *.
  revert H1. unfold_fit. project_world.
  repeat step.
  all: intros [= <- <-]; subst run2; unfold_fit; project_world.
  all: repeat first [progress reuse | step].
  all: try (split; reflexivity).
  all: simplify_eq.
  all: try rewrite lookup_insert_eq in *.
  all: simplify_eq.
  all: rewrite ?insert_insert_eq.
  all: unfold with_chaosSI, with_metamodel;
    cbn [input output inputSample outputSample distribution chaosSI metamodel S1 ST bootstrap];
    rewrite ?insert_insert_eq.
  all: split; congruence.
Qed.

(** ** The fixed strategy *)

Lemma polyColl_loop (rest : list Uniform) :
  forall pre : list Uniform,
    foldR (polyColl_body (pre ++ rest)) (seq (length pre) (length rest))
      (map StandardDistributionPolynomialFactory pre ++ repeat (PyFloat 0.0) (length rest))
    = Ok (map StandardDistributionPolynomialFactory (pre ++ rest)).
Proof.
  induction rest as [|m rest IH]; intros pre; cbn [seq foldR length repeat].
  - rewrite !app_nil_r. reflexivity.
  - assert (Hbody : forall acc,
               polyColl_body (pre ++ m :: rest) acc (length pre)
               = list_setitem acc (length pre) (StandardDistributionPolynomialFactory m)).
    { intros acc. unfold polyColl_body, ComposedDistribution.
      rewrite list_lookup_middle by reflexivity.
      reflexivity. }
    rewrite Hbody.
    rewrite <- (length_map StandardDistributionPolynomialFactory pre) at 1.
    rewrite list_setitem_middle. cbn [result_bind].
    specialize (IH (pre ++ [m])).
    rewrite <- app_assoc, length_app, map_app in IH. simpl in IH.
    rewrite Nat.add_1_r in IH. exact IH.
Qed.

Lemma factory_of_marginals (dist : list Uniform) (ef : EnumerateFunction) :
  OrthogonalProductPolynomialFactory (map StandardDistributionPolynomialFactory dist) ef
  = Ok (mkProductBasis dist ef).
Proof.
  unfold OrthogonalProductPolynomialFactory.
  assert (H : mapR (fun e => match e with
                             | StandardDistributionPolynomialFactory m => Ok m
                             | PyFloat _ => Raise "TypeError"
                             end) (map StandardDistributionPolynomialFactory dist) = Ok dist).
  { induction dist as [|m dist IH]; simpl; [reflexivity|]. rewrite IH. reflexivity. }
  rewrite H. reflexivity.
Qed.

(** With as many marginals as inputs, the basis is the product of the
    polynomial families of the marginals. *)
Lemma fit_basis_wf (ot : OpenTURNS) (s : OpenTurnsPCESobol) (q : float) :
  length (distribution s) = length (input s) ->
  enumerateFunction_rejects ot (length (input s)) q = None ->
  fit_basis ot s q =
  Ok (mkProductBasis (distribution s)
        (HyperbolicAnisotropicEnumerateFunction (length (input s)) q)).
Proof.
  intros Hlen Hrej. unfold fit_basis. rewrite <- Hlen at 1.
  pose proof (polyColl_loop (distribution s) []) as H. simpl in H. rewrite H.
  simpl. rewrite Hrej. apply factory_of_marginals.
Qed.

(** C9, as amended: with the fixed strategy and without [verbose], what a fit
    prints is decided by the object and the exponent [q] alone: nothing when
    the basis cannot be built, and otherwise the one line [indexMax K], where
    [K] is the number of terms, whatever the samples and their size; no other
    line, and no warning, is printed. *)
Theorem fixed_fit_prints (ot : OpenTURNS) (X Y : Sample)
    (q : option float) (verbose : option bool) (w : World) :
  param false verbose = false ->
  let w' := fst (_computeChaosSensitivity ot X Y (Some "fixed") q verbose w) in
  stdout w' =
  stdout w ++
  match fit_basis ot (self w) (param 0.4%float q) with
  | Ok basis =>
      [["indexMax"; pretty (getStrataCumulatedCardinal ot (pb_enumerate basis) 2)]]
  | Raise _ => []
  end.
Proof.
  intros Hverbose. unfold fit_basis, result_bind. unfold_fit. project_world.
  rewrite Hverbose. repeat step.
  all: try (symmetry; apply app_nil_r).
  all: erewrite basis_enumerate by eassumption; reflexivity.
Qed.

(** C6, as amended: with the fixed strategy, on an object with as many
    marginals as inputs, an exponent that the enumerate function accepts and
    a named output, the fit always calls the chaos algorithm, on the first
    [K] terms of the basis, whatever the number of rows of the samples: no
    comparison of [K] with the sample size is made, and the fit raises at
    this point exactly what the algorithm raises. *)
Theorem fixed_fit_runs (ot : OpenTURNS) (X Y : Sample)
    (q : option float) (verbose : option bool) (w : World) (oo : string) (names : list string) :
  length (distribution (self w)) = length (input (self w)) ->
  enumerateFunction_rejects ot (length (input (self w))) (param 0.4%float q) = None ->
  getDescription Y = oo :: names ->
  let ef := HyperbolicAnisotropicEnumerateFunction (length (input (self w))) (param 0.4%float q) in
  let K := getStrataCumulatedCardinal ot ef 2 in
  let strategy := FixedStrategy (mkProductBasis (distribution (self w)) ef) K in
  let w' := fst (_computeChaosSensitivity ot X Y (Some "fixed") q verbose w) in
  let r := snd (_computeChaosSensitivity ot X Y (Some "fixed") q verbose w) in
  chaosRuns w' = chaosRuns w ++ [mkChaosCall X Y (distribution (self w)) strategy] /\
  (forall e, FunctionalChaosAlgorithm_run ot X Y (distribution (self w)) strategy = Raise e ->
             r = Raise e).
Proof.
  intros Hlen Hrej Hdesc ef K strategy.
  pose proof (fit_basis_wf ot (self w) (param 0.4%float q) Hlen Hrej) as Hbasis.
  unfold fit_basis in Hbasis. rewrite Hrej in Hbasis.
  cbv zeta. unfold_fit. project_world. rewrite Hrej, Hdesc.
  destruct (foldR _ _ _) as [polyColl|e]; [|discriminate]. cbn [result_bind] in Hbasis.
  project_world. rewrite Hbasis. fold ef. fold K. fold strategy.
  repeat step.
  all: split; [reflexivity|]; intros e' He'; congruence.
Qed.

(** ** The extraction of the indices *)

Lemma mapR_Raise {A B} (f : A -> result B) (l : list A) (e : exception) :
  mapR f l = Raise e -> exists x, x ∈ l /\ f x = Raise e.
Proof.
  induction l as [|x l IH]; simpl; [discriminate|].
  destruct (f x) as [y|e'] eqn:Hx; simpl.
  - destruct (mapR f l) as [ys|e'] eqn:Hl; simpl; [discriminate|].
    intros [= <-]. destruct (IH eq_refl) as (x' & Hin & Hx').
    exists x'. split; [right; exact Hin | exact Hx'].
  - intros [= <-]. exists x. split; [left | exact Hx].
Qed.

Lemma no_call_added (l : list ChaosCall) (c : ChaosCall) : l = l ++ [c] -> False.
Proof.
  intros H. apply (f_equal length) in H. rewrite length_app in H. simpl in H. lia.
Qed.

Lemma foldR_polyColl_Raise (dist : ComposedDistribution) (l : list nat)
    (acc : list polyEntry) (e : exception) :
  foldR (polyColl_body dist) l acc = Raise e -> e = "IndexError".
Proof.
  revert acc. induction l as [|i l IH]; intros acc; simpl; [discriminate|].
  unfold polyColl_body at 1. destruct (dist !! i) as [m|]; simpl.
  - unfold list_setitem. destruct (decide _); simpl; [apply IH|]. intros [= <-]. reflexivity.
  - intros [= <-]. reflexivity.
Qed.

Lemma factory_Raise (polyColl : list polyEntry) (ef : EnumerateFunction) (e : exception) :
  OrthogonalProductPolynomialFactory polyColl ef = Raise e -> e = "TypeError".
Proof.
  unfold OrthogonalProductPolynomialFactory.
  destruct (mapR _ polyColl) as [ms|e'] eqn:H; simpl; [discriminate|].
  intros [= <-]. apply mapR_Raise in H as (x & _ & Hx). destruct x; [|discriminate].
  injection Hx as <-. reflexivity.
Qed.

(** A fit raises only the exceptions of its own statements and those of the
    library. *)
Lemma fit_never_raises (ot : OpenTURNS) (X Y : Sample)
    (strategy : option string) (q : option float) (verbose : option bool)
    (w : World) (e : exception) :
  library_never_raises ot e -> e ∉ python_exceptions ->
  snd (_computeChaosSensitivity ot X Y strategy q verbose w) <> Raise e.
Proof.
  intros (Hrej & Hrun & Hfo & Hto) Hpy.
  assert (Hne : forall x, x ∈ python_exceptions -> x <> e) by (intros x Hx ->; auto).
  assert (H1 := Hne "IndexError" ltac:(unfold python_exceptions; set_solver)).
  assert (H2 := Hne "TypeError" ltac:(unfold python_exceptions; set_solver)).
  assert (H3 := Hne "UnboundLocalError" ltac:(unfold python_exceptions; set_solver)).
  assert (H4 := Hne "AttributeError" ltac:(unfold python_exceptions; set_solver)).
  assert (H5 := Hne "KeyError" ltac:(unfold python_exceptions; set_solver)).
  clear Hne Hpy.
  unfold_fit. project_world. repeat step.
  all: try discriminate.
  all: intros [= <-].
  all: try contradiction.
  all: try (match goal with H : foldR _ _ _ = Raise _ |- _ =>
              apply foldR_polyColl_Raise in H; subst; contradiction end).
  all: try (match goal with H : OrthogonalProductPolynomialFactory _ _ = Raise _ |- _ =>
              apply factory_Raise in H; subst; contradiction end).
  all: try (match goal with H : enumerateFunction_rejects _ _ _ = Some _ |- _ =>
              exact (Hrej _ _ H) end).
  all: try (match goal with H : FunctionalChaosAlgorithm_run _ _ _ _ _ = Raise _ |- _ =>
              exact (Hrun _ _ _ _ H) end).
  all: try (match goal with H : mapR (getSobolIndex _ _) _ = Raise _ |- _ =>
              apply mapR_Raise in H as (i & _ & Hi); exact (Hfo _ _ Hi) end).
  all: try (match goal with H : mapR (getSobolTotalIndex _ _) _ = Raise _ |- _ =>
              apply mapR_Raise in H as (i & _ & Hi); exact (Hto _ _ Hi) end).
Qed.

(** C5, as amended: once the chaos algorithm has returned a result, and the
    two dictionaries of the object exist, the fit returns what
    [getSobolIndex] and [getSobolTotalIndex] give for each input, whatever the
    coefficient spectrum of the result, a spectrum without variance included:
    the fit tests no denominator, and raises only the exception that one of
    these two routines raises. *)
Theorem extraction_returns_library_indices (ot : OpenTURNS) (X Y : Sample)
    (strategy : option string) (q : option float) (verbose : option bool) (w : World)
    (c : ChaosCall) (res : FunctionalChaosResult)
    (dm : gmap string MetaModel) (dc : gmap string FunctionalChaosSobolIndices) :
  let w' := fst (_computeChaosSensitivity ot X Y strategy q verbose w) in
  let r := snd (_computeChaosSensitivity ot X Y strategy q verbose w) in
  let D := length (input (self w)) in
  let si := mkFunctionalChaosSobolIndices res in
  chaosRuns w' = chaosRuns w ++ [c] ->
  FunctionalChaosAlgorithm_run ot (call_inputSample c) (call_outputSample c)
    (call_distribution c) (call_strategy c) = Ok res ->
  metamodel (self w) = Some dm ->
  chaosSI (self w) = Some dc ->
  r = sobol_vectors ot D si /\
  (forall e, r = Raise e ->
     exists i, i < D /\
       (getSobolIndex ot si i = Raise e \/ getSobolTotalIndex ot si i = Raise e)).
Proof.
  intros w' r D si Hcall Hrun Hm Hc.
  assert (Hr : r = sobol_vectors ot D si).
  { subst w' r D si. revert Hcall Hrun. unfold sobol_vectors.
    unfold_fit. project_world.
    repeat step.
    all: try discriminate.
    all: intros Hcall; try (destruct (no_call_added _ _ Hcall)).
    all: apply app_inv_head in Hcall; injection Hcall as <-; simpl.
    all: intros Hrun; try congruence.
    all: simplify_eq.
    all: repeat match goal with H : <[_:=_]> _ !! _ = _ |- _ =>
                  rewrite lookup_insert_eq in H end.
    all: simplify_eq.
    all: match goal with H : FunctionalChaosAlgorithm_run _ _ _ _ _ = Ok ?a |- _ =>
           rewrite Hrun in H; injection H as <- end.
    all: simplify_eq.
    all: repeat (match goal with H : mapR _ _ = _ |- _ => rewrite H; clear H end;
                 cbn [result_bind]).
    all: reflexivity. }
  split; [exact Hr|]. intros e He. rewrite Hr in He. unfold sobol_vectors in He.
  destruct (mapR (getSobolIndex ot si) (seq 0 D)) as [v1|e1] eqn:H1; simpl in He.
  - destruct (mapR (getSobolTotalIndex ot si) (seq 0 D)) as [v2|e2] eqn:H2;
      simpl in He; [discriminate|]. injection He as ->.
    apply mapR_Raise in H2 as (i & Hi & Hraise). exists i. split; [|right; exact Hraise].
    apply elem_of_seq in Hi. lia.
  - injection He as ->.
    apply mapR_Raise in H1 as (i & Hi & Hraise). exists i. split; [|left; exact Hraise].
    apply elem_of_seq in Hi. lia.
Qed.

(** ** When every replicate is discarded *)

Lemma confidence_of_empty (ot : OpenTURNS) (dim : nat) (e : exception) :
  0 < dim ->
  computeQuantile ot [] ((1.0 - 0.95) / 2)%float = Raise e ->
  computeSobolIndicesConfidenceInterval ot (Sample_new 0 dim) (Sample_new 0 dim) None
  = Raise e.
Proof.
  intros Hdim Hq. unfold computeSobolIndicesConfidenceInterval.
  cbn [param getDimension Sample_new dimension].
  destruct dim as [|n]; [lia|]. cbn [seq foldR].
  unfold confidence_body at 1. unfold Sample_column.
  rewrite decide_True by (simpl; lia).
  unfold Sample_new. cbn [rows repeat map result_bind]. rewrite Hq. reflexivity.
Qed.

(** C4, as amended: when every replicate of an output has been discarded, the
    loop has made all its [bootstrap_size] attempts and the two collections
    are the empty samples; they are handed to the computation of the
    confidence intervals without any test, so that, with at least one input,
    the estimator raises what [computeQuantile] raises on an empty column. *)
Theorem all_discarded_outcome (ot : OpenTURNS) (bootstrap_size : nat) (verbose plot : bool)
    (X : Sample) (dim_input : nat) (acc : BootstrapStore) (oo : string)
    (w : World) (Y : Sample) (w1 : World) (fo_sample to_sample : Sample) :
  let w0 := fst ((if verbose then print [stars; oo; stars; newline] else ret tt) w) in
  outputSample (self w) !! oo = Some Y ->
  bootstrap_loop ot bootstrap_size X Y dim_input w0 = (w1, Ok (fo_sample, to_sample)) ->
  getSize fo_sample = 0 ->
  0 < dim_input ->
  fo_sample = Sample_new 0 dim_input /\
  to_sample = Sample_new 0 dim_input /\
  length (chaosRuns w1) = length (chaosRuns w) + bootstrap_size /\
  forall e,
    computeQuantile ot [] ((1.0 - 0.95) / 2)%float = Raise e ->
    bootstrap_output ot bootstrap_size verbose plot X dim_input acc oo w = (w1, Raise e).
Proof.
  intros w0 HY Hloop Hsize Hdim.
  assert (Hw0 : self w0 = self w /\ chaosRuns w0 = chaosRuns w).
  { subst w0. destruct verbose; split; reflexivity. }
  destruct Hw0 as [Hself Hruns0].
  pose proof Hloop as Hloop'. unfold bootstrap_loop in Hloop'.
  apply replicate_loop_Ok in Hloop'
    as (_ & _ & Hdf & Hdt & Hnf & Hnt & calls & reps & Hruns & Hlen & _ & _ & _ & Hfo & Hto);
    [|reflexivity..].
  cbn [Sample_new rows repeat app description] in Hnf, Hnt, Hfo, Hto.
  assert (Hnone : filter retained reps = []).
  { unfold getSize in Hsize. rewrite Hfo, length_map in Hsize.
    destruct (filter retained reps); [reflexivity|discriminate]. }
  rewrite Hnone in Hfo, Hto. simpl in Hfo, Hto.
  assert (Hfo_eq : fo_sample = Sample_new 0 dim_input).
  { destruct fo_sample. simpl in *. subst. reflexivity. }
  assert (Hto_eq : to_sample = Sample_new 0 dim_input).
  { destruct to_sample. simpl in *. subst. reflexivity. }
  split; [exact Hfo_eq|]. split; [exact Hto_eq|]. split.
  { rewrite Hruns, length_app, Hruns0, Hlen. reflexivity. }
  intros e Hq. unfold bootstrap_output. unfold bind at 1.
  assert (Hprint : (if verbose then print [stars; oo; stars; newline] else ret tt) w
                   = (w0, Ok tt)).
  { subst w0. destruct verbose; reflexivity. }
  rewrite Hprint. unfold bind at 1. unfold get_self at 1. unfold bind at 1. unfold lift at 1.
  unfold dict_getitem. rewrite Hself, HY. unfold bind at 1. rewrite Hloop.
  unfold bind at 1. unfold lift at 1.
  rewrite Hfo_eq, Hto_eq, (confidence_of_empty ot dim_input e Hdim Hq). reflexivity.
Qed.

(** * The program on concrete data *)

(** A resample of the nine rows of the grid. *)
Lemma multiBootstrap_pairing_witness :
  let X := inputSample Reference.car in
  let Y := Reference.response Reference.grid in
  let w := Reference.world Reference.car in
  let N := getSize X in
  let selection := fst (GenerateSelection Reference.ot N N (randomGenerator w)) in
  (length selection = N /\ Forall (fun i => i < N) selection /\ getSize Y = N) /\
  exists X_boot Y_boot,
    snd (multiBootstrap Reference.ot [X; Y] w) = Ok [X_boot; Y_boot] /\
    getSize X_boot = N /\ getSize Y_boot = N /\
    (forall k, k < N ->
       exists j x y, selection !! k = Some j /\ j < N /\
         rows X_boot !! k = Some x /\ rows X !! j = Some x /\
         rows Y_boot !! k = Some y /\ rows Y !! j = Some y) /\
    (forall x y, (x, y) ∈ zip (rows X_boot) (rows Y_boot) ->
                 (x, y) ∈ zip (rows X) (rows Y)).
Proof.
  intros X Y w N selection.
  assert (H1 : length selection = N) by reflexivity.
  assert (H2 : Forall (fun i => i < N) selection) by (vm_compute; repeat constructor).
  assert (H3 : getSize Y = N) by reflexivity.
  split; [auto|]. exact (multiBootstrap_pairing Reference.ot X Y w H1 H2 H3).
Defined.

(** Six replicates of the response on the four points of the axes: the two
    resamples without a point off the second axis give the indices [0] and
    [1], and are discarded. *)
Lemma bootstrap_loop_retains_witness :
  let X := inputSample Reference.axes in
  let Y := Reference.response Reference.cross in
  let w := Reference.estimated Reference.axes in
  exists w' fo_sample to_sample,
    (bootstrap_loop Reference.ot 6 X Y 2 w = (w', Ok (fo_sample, to_sample)) /\
     getSize fo_sample = 4) /\
    exists (calls : list ChaosCall) (reps : list (Point * Point)),
      chaosRuns w' = chaosRuns w ++ calls /\
      length calls = 6 /\
      randomGenerator w' =
        Nat.iter 6 (draw Reference.ot (getSize X)) (randomGenerator w) /\
      (forall i c, calls !! i = Some c ->
         resample_of Reference.ot X Y
           (Nat.iter i (draw Reference.ot (getSize X)) (randomGenerator w)) c) /\
      Forall2 (fun c rep =>
                 call_indices Reference.ot (length (input (self w))) c = Ok rep) calls reps /\
      rows fo_sample = map fst (filter retained reps) /\
      rows to_sample = map snd (filter retained reps) /\
      (forall rep, retained rep <-> inside_or_nan (fst rep) /\ inside_or_nan (snd rep)) /\
      getSize fo_sample <= 6 /\
      getSize to_sample <= 6.
Proof.
  intros X Y w. eexists _, _, _. split.
  - split; vm_compute; reflexivity.
  - eapply (bootstrap_loop_retains Reference.ot 6 X Y 2 w). vm_compute. reflexivity.
Defined.

(** C3, counterexample: NaN is not in the interval, yet [unit_eps.contains]
    accepts a vector with a NaN coordinate; with a library whose index
    routines answer [nan] for the first input, every replicate is retained. *)
Lemma nan_replicate_is_retained :
  let v := [nan; 0.5]%float in
  let ot := Reference.returning v v in
  let X := inputSample Reference.car in
  let Y := Reference.response Reference.grid in
  let w := Reference.estimated Reference.car in
  ~ lies_inside nan /\
  ~ (Forall lies_inside v) /\
  Interval_contains (unit_eps 2) v = Ok true /\
  retained (v, v) /\
  exists w' fo_sample to_sample,
    bootstrap_loop ot 3 X Y 2 w = (w', Ok (fo_sample, to_sample)) /\
    rows fo_sample = [v; v; v] /\
    rows to_sample = [v; v; v].
Proof.
  intros v ot X Y w.
  assert (Hnan : ~ lies_inside nan) by (intros [H _]; vm_compute in H; discriminate).
  split; [exact Hnan|].
  split; [intros H; inversion H; contradiction|].
  split; [vm_compute; reflexivity|].
  split; [split; repeat constructor|].
  eexists _, _, _. split; [vm_compute; reflexivity|]. split; reflexivity.
Qed.

(** With one input every index is [1], above [1 - 1e-9]: every replicate is
    discarded. *)
Lemma all_discarded_outcome_witness :
  let X := inputSample Reference.single in
  let Y := Reference.response Reference.line in
  let w := Reference.estimated Reference.single in
  exists w1 fo_sample to_sample,
    (outputSample (self w) !! "y" = Some Y /\
     bootstrap_loop Reference.ot 5 X Y 1 w = (w1, Ok (fo_sample, to_sample)) /\
     getSize fo_sample = 0 /\ 0 < 1) /\
    fo_sample = Sample_new 0 1 /\
    to_sample = Sample_new 0 1 /\
    length (chaosRuns w1) = length (chaosRuns w) + 5 /\
    forall e,
      computeQuantile Reference.ot [] ((1.0 - 0.95) / 2)%float = Raise e ->
      bootstrap_output Reference.ot 5 false false X 1 (mkBootstrapStore ∅ ∅ ∅ ∅) "y" w
      = (w1, Raise e).
Proof.
  intros X Y w. eexists _, _, _.
  assert (H1 : outputSample (self w) !! "y" = Some Y) by (vm_compute; reflexivity).
  split; [split; [exact H1|]; split; [vm_compute; reflexivity|]; split;
          [vm_compute; reflexivity | lia] |].
  eapply (all_discarded_outcome Reference.ot 5 false false X 1 _ "y" w Y).
  - exact H1.
  - vm_compute. reflexivity.
  - vm_compute. reflexivity.
  - lia.
Defined.

(** C4, counterexample: with fifty replicates that are all discarded, the
    estimator makes its fifty attempts and then raises the [RuntimeError] of
    the quantile of an empty sample, not an
    [InsufficientValidReplicatesError]. *)
Lemma all_discarded_raises_library_error :
  let X := inputSample Reference.single in
  let Y := Reference.response Reference.line in
  let w := Reference.estimated Reference.single in
  let run := computeBootstrapChaosSobolIndices Reference.ot 50 None None w in
  snd (bootstrap_loop Reference.ot 50 X Y 1 w) = Ok (Sample_new 0 1, Sample_new 0 1) /\
  length (chaosRuns (fst run)) = length (chaosRuns w) + 50 /\
  snd run = Raise "RuntimeError" /\
  snd run <> Raise "InsufficientValidReplicatesError".
Proof.
  intros X Y w run.
  assert (Hrun : snd run = Raise "RuntimeError") by (vm_compute; reflexivity).
  split; [vm_compute; reflexivity|]. split; [vm_compute; reflexivity|].
  split; [exact Hrun|]. rewrite Hrun. discriminate.
Qed.

(** The fit of the additive response on the grid. *)
Lemma extraction_returns_library_indices_witness :
  let X := inputSample Reference.car in
  let Y := Reference.response Reference.grid in
  let w := Reference.estimated Reference.car in
  let w' := fst (_computeChaosSensitivity Reference.ot X Y None None None w) in
  let r := snd (_computeChaosSensitivity Reference.ot X Y None None None w) in
  let D := length (input (self w)) in
  let basis :=
    mkProductBasis (distribution Reference.car)
      (HyperbolicAnisotropicEnumerateFunction 2 0.4%float) in
  let c :=
    mkChaosCall X Y (distribution Reference.car) (CleaningStrategy basis 200 20 1e-4%float) in
  exists res dm dc,
    (chaosRuns w' = chaosRuns w ++ [c] /\
     FunctionalChaosAlgorithm_run Reference.ot (call_inputSample c) (call_outputSample c)
       (call_distribution c) (call_strategy c) = Ok res /\
     metamodel (self w) = Some dm /\
     chaosSI (self w) = Some dc) /\
    let si := mkFunctionalChaosSobolIndices res in
    r = sobol_vectors Reference.ot D si /\
    (forall e, r = Raise e ->
       exists i, i < D /\
         (getSobolIndex Reference.ot si i = Raise e \/
          getSobolTotalIndex Reference.ot si i = Raise e)).
Proof.
  intros X Y w w' r D basis c.
  assert (H1 : chaosRuns w' = chaosRuns w ++ [c]) by (vm_compute; reflexivity).
  destruct (FunctionalChaosAlgorithm_run Reference.ot (call_inputSample c)
              (call_outputSample c) (call_distribution c) (call_strategy c))
    as [res|e] eqn:H2; [|vm_compute in H2; discriminate H2].
  destruct (metamodel (self w)) as [dm|] eqn:H3; [|vm_compute in H3; discriminate H3].
  destruct (chaosSI (self w)) as [dc|] eqn:H4; [|vm_compute in H4; discriminate H4].
  exists res, dm, dc.
  split; [split; [exact H1|]; split; [reflexivity|]; split; reflexivity |].
  exact (extraction_returns_library_indices Reference.ot X Y None None None w c res dm dc
           H1 H2 H3 H4).
Defined.

(** The stand-in library raises [RuntimeError] and [TypeError] only. *)
Lemma reference_never_raises (e : exception) :
  e <> "RuntimeError" -> e <> "TypeError" -> library_never_raises Reference.ot e.
Proof.
  intros H1 H2. split; [|split; [|split]].
  - intros dim q. cbn. destruct (_ && _); [discriminate|]. intros [= <-]. auto.
  - intros X Y dist strategy. cbn. unfold Reference.run.
    destruct (decide _); [intros [= <-]; auto|].
    destruct (decide _); [discriminate|intros [= <-]; auto].
  - intros si i. discriminate.
  - intros si i. discriminate.
Qed.

(** C5, counterexample: for a response that does not depend on the inputs,
    the fit cannot raise [DegenerateSurrogateError], whatever the library
    computes, as long as the library itself has no such exception; with the
    stand-in library it returns two index vectors and prints nothing. *)
Lemma constant_response_is_not_rejected :
  let X := inputSample Reference.flat in
  let Y := Reference.sample ["y"] (map (fun _ => [5%float]) Reference.grid) in
  let w := Reference.estimated Reference.flat in
  let run := _computeChaosSensitivity Reference.ot X Y None None None w in
  Forall (fun row : Point => row = [5%float]) (rows Y) /\
  (forall (ot : OpenTURNS) (v : World),
     library_never_raises ot "DegenerateSurrogateError" ->
     snd (_computeChaosSensitivity ot X Y None None None v)
       <> Raise "DegenerateSurrogateError") /\
  library_never_raises Reference.ot "DegenerateSurrogateError" /\
  (exists f t, snd run = Ok (f, t) /\ length f = 2 /\ length t = 2) /\
  stdout (fst run) = stdout w.
Proof.
  intros X Y w run.
  split; [repeat constructor|].
  split.
  { intros ot v H. apply fit_never_raises; [exact H|].
    unfold python_exceptions. intros Hin.
    repeat (apply elem_of_cons in Hin as [Hin|Hin]; [discriminate|]). inversion Hin. }
  split; [apply reference_never_raises; discriminate|].
  split; [|vm_compute; reflexivity].
  eexists _, _. split; [vm_compute; reflexivity|]. split; reflexivity.
Qed.

(** Two rows for five terms. *)
Lemma fixed_fit_runs_witness :
  let X := Reference.sample ["x1"; "x2"] Reference.two_rows in
  let Y := Reference.response Reference.two_rows in
  let w := Reference.estimated Reference.car in
  let ef := HyperbolicAnisotropicEnumerateFunction (length (input (self w)))
              (param 0.4%float None) in
  let K := getStrataCumulatedCardinal Reference.ot ef 2 in
  let strategy := FixedStrategy (mkProductBasis (distribution (self w)) ef) K in
  let w' := fst (_computeChaosSensitivity Reference.ot X Y (Some "fixed") None None w) in
  let r := snd (_computeChaosSensitivity Reference.ot X Y (Some "fixed") None None w) in
  (length (distribution (self w)) = length (input (self w)) /\
   enumerateFunction_rejects Reference.ot (length (input (self w))) (param 0.4%float None)
     = None /\
   getDescription Y = "y" :: []) /\
  getSize X < K /\
  chaosRuns w' = chaosRuns w ++ [mkChaosCall X Y (distribution (self w)) strategy] /\
  (forall e,
     FunctionalChaosAlgorithm_run Reference.ot X Y (distribution (self w)) strategy = Raise e ->
     r = Raise e).
Proof.
  intros X Y w ef K strategy w' r.
  assert (H1 : length (distribution (self w)) = length (input (self w))) by reflexivity.
  assert (H2 : enumerateFunction_rejects Reference.ot (length (input (self w)))
                 (param 0.4%float None) = None) by (vm_compute; reflexivity).
  assert (H3 : getDescription Y = "y" :: []) by reflexivity.
  split; [auto|]. split; [vm_compute; lia|].
  exact (fixed_fit_runs Reference.ot X Y None None w "y" [] H1 H2 H3).
Defined.

(** C6, counterexample: with the fixed strategy, five terms and two rows, the
    chaos algorithm is called and the fit returns index vectors; it does not
    raise [UnderdeterminedFitError]. *)
Lemma underdetermined_fixed_fit_returns :
  let X := Reference.sample ["x1"; "x2"] Reference.two_rows in
  let Y := Reference.response Reference.two_rows in
  let w := Reference.estimated Reference.car in
  let run := _computeChaosSensitivity Reference.ot X Y (Some "fixed") None None w in
  getSize X = 2 /\
  getStrataCumulatedCardinal Reference.ot
    (HyperbolicAnisotropicEnumerateFunction 2 0.4%float) 2 = 5 /\
  length (chaosRuns (fst run)) = length (chaosRuns w) + 1 /\
  snd run = Ok ([0.5; 0.5]%float, [0.5; 0.5]%float) /\
  snd run <> Raise "UnderdeterminedFitError".
Proof.
  intros X Y w run.
  assert (Hr : snd run = Ok ([0.5; 0.5]%float, [0.5; 0.5]%float))
    by (vm_compute; reflexivity).
  split; [reflexivity|]. split; [reflexivity|]. split; [vm_compute; reflexivity|].
  split; [exact Hr|]. rewrite Hr. discriminate.
Qed.

(** C7, counterexample: a fit with the fixed strategy, after the point
    estimates, replaces the stored metamodel of the output and prints a
    line. *)
Lemma fit_changes_the_object :
  let X := inputSample Reference.car in
  let Y := Reference.response Reference.grid in
  let w := Reference.estimated Reference.car in
  let w' := fst (_computeChaosSensitivity Reference.ot X Y (Some "fixed") None None w) in
  metamodel (self w') <> metamodel (self w) /\
  self w' <> self w /\
  stdout w' <> stdout w.
Proof.
  intros X Y w w'.
  assert (Hm : metamodel (self w') <> metamodel (self w)).
  { intros H. apply (f_equal (fun d => d ≫= (.!! "y"))) in H.
    vm_compute in H. discriminate H. }
  split; [exact Hm|]. split.
  - intros H. apply Hm. rewrite H. reflexivity.
  - intros H. vm_compute in H. discriminate H.
Qed.

(** The fixed strategy on the grid. *)
Lemma fixed_fit_prints_witness :
  let X := inputSample Reference.car in
  let Y := Reference.response Reference.grid in
  let w := Reference.estimated Reference.car in
  let w' := fst (_computeChaosSensitivity Reference.ot X Y (Some "fixed") None None w) in
  param false None = false /\
  stdout w' =
  stdout w ++
  match fit_basis Reference.ot (self w) (param 0.4%float None) with
  | Ok basis =>
      [["indexMax";
        pretty (getStrataCumulatedCardinal Reference.ot (pb_enumerate basis) 2)]]
  | Raise _ => []
  end.
Proof.
  intros X Y w w'. split; [reflexivity|].
  exact (fixed_fit_prints Reference.ot X Y None None w eq_refl).
Defined.

(** C9, counterexample: with five terms, a fit on nine rows (more terms than
    half the rows) prints exactly what a fit on twelve rows prints, the line
    [indexMax 5]: nothing flags the first one. *)
Lemma overfitting_is_not_flagged :
  let w := Reference.estimated Reference.car in
  let risky :=
    _computeChaosSensitivity Reference.ot (inputSample Reference.car)
      (Reference.response Reference.grid) (Some "fixed") None None w in
  let safe :=
    _computeChaosSensitivity Reference.ot
      (Reference.sample ["x1"; "x2"] Reference.twelve_rows)
      (Reference.response Reference.twelve_rows) (Some "fixed") None None w in
  getStrataCumulatedCardinal Reference.ot
    (HyperbolicAnisotropicEnumerateFunction 2 0.4%float) 2 = 5 /\
  getSize (inputSample Reference.car) = 9 /\
  getSize (Reference.sample ["x1"; "x2"] Reference.twelve_rows) = 12 /\
  stdout (fst risky) = stdout w ++ [["indexMax"; "5"]] /\
  stdout (fst safe) = stdout (fst risky).
Proof.
  intros w risky safe.
  split; [vm_compute; reflexivity|]. split; [vm_compute; reflexivity|].
  split; [vm_compute; reflexivity|]. split; vm_compute; reflexivity.
Qed.

(** Point estimates with the fixed strategy and [q = 0.5], then three
    replicates of each of the two outputs of the grid. *)
Lemma bootstrap_uses_default_strategy_witness :
  let w := fst (computeChaosSensitivity Reference.ot (Some "fixed") (Some 0.5%float)
                  (Reference.world Reference.crash)) in
  let run := computeBootstrapChaosSobolIndices Reference.ot 3 None None w in
  let w' := fst run in
  snd run = Ok tt /\
  (exists c, last (chaosRuns w) = Some c /\
     exists basis, call_strategy c = FixedStrategy basis 5 /\
       pb_enumerate basis = HyperbolicAnisotropicEnumerateFunction 2 0.5%float) /\
  exists calls,
    chaosRuns w' = chaosRuns w ++ calls /\
    Forall (fun c =>
              exists basis,
                call_strategy c = CleaningStrategy basis 200 20 1e-4%float /\
                pb_enumerate basis =
                  HyperbolicAnisotropicEnumerateFunction (length (input (self w))) 0.4%float)
      calls /\
    (snd run = Ok tt ->
     length calls = length (output (self w)) * 3 /\
     refits_of Reference.ot 3 (inputSample (self w)) (output (self w))
       (outputSample (self w)) (randomGenerator w) calls).
Proof.
  intros w run w'.
  split; [vm_compute; reflexivity|].
  split.
  { eexists. split; [vm_compute; reflexivity|]. eexists. split; reflexivity. }
  exact (bootstrap_uses_default_strategy Reference.ot (Some "fixed") (Some 0.5%float) 3
           None None (Reference.world Reference.crash)).
Defined.

(** * Further properties of the program *)

(** ** A fit that returns, and fits that cannot *)

(** What a fit that returns has done. *)
Lemma fit_Ok (ot : OpenTURNS) (X Y : Sample)
    (strategy : option string) (q : option float) (verbose : option bool)
    (w w' : World) (f t : list float) :
  _computeChaosSensitivity ot X Y strategy q verbose w = (w', Ok (f, t)) ->
  same_setup (self w) (self w') /\
  randomGenerator w' = randomGenerator w /\
  length f = length (input (self w)) /\ length t = length (input (self w)) /\
  exists c res oo names dm dc,
    chaosRuns w' = chaosRuns w ++ [c] /\
    call_inputSample c = X /\ call_outputSample c = Y /\
    call_distribution c = distribution (self w) /\
    FunctionalChaosAlgorithm_run ot X Y (distribution (self w)) (call_strategy c) = Ok res /\
    sobol_vectors ot (length (input (self w))) (mkFunctionalChaosSobolIndices res) = Ok (f, t) /\
    getDescription Y = oo :: names /\
    metamodel (self w) = Some dm /\
    chaosSI (self w) = Some dc /\
    metamodel (self w') = Some (<[oo := getMetaModel res]> dm) /\
    chaosSI (self w') = Some (<[oo := mkFunctionalChaosSobolIndices res]> dc).
Proof.
  unfold sobol_vectors, same_setup. unfold_fit. project_world. repeat step.
  all: intros [= <- <- <-] || (intros ?; discriminate).
  all: simplify_eq.
  all: repeat match goal with H : <[_:=_]> _ !! _ = _ |- _ =>
                rewrite lookup_insert_eq in H end.
  all: simplify_eq.
  all: split; [repeat split|].
  all: split; [reflexivity|].
  all: split; [match goal with H : mapR _ _ = Ok ?a |- length ?a = _ =>
                 rewrite (mapR_length _ _ _ H), length_seq; reflexivity end|].
  all: split; [match goal with H : mapR _ _ = Ok ?a |- length ?a = _ =>
                 rewrite (mapR_length _ _ _ H), length_seq; reflexivity end|].
  all: eexists _, _, _, _, _, _.
  all: cbn [chaosRuns self call_inputSample call_outputSample call_distribution
            call_strategy metamodel chaosSI with_metamodel with_chaosSI].
  all: repeat (split; [first [reflexivity | eassumption]|]).
  all: use_results.
  all: repeat (split; [reflexivity|]); reflexivity.
Qed.

(** X1: a fit that returns has called the chaos algorithm exactly once, on the
    two samples it was given and on the distribution of the object; the two
    vectors it returns have one value per input and are the Sobol' indices of
    the result of that call; the metamodel and the Sobol' indices of that
    result are stored under the first name of the description of the output
    sample, in dictionaries that existed before. *)
Theorem fit_postcondition (ot : OpenTURNS) (X Y : Sample)
    (strategy : option string) (q : option float) (verbose : option bool)
    (w w' : World) (f t : list float) :
  _computeChaosSensitivity ot X Y strategy q verbose w = (w', Ok (f, t)) ->
  let D := length (input (self w)) in
  length f = D /\ length t = D /\
  exists c res oo names dm dc,
    chaosRuns w' = chaosRuns w ++ [c] /\
    call_inputSample c = X /\ call_outputSample c = Y /\
    call_distribution c = distribution (self w) /\
    FunctionalChaosAlgorithm_run ot X Y (distribution (self w)) (call_strategy c) = Ok res /\
    sobol_vectors ot D (mkFunctionalChaosSobolIndices res) = Ok (f, t) /\
    getDescription Y = oo :: names /\
    metamodel (self w) = Some dm /\
    chaosSI (self w) = Some dc /\
    metamodel (self w') = Some (<[oo := getMetaModel res]> dm) /\
    chaosSI (self w') = Some (<[oo := mkFunctionalChaosSobolIndices res]> dc).
Proof.
  intros H. cbv zeta.
  apply fit_Ok in H as (_ & _ & Hf & Ht & c & res & oo & names & dm & dc & H).
  split; [exact Hf|]. split; [exact Ht|]. exists c, res, oo, names, dm, dc. exact H.
Qed.

(** X2: with a strategy that is neither ['fixed'] nor ['cleaning'] a fit never
    returns and changes nothing: it raises before the chaos algorithm is
    called and before anything is printed or stored.  When the basis can be
    built and the output sample has a name, the exception is the
    [UnboundLocalError] of the variable [adaptiveStrategy]. *)
Theorem unknown_strategy_raises (ot : OpenTURNS) (X Y : Sample)
    (strategy : string) (q : option float) (verbose : option bool) (w : World) :
  strategy <> "fixed" -> strategy <> "cleaning" ->
  let w' := fst (_computeChaosSensitivity ot X Y (Some strategy) q verbose w) in
  let r := snd (_computeChaosSensitivity ot X Y (Some strategy) q verbose w) in
  w' = w /\
  (exists e, r = Raise e) /\
  (forall basis oo names,
     fit_basis ot (self w) (param 0.4%float q) = Ok basis ->
     getDescription Y = oo :: names ->
     r = Raise "UnboundLocalError").
Proof.
  intros Hf Hc. cbv zeta. unfold fit_basis, result_bind. unfold_fit. project_world.
  repeat step.
  all: try contradiction.
  all: split; [destruct w; reflexivity|].
  all: split; [eexists; reflexivity|].
  all: intros basis oo names; try discriminate; reflexivity.
Qed.

Lemma polyColl_step (pre : list Uniform) (m : Uniform) (rest : list Uniform)
    (acc : list polyEntry) :
  polyColl_body (pre ++ m :: rest) acc (length pre)
  = list_setitem acc (length pre) (StandardDistributionPolynomialFactory m).
Proof.
  unfold polyColl_body, ComposedDistribution.
  rewrite list_lookup_middle by reflexivity. reflexivity.
Qed.

(** More marginals than inputs: the assignment [polyColl[i] = ...] runs out of
    the list. *)
Lemma polyColl_short (k : nat) :
  forall pre rest : list Uniform,
    k < length rest ->
    foldR (polyColl_body (pre ++ rest)) (seq (length pre) (length rest))
      (map StandardDistributionPolynomialFactory pre ++ repeat (PyFloat 0.0) k)
    = Raise "IndexError".
Proof.
  induction k as [|k IH]; intros pre [|m rest] Hk; simpl in Hk; try lia;
    cbn [seq foldR length repeat]; rewrite polyColl_step.
  - unfold list_setitem. rewrite decide_False; [reflexivity|].
    rewrite app_nil_r, length_map. lia.
  - rewrite <- (length_map StandardDistributionPolynomialFactory pre) at 1.
    rewrite list_setitem_middle. cbn [result_bind].
    specialize (IH (pre ++ [m]) rest).
    rewrite <- app_assoc, length_app, map_app in IH. simpl in IH.
    rewrite Nat.add_1_r in IH. apply IH. lia.
Qed.

(** Fewer marginals than inputs: the last entries stay the floats [0.0]. *)
Lemma polyColl_long (rest : list Uniform) :
  forall (pre : list Uniform) (tail : list polyEntry),
    foldR (polyColl_body (pre ++ rest)) (seq (length pre) (length rest))
      (map StandardDistributionPolynomialFactory pre
       ++ repeat (PyFloat 0.0) (length rest) ++ tail)
    = Ok (map StandardDistributionPolynomialFactory (pre ++ rest) ++ tail).
Proof.
  induction rest as [|m rest IH]; intros pre tail; cbn [seq foldR length repeat app].
  - rewrite !app_nil_r. reflexivity.
  - rewrite polyColl_step.
    rewrite <- (length_map StandardDistributionPolynomialFactory pre) at 1.
    rewrite list_setitem_middle. cbn [result_bind].
    specialize (IH (pre ++ [m]) tail).
    rewrite <- app_assoc, length_app, map_app in IH. simpl in IH.
    rewrite Nat.add_1_r in IH. exact IH.
Qed.

Lemma factory_rejects_float (dist : list Uniform) (x : float) (tail : list polyEntry)
    (ef : EnumerateFunction) :
  OrthogonalProductPolynomialFactory
    (map StandardDistributionPolynomialFactory dist ++ PyFloat x :: tail) ef
  = Raise "TypeError".
Proof.
  unfold OrthogonalProductPolynomialFactory. rewrite mapR_app.
  assert (H : mapR (fun e => match e with
                             | StandardDistributionPolynomialFactory m => Ok m
                             | PyFloat _ => Raise "TypeError"
                             end) (map StandardDistributionPolynomialFactory dist) = Ok dist).
  { induction dist as [|m dist IH]; simpl; [reflexivity|]. rewrite IH. reflexivity. }
  rewrite H. reflexivity.
Qed.

(** A basis that cannot be built ends the fit, with everything as it was. *)
Lemma fit_basis_Raise (ot : OpenTURNS) (X Y : Sample)
    (strategy : option string) (q : option float) (verbose : option bool)
    (w : World) (e : exception) :
  fit_basis ot (self w) (param 0.4%float q) = Raise e ->
  _computeChaosSensitivity ot X Y strategy q verbose w = (w, Raise e).
Proof.
  unfold fit_basis, result_bind. unfold_fit. project_world. repeat step.
  all: try discriminate.
  all: intros [= <-]; reflexivity.
Qed.

(** X3: when the object has not as many marginals as inputs, a fit raises
    before it uses the samples and leaves everything as it was; with more
    marginals than inputs the exception is the [IndexError] of the assignment
    [polyColl[i] = ...]. *)
Theorem marginals_must_match_inputs (ot : OpenTURNS) (X Y : Sample)
    (strategy : option string) (q : option float) (verbose : option bool) (w : World) :
  length (input (self w)) <> length (distribution (self w)) ->
  exists e,
    _computeChaosSensitivity ot X Y strategy q verbose w = (w, Raise e) /\
    (length (input (self w)) < length (distribution (self w)) -> e = "IndexError").
Proof.
  intros Hne.
  destruct (decide (length (input (self w)) < length (distribution (self w)))) as [Hlt|Hge].
  - exists "IndexError". split; [|reflexivity].
    apply fit_basis_Raise. unfold fit_basis.
    pose proof (polyColl_short (length (input (self w))) [] (distribution (self w)) Hlt) as H.
    simpl in H. rewrite H. reflexivity.
  - assert (Hgt : length (distribution (self w)) < length (input (self w))) by lia.
    assert (Hloop :
      foldR (polyColl_body (distribution (self w)))
        (seq 0 (length (distribution (self w))))
        (repeat (PyFloat 0.0) (length (input (self w))))
      = Ok (map StandardDistributionPolynomialFactory (distribution (self w))
            ++ repeat (PyFloat 0.0)
                 (length (input (self w)) - length (distribution (self w))))).
    { pose proof (polyColl_long (distribution (self w)) []
                    (repeat (PyFloat 0.0)
                       (length (input (self w)) - length (distribution (self w))))) as H.
      simpl in H. rewrite <- repeat_app in H.
      replace (length (distribution (self w))
               + (length (input (self w)) - length (distribution (self w))))
        with (length (input (self w))) in H by lia.
      exact H. }
    destruct (enumerateFunction_rejects ot (length (input (self w))) (param 0.4%float q))
      as [e|] eqn:Hrej.
    + exists e. split; [|lia].
      apply fit_basis_Raise. unfold fit_basis. rewrite Hloop. cbn [result_bind].
      rewrite Hrej. reflexivity.
    + exists "TypeError". split; [|lia].
      apply fit_basis_Raise. unfold fit_basis. rewrite Hloop. cbn [result_bind].
      rewrite Hrej.
      destruct (length (input (self w)) - length (distribution (self w))) as [|k] eqn:Hk;
        [lia|].
      cbn [repeat]. apply factory_rejects_float.
Qed.

(** ** The point estimates *)

(** [computeChaosSensitivity] is the loop of [estimate_one] on the emptied object. *)
Lemma computeChaosSensitivity_loop (ot : OpenTURNS) (strategy : option string)
    (q : option float) (w : World) :
  computeChaosSensitivity ot strategy q w =
  forM (output (self w)) (estimate_one ot (param "cleaning" strategy) (param 0.4%float q))
    (set_self emptied w).
Proof. reflexivity. Qed.

Lemma fit_self_only (ot : OpenTURNS) (X Y : Sample)
    (strategy : option string) (q : option float) (verbose : option bool) (w v : World) :
  self w = self v ->
  snd (_computeChaosSensitivity ot X Y strategy q verbose w)
  = snd (_computeChaosSensitivity ot X Y strategy q verbose v) /\
  self (fst (_computeChaosSensitivity ot X Y strategy q verbose w))
  = self (fst (_computeChaosSensitivity ot X Y strategy q verbose v)).
Proof.
  destruct w as [s o1 g1 c1], v as [s' o2 g2 c2]. simpl. intros <-.
  unfold_fit. project_world. repeat step.
  all: try (split; reflexivity).
  all: simplify_eq.
  all: repeat match goal with H : <[_:=_]> _ !! _ = _ |- _ =>
                rewrite lookup_insert_eq in H end.
  all: simplify_eq.
  all: split; congruence.
Qed.

Lemma self_only_bind {A B} (m : M A) (k : A -> M B) :
  self_only m -> (forall a, self_only (k a)) -> self_only (bind m k).
Proof.
  intros Hm Hk w v H. unfold bind. destruct (Hm w v H) as [Hr Hs].
  destruct (m w) as [w1 [a|e]], (m v) as [v1 [a'|e']]; simpl in *; try discriminate.
  - injection Hr as <-. apply Hk. exact Hs.
  - injection Hr as <-. split; [reflexivity|exact Hs].
Qed.

Lemma self_only_lift {A} (r : result A) : self_only (lift r).
Proof. intros w v H. split; [reflexivity|exact H]. Qed.

Lemma self_only_raise {A} (e : exception) : self_only (@raise A e).
Proof. intros w v H. split; [reflexivity|exact H]. Qed.

Lemma self_only_print (args : list string) : self_only (print args).
Proof. intros w v H. split; [reflexivity|exact H]. Qed.

Lemma self_only_get_self : self_only get_self.
Proof. intros w v H. split; [simpl; rewrite H; reflexivity|exact H]. Qed.

Lemma self_only_modify_self (f : OpenTurnsPCESobol -> OpenTurnsPCESobol) :
  self_only (modify_self f).
Proof. intros w v H. split; [reflexivity|simpl; rewrite H; reflexivity]. Qed.

Lemma self_only_forM {A} (body : A -> M unit) (l : list A) :
  (forall x, self_only (body x)) -> self_only (forM l body).
Proof.
  intros Hbody. induction l as [|x l IH]; simpl.
  - intros w v H. split; [reflexivity|exact H].
  - apply self_only_bind; [apply Hbody|]. intros _. exact IH.
Qed.

Lemma self_only_fit (ot : OpenTURNS) (X Y : Sample)
    (strategy : option string) (q : option float) (verbose : option bool) :
  self_only (_computeChaosSensitivity ot X Y strategy q verbose).
Proof. intros w v H. apply fit_self_only. exact H. Qed.

Lemma self_only_estimate_one (ot : OpenTURNS) (strategy : string) (q : float) (oo : string) :
  self_only (estimate_one ot strategy q oo).
Proof.
  unfold estimate_one.
  apply self_only_bind; [apply self_only_print|]. intros _.
  apply self_only_bind; [apply self_only_get_self|]. intros s.
  apply self_only_bind; [apply self_only_lift|]. intros Y.
  apply self_only_bind; [apply self_only_fit|]. intros [S1oo SToo].
  apply self_only_bind; [apply self_only_get_self|]. intros s1.
  apply self_only_bind.
  { destruct (S1 s1); [apply self_only_modify_self|apply self_only_raise]. }
  intros _.
  apply self_only_bind; [apply self_only_get_self|]. intros s2.
  destruct (ST s2); [apply self_only_modify_self|apply self_only_raise].
Qed.

(** X4: [computeChaosSensitivity] starts from empty dictionaries: its outcome
    and the object it leaves depend on the data of the object (inputs,
    outputs, samples, distribution, bootstrap results) only, not on the point
    estimates, metamodels and Sobol' indices stored before, nor on what was
    printed, drawn or fitted before. *)
Theorem estimates_replace_previous (ot : OpenTURNS) (strategy : option string)
    (q : option float) (w v : World) :
  input (self w) = input (self v) ->
  output (self w) = output (self v) ->
  inputSample (self w) = inputSample (self v) ->
  outputSample (self w) = outputSample (self v) ->
  distribution (self w) = distribution (self v) ->
  bootstrap (self w) = bootstrap (self v) ->
  snd (computeChaosSensitivity ot strategy q w) = snd (computeChaosSensitivity ot strategy q v) /\
  self (fst (computeChaosSensitivity ot strategy q w))
  = self (fst (computeChaosSensitivity ot strategy q v)).
Proof.
  intros H1 H2 H3 H4 H5 H6. rewrite !computeChaosSensitivity_loop. rewrite H2.
  apply self_only_forM; [intros oo; apply self_only_estimate_one|].
  unfold set_self, emptied, with_ST, with_S1, with_metamodel, with_chaosSI. simpl.
  rewrite H1, H2, H3, H4, H5, H6. reflexivity.
Qed.

(** One output of [computeChaosSensitivity], when it succeeds. *)
Lemma estimate_one_Ok (ot : OpenTURNS) (strategy : string) (q : float) (oo : string)
    (w w' : World) :
  estimate_one ot strategy q oo w = (w', Ok tt) ->
  exists Y f t d1 d2 c res,
    outputSample (self w) !! oo = Some Y /\
    call_inputSample c = inputSample (self w) /\ call_outputSample c = Y /\
    call_distribution c = distribution (self w) /\
    FunctionalChaosAlgorithm_run ot (inputSample (self w)) Y (distribution (self w))
      (call_strategy c) = Ok res /\
    sobol_vectors ot (length (input (self w))) (mkFunctionalChaosSobolIndices res) = Ok (f, t) /\
    length f = length (input (self w)) /\ length t = length (input (self w)) /\
    S1 (self w) = Some d1 /\ ST (self w) = Some d2 /\
    S1 (self w') = Some (<[oo := f]> d1) /\ ST (self w') = Some (<[oo := t]> d2) /\
    input (self w') = input (self w) /\ output (self w') = output (self w) /\
    inputSample (self w') = inputSample (self w) /\
    outputSample (self w') = outputSample (self w) /\
    distribution (self w') = distribution (self w) /\
    bootstrap (self w') = bootstrap (self w).
Proof.
  unfold estimate_one, bind, print, get_self, lift, dict_getitem. cbn [self].
  destruct (outputSample (self w) !! oo) as [Y|] eqn:HY; [|discriminate].
  match goal with
  | |- context [_computeChaosSensitivity ot ?X Y ?a ?b ?c ?w0] =>
      destruct (_computeChaosSensitivity ot X Y a b c w0) as [w1 [[f t]|e]] eqn:Hfit;
      [|discriminate]
  end.
  apply fit_Ok in Hfit
    as (Hsetup & _ & Hf & Ht & c & res & oo' & names & dm & dc & _ & HcX & HcY & HcD & Hrun
        & Hvec & _).
  cbn [self] in Hsetup, Hf, Ht, HcD, Hrun, Hvec.
  destruct Hsetup as (Hi & Ho & HiS & HoS & Hd & HS1 & HST & Hb).
  unfold modify_self, raise, set_self.
  destruct (S1 (self w1)) as [d1|] eqn:Hd1; [|discriminate]. cbn [self ST with_S1].
  destruct (ST (self w1)) as [d2|] eqn:Hd2; [|discriminate].
  intros [= <-]. cbn [self with_ST with_S1 S1 ST input output inputSample outputSample
                        distribution bootstrap].
  exists Y, f, t, d1, d2, c, res.
  repeat (split; [first [assumption | reflexivity | congruence]|]). assumption.
Qed.

Lemma sobol_vectors_Ok (ot : OpenTURNS) (D : nat) (si : FunctionalChaosSobolIndices)
    (f t : list float) :
  sobol_vectors ot D si = Ok (f, t) ->
  mapR (getSobolIndex ot si) (seq 0 D) = Ok f /\
  mapR (getSobolTotalIndex ot si) (seq 0 D) = Ok t.
Proof.
  unfold sobol_vectors.
  destruct (mapR (getSobolIndex ot si) (seq 0 D)); simpl; [|discriminate].
  destruct (mapR (getSobolTotalIndex ot si) (seq 0 D)); simpl; [|discriminate].
  intros [= <- <-]. split; reflexivity.
Qed.

Lemma same_data_first_order (ot : OpenTURNS) (s s' : OpenTurnsPCESobol) (oo : string)
    (f : list float) :
  same_data s s' -> first_order_of ot s' oo f -> first_order_of ot s oo f.
Proof.
  intros (Hi & _ & HiS & HoS & Hd). unfold first_order_of.
  rewrite Hi, HiS, HoS, Hd. auto.
Qed.

Lemma same_data_total_order (ot : OpenTURNS) (s s' : OpenTurnsPCESobol) (oo : string)
    (t : list float) :
  same_data s s' -> total_order_of ot s' oo t -> total_order_of ot s oo t.
Proof.
  intros (Hi & _ & HiS & HoS & Hd). unfold total_order_of.
  rewrite Hi, HiS, HoS, Hd. auto.
Qed.

Lemma estimates_loop (ot : OpenTURNS) (strategy : string) (q : float) :
  forall (l : list string) (w w' : World) (d1 d2 : gmap string (list float)),
    S1 (self w) = Some d1 -> ST (self w) = Some d2 ->
    forM l (estimate_one ot strategy q) w = (w', Ok tt) ->
    same_data (self w) (self w') /\ bootstrap (self w') = bootstrap (self w) /\
    (forall oo, oo ∈ l -> is_Some (outputSample (self w) !! oo)) /\
    exists d1' d2',
      S1 (self w') = Some d1' /\ ST (self w') = Some d2' /\
      (forall oo, is_Some (d1' !! oo) <-> oo ∈ l \/ is_Some (d1 !! oo)) /\
      (forall oo, is_Some (d2' !! oo) <-> oo ∈ l \/ is_Some (d2 !! oo)) /\
      (forall oo f, d1' !! oo = Some f ->
         d1 !! oo = Some f \/ first_order_of ot (self w) oo f) /\
      (forall oo t, d2' !! oo = Some t ->
         d2 !! oo = Some t \/ total_order_of ot (self w) oo t).
Proof.
  induction l as [|oo l IH]; intros w w' d1 d2 H1 H2; cbn [forM].
  - unfold ret. intros [= <-].
    split; [repeat split|]. split; [reflexivity|].
    split; [intros oo Hin; inversion Hin|].
    exists d1, d2. repeat split; try assumption; auto.
    + intros [Hin|H]; [inversion Hin|exact H].
    + intros [Hin|H]; [inversion Hin|exact H].
  - unfold bind at 1.
    destruct (estimate_one ot strategy q oo w) as [w1 [[]|e]] eqn:Hone; [|discriminate].
    apply estimate_one_Ok in Hone
      as (Y & f & t & e1 & e2 & c & res & HY & _ & _ & _ & Hrun & Hvec & Hf & Ht
          & He1 & He2 & Hn1 & Hn2 & Hi & Ho & HiS & HoS & Hd & Hb).
    rewrite H1 in He1. injection He1 as <-. rewrite H2 in He2. injection He2 as <-.
    apply sobol_vectors_Ok in Hvec as [Hvf Hvt].
    assert (Hdata : same_data (self w) (self w1)) by (repeat split; assumption).
    intros Hloop. apply (IH w1 w' _ _ Hn1 Hn2) in Hloop
      as (Hdata' & Hb' & Hall & d1' & d2' & Hd1' & Hd2' & Hk1 & Hk2 & Hv1 & Hv2).
    split.
    { destruct Hdata' as (?&?&?&?&?). repeat split; congruence. }
    split; [congruence|].
    split.
    { intros k Hk. apply elem_of_cons in Hk as [->|Hk].
      - rewrite HY. eauto.
      - rewrite <- HoS. apply Hall. exact Hk. }
    exists d1', d2'. split; [exact Hd1'|]. split; [exact Hd2'|].
    split; [|split; [|split]].
    + intros k. rewrite Hk1, lookup_insert_is_Some, elem_of_cons.
      destruct (decide (oo = k)); intuition (subst; auto).
    + intros k. rewrite Hk2, lookup_insert_is_Some, elem_of_cons.
      destruct (decide (oo = k)); intuition (subst; auto).
    + intros k v Hv. apply Hv1 in Hv as [Hv|Hv].
      * apply lookup_insert_Some in Hv as [[<- <-]|[_ Hv]]; [|left; exact Hv].
        right. split; [exact Hf|]. exists Y, (call_strategy c), res. auto.
      * right. eapply same_data_first_order; eassumption.
    + intros k v Hv. apply Hv2 in Hv as [Hv|Hv].
      * apply lookup_insert_Some in Hv as [[<- <-]|[_ Hv]]; [|left; exact Hv].
        right. split; [exact Ht|]. exists Y, (call_strategy c), res. auto.
      * right. eapply same_data_total_order; eassumption.
Qed.

(** X5: when [computeChaosSensitivity] returns, every output has a sample,
    [self.S1] and [self.ST] have exactly the names of the outputs as keys, and
    the vector stored for an output has one value per input and is read from
    the result of the chaos algorithm on the input sample and the sample of
    that output. *)
Theorem point_estimates_stored (ot : OpenTURNS) (strategy : option string)
    (q : option float) (w w' : World) :
  computeChaosSensitivity ot strategy q w = (w', Ok tt) ->
  (forall oo, oo ∈ output (self w) -> is_Some (outputSample (self w) !! oo)) /\
  exists dS1 dST,
    S1 (self w') = Some dS1 /\ ST (self w') = Some dST /\
    (forall oo, is_Some (dS1 !! oo) <-> oo ∈ output (self w)) /\
    (forall oo, is_Some (dST !! oo) <-> oo ∈ output (self w)) /\
    (forall oo f, dS1 !! oo = Some f -> first_order_of ot (self w) oo f) /\
    (forall oo t, dST !! oo = Some t -> total_order_of ot (self w) oo t).
Proof.
  rewrite computeChaosSensitivity_loop. intros Hloop.
  apply (estimates_loop ot _ _ (output (self w)) (set_self emptied w) w' ∅ ∅
           eq_refl eq_refl) in Hloop
    as (Hdata & _ & Hall & d1 & d2 & Hd1 & Hd2 & Hk1 & Hk2 & Hv1 & Hv2).
  assert (Hdata0 : same_data (self w) (self (set_self emptied w))) by (repeat split).
  split; [exact Hall|].
  exists d1, d2. split; [exact Hd1|]. split; [exact Hd2|].
  split; [|split; [|split]].
  - intros oo. rewrite Hk1, lookup_empty. split; [intros [H|H]|auto].
    + exact H.
    + destruct H; discriminate.
  - intros oo. rewrite Hk2, lookup_empty. split; [intros [H|H]|auto].
    + exact H.
    + destruct H; discriminate.
  - intros oo f Hf. apply Hv1 in Hf as [Hf|Hf]; [rewrite lookup_empty in Hf; discriminate|].
    eapply same_data_first_order; eassumption.
  - intros oo t Ht. apply Hv2 in Ht as [Ht|Ht]; [rewrite lookup_empty in Ht; discriminate|].
    eapply same_data_total_order; eassumption.
Qed.

Lemma estimate_one_effects (ot : OpenTURNS) (strategy : string) (q : float) (oo : string)
    (w w' : World) :
  estimate_one ot strategy q oo w = (w', Ok tt) ->
  stdout w' = stdout w ++ estimate_lines ot (self w) strategy q oo /\
  exists c, chaosRuns w' = chaosRuns w ++ [c] /\ estimate_call ot (self w) strategy q oo c.
Proof.
  unfold estimate_call, estimate_lines, requested_strategy, fixed_indexMax, fit_basis,
    result_bind.
  unfold estimate_one. unfold_fit. project_world.
  repeat step.
  all: try discriminate.
  all: intros [= <-].
  all: cbn [fst self S1 ST chaosSI metamodel bootstrap input output inputSample outputSample
            distribution with_S1 with_ST with_metamodel with_chaosSI randomGenerator
            chaosRuns stdout call_inputSample call_outputSample call_distribution
            call_strategy].
  all: split; [rewrite <- ?app_assoc; reflexivity|].
  all: eexists; split; [reflexivity|].
  all: cbn [call_inputSample call_outputSample call_distribution call_strategy].
  all: repeat (split; [first [reflexivity | assumption]|]).
  all: eexists; split; reflexivity.
Qed.

Lemma same_data_estimate (ot : OpenTURNS) (s s' : OpenTurnsPCESobol) (strategy : string)
    (q : float) (oo : string) :
  same_data s s' ->
  estimate_lines ot s' strategy q oo = estimate_lines ot s strategy q oo /\
  forall c, estimate_call ot s' strategy q oo c -> estimate_call ot s strategy q oo c.
Proof.
  intros (Hi & Ho & HiS & HoS & Hd).
  unfold estimate_lines, estimate_call, requested_strategy, fixed_indexMax, fit_basis.
  rewrite Hi, HiS, HoS, Hd. split; [reflexivity|]. intros c H. exact H.
Qed.

Lemma estimates_effects_loop (ot : OpenTURNS) (strategy : string) (q : float) :
  forall (l : list string) (w w' : World),
    forM l (estimate_one ot strategy q) w = (w', Ok tt) ->
    stdout w' = stdout w ++ concat (map (estimate_lines ot (self w) strategy q) l) /\
    exists calls,
      chaosRuns w' = chaosRuns w ++ calls /\
      Forall2 (estimate_call ot (self w) strategy q) l calls.
Proof.
  induction l as [|oo l IH]; intros w w'; cbn [forM map concat].
  - unfold ret. intros [= <-]. split; [symmetry; apply app_nil_r|].
    exists []. split; [symmetry; apply app_nil_r|constructor].
  - unfold bind at 1.
    destruct (estimate_one ot strategy q oo w) as [w1 [[]|e]] eqn:Hone; [|discriminate].
    pose proof Hone as Hone'.
    apply estimate_one_effects in Hone as (Ho1 & c & Hc1 & Hcall).
    apply estimate_one_Ok in Hone'
      as (_ & _ & _ & _ & _ & _ & _ & _ & _ & _ & _ & _ & _ & _ & _ & _ & _ & _ & _
          & Hi & Ho & HiS & HoS & Hd & _).
    assert (Hdata : same_data (self w) (self w1)) by (repeat split; assumption).
    intros Hloop. apply IH in Hloop as (Ho2 & calls & Hc2 & Hcalls).
    split.
    { rewrite Ho2, Ho1, <- app_assoc. f_equal. cbn [app]. f_equal. f_equal.
      apply map_ext. intros k.
      apply (same_data_estimate ot (self w) (self w1) strategy q k Hdata). }
    exists (c :: calls). split; [rewrite Hc2, Hc1, <- app_assoc; reflexivity|].
    constructor; [exact Hcall|].
    eapply Forall2_impl; [exact Hcalls|]. intros k c'.
    apply (same_data_estimate ot (self w) (self w1) strategy q k Hdata).
Qed.

(** X6: a computation of the point estimates that returns has fitted every
    output once, in the order of [self.output], on the samples of the object,
    with the strategy and the exponent [q] it was asked for, and has printed
    the banner of every output, followed by [indexMax] under the fixed
    strategy, and nothing else. *)
Theorem point_estimates_effects (ot : OpenTURNS) (strategy : option string)
    (q : option float) (w w' : World) :
  computeChaosSensitivity ot strategy q w = (w', Ok tt) ->
  let name := param "cleaning" strategy in
  let q := param 0.4%float q in
  stdout w' = stdout w ++ concat (map (estimate_lines ot (self w) name q) (output (self w))) /\
  exists calls,
    chaosRuns w' = chaosRuns w ++ calls /\
    Forall2 (estimate_call ot (self w) name q) (output (self w)) calls.
Proof.
  rewrite computeChaosSensitivity_loop. intros H. cbv zeta.
  apply estimates_effects_loop in H as (Ho & calls & Hc & Hcalls).
  split; [exact Ho|]. exists calls. split; [exact Hc|exact Hcalls].
Qed.

Lemma estimate_one_frame (ot : OpenTURNS) (strategy : string) (q : float) (oo : string)
    (w : World) :
  has_dictionaries (self w) ->
  estimates_step 1 w (fst (estimate_one ot strategy q oo w)).
Proof.
  intros ([d1 H1] & [d2 H2] & [d3 H3] & [d4 H4]).
  unfold estimates_step, has_dictionaries, same_data.
  unfold estimate_one. unfold_fit. project_world.
  repeat step.
  all: try discriminate.
  all: cbn [fst self S1 ST chaosSI metamodel bootstrap input output inputSample outputSample
            distribution with_S1 with_ST with_metamodel with_chaosSI randomGenerator
            chaosRuns].
  all: rewrite ?H1, ?H2, ?H3, ?H4.
  all: repeat match goal with
              | |- _ /\ _ => split
              | |- is_Some _ => eexists; reflexivity
              | |- @eq (list ChaosCall) _ _ => fail 1
              | |- _ = _ => reflexivity
              end.
  all: first [ exists []; split; [symmetry; apply app_nil_r | simpl; lia]
             | eexists [_]; split; [reflexivity | simpl; lia] ].
Qed.

Lemma estimates_step_trans (n m : nat) (w1 w2 w3 : World) :
  estimates_step n w1 w2 -> estimates_step m w2 w3 -> estimates_step (n + m) w1 w3.
Proof.
  intros ((?&?&?&?&?) & Hb1 & Hg1 & _ & c1 & Hc1 & Hl1)
         ((?&?&?&?&?) & Hb2 & Hg2 & Hd & c2 & Hc2 & Hl2).
  split; [repeat split; congruence|]. split; [congruence|]. split; [congruence|].
  split; [exact Hd|]. exists (c1 ++ c2).
  split; [rewrite Hc2, Hc1, app_assoc; reflexivity|]. rewrite length_app. lia.
Qed.

Lemma estimates_frame_loop (ot : OpenTURNS) (strategy : string) (q : float) :
  forall (l : list string) (w : World),
    has_dictionaries (self w) ->
    estimates_step (length l) w (fst (forM l (estimate_one ot strategy q) w)).
Proof.
  induction l as [|oo l IH]; intros w Hw; cbn [forM length].
  - split; [repeat split|]. split; [reflexivity|]. split; [reflexivity|].
    split; [exact Hw|]. exists []. split; [symmetry; apply app_nil_r|reflexivity].
  - unfold bind. pose proof (estimate_one_frame ot strategy q oo w Hw) as H1.
    destruct (estimate_one ot strategy q oo w) as [w1 [[]|e]]; cbn [fst] in H1 |- *.
    + apply (estimates_step_trans 1 (length l) w w1); [exact H1|].
      apply IH. apply H1.
    + destruct H1 as (Hd & Hb & Hg & Hdict & calls & Hc & Hl).
      split; [exact Hd|]. split; [exact Hb|]. split; [exact Hg|]. split; [exact Hdict|].
      exists calls. split; [exact Hc|lia].
Qed.

(** X7: whatever its outcome, [computeChaosSensitivity] leaves the data of the
    object, the bootstrap results and the random generator as they are, leaves
    the four dictionaries of the point estimates in existence, and calls the
    chaos algorithm at most once per output. *)
Theorem estimates_frame (ot : OpenTURNS) (strategy : option string) (q : option float)
    (w : World) :
  let w' := fst (computeChaosSensitivity ot strategy q w) in
  same_data (self w) (self w') /\
  bootstrap (self w') = bootstrap (self w) /\
  randomGenerator w' = randomGenerator w /\
  has_dictionaries (self w') /\
  exists calls,
    chaosRuns w' = chaosRuns w ++ calls /\ length calls <= length (output (self w)).
Proof.
  cbv zeta. rewrite computeChaosSensitivity_loop.
  assert (Hd : has_dictionaries (self (set_self emptied w))).
  { unfold has_dictionaries. cbn. repeat split; eexists; reflexivity. }
  exact (estimates_frame_loop ot (param "cleaning" strategy) (param 0.4%float q)
           (output (self w)) (set_self emptied w) Hd).
Qed.

(** ** The bootstrap *)

Lemma sobol_vectors_length (ot : OpenTURNS) (D : nat) (si : FunctionalChaosSobolIndices)
    (f t : list float) :
  sobol_vectors ot D si = Ok (f, t) -> length f = D /\ length t = D.
Proof.
  unfold sobol_vectors.
  destruct (mapR (getSobolIndex ot si) (seq 0 D)) as [a|] eqn:H1; simpl; [|discriminate].
  destruct (mapR (getSobolTotalIndex ot si) (seq 0 D)) as [b|] eqn:H2; simpl; [|discriminate].
  intros [= <- <-].
  rewrite (mapR_length _ _ _ H1), (mapR_length _ _ _ H2), length_seq. auto.
Qed.

Lemma call_indices_length (ot : OpenTURNS) (D : nat) (c : ChaosCall) (rep : Point * Point) :
  call_indices ot D c = Ok rep -> length (fst rep) = D /\ length (snd rep) = D.
Proof.
  unfold call_indices. destruct (FunctionalChaosAlgorithm_run ot _ _ _ _); simpl; [|discriminate].
  destruct rep as [f t]. apply sobol_vectors_length.
Qed.

(** A replicate that does not raise has index vectors of the dimension of the
    interval. *)
Lemma replicate_body_dim (ot : OpenTURNS) (X Y : Sample) (dim : nat)
    (acc : Sample * Sample) (i : nat) (w w' : World) (acc' : Sample * Sample) :
  replicate_body ot X Y (unit_eps dim) acc i w = (w', Ok acc') ->
  length (input (self w)) = dim.
Proof.
  unfold replicate_body. destruct acc as [fo0 to0]. unfold bind at 1.
  rewrite multiBootstrap_pair. cbv zeta.
  destruct (Sample_select X _) as [X_boot|e]; cbn [result_bind]; [|discriminate].
  destruct (Sample_select Y _) as [Y_boot|e]; cbn [result_bind]; [|discriminate].
  unfold bind at 1.
  destruct (_computeChaosSensitivity ot X_boot Y_boot None None None _)
    as [w2 [[f t]|e]] eqn:Hfit; [|discriminate].
  apply fit_default_Ok in Hfit as (_ & _ & c & _ & _ & _ & _ & Hind).
  cbn [self] in Hind. apply call_indices_length in Hind as [Hf _]. cbn [fst] in Hf.
  unfold bind at 1. unfold lift at 1.
  destruct (Interval_contains (unit_eps dim) f) as [b|e] eqn:Hc; [|discriminate].
  apply contains_unit_eps in Hc as [Hlen _]. intros _. congruence.
Qed.

Lemma bootstrap_loop_dim (ot : OpenTURNS) (bootstrap_size : nat) (X Y : Sample)
    (dim_input : nat) (w w' : World) (acc : Sample * Sample) :
  0 < bootstrap_size ->
  bootstrap_loop ot bootstrap_size X Y dim_input w = (w', Ok acc) ->
  length (input (self w)) = dim_input.
Proof.
  intros HB. unfold bootstrap_loop. destruct bootstrap_size as [|n]; [lia|].
  cbn [seq foldM]. unfold bind at 1.
  destruct (replicate_body ot X Y (unit_eps dim_input) _ 0 w) as [w1 [acc1|e]] eqn:Hbody;
    [|discriminate].
  intros _. eapply replicate_body_dim. exact Hbody.
Qed.

(** The collections that the loop over the replicates returns. *)
Lemma bootstrap_loop_well_formed (ot : OpenTURNS) (bootstrap_size : nat)
    (X Y : Sample) (dim_input : nat) (w w' : World) (fo_sample to_sample : Sample) :
  bootstrap_loop ot bootstrap_size X Y dim_input w = (w', Ok (fo_sample, to_sample)) ->
  getDimension fo_sample = dim_input /\
  getDimension to_sample = dim_input /\
  getSize fo_sample = getSize to_sample /\
  Forall (fun row => length row = dim_input /\ in_unit_eps row) (rows fo_sample) /\
  Forall (fun row => length row = dim_input /\ in_unit_eps row) (rows to_sample).
Proof.
  intros Hloop. pose proof Hloop as Hloop'. unfold bootstrap_loop in Hloop'.
  apply replicate_loop_Ok in Hloop'
    as (_ & _ & Hdf & Hdt & _ & _ & calls & reps & _ & Hlen & Hinds & _ & _ & Hfo & Hto);
    [|reflexivity..].
  cbn [Sample_new rows repeat app] in Hfo, Hto.
  split; [exact Hdf|]. split; [exact Hdt|].
  split; [unfold getSize; rewrite Hfo, Hto, !length_map; reflexivity|].
  assert (Hreps : Forall (fun rep : Point * Point =>
                            length (fst rep) = dim_input /\ length (snd rep) = dim_input) reps).
  { destruct bootstrap_size as [|n].
    - destruct calls; [|discriminate]. inversion Hinds. constructor.
    - assert (HD : length (input (self w)) = dim_input)
        by (eapply bootstrap_loop_dim; [|exact Hloop]; lia).
      rewrite HD in Hinds. clear -Hinds.
      induction Hinds as [|c rep calls reps Hc _ IH]; constructor; [|exact IH].
      eapply call_indices_length. exact Hc. }
  rewrite Hfo, Hto. split.
  - apply Forall_forall. intros row Hrow.
    apply list_elem_of_fmap in Hrow as (rep & -> & Hrep).
    apply list_elem_of_filter in Hrep as [Hret Hin].
    rewrite Forall_forall in Hreps. split; [apply Hreps; exact Hin | apply Hret].
  - apply Forall_forall. intros row Hrow.
    apply list_elem_of_fmap in Hrow as (rep & -> & Hrep).
    apply list_elem_of_filter in Hrep as [Hret Hin].
    rewrite Forall_forall in Hreps. split; [apply Hreps; exact Hin | apply Hret].
Qed.

(** X8: when the loop over the replicates of one output returns, the two
    collections have the dimension [dim_input] and the same number of rows,
    and every row they hold has [dim_input] coordinates, none of which
    compares below [1e-9] or above [1 - 1e-9]: each coordinate lies in
    [[1e-9, 1 - 1e-9]] or is NaN, a NaN coordinate being kept. *)
Theorem retained_collections_well_formed (ot : OpenTURNS) (bootstrap_size : nat)
    (X Y : Sample) (dim_input : nat) (w w' : World) (fo_sample to_sample : Sample) :
  bootstrap_loop ot bootstrap_size X Y dim_input w = (w', Ok (fo_sample, to_sample)) ->
  let kept (row : Point) :=
    length row = dim_input /\
    Forall (fun x => (x <? 1e-9)%float = false /\ (1 - 1e-9 <? x)%float = false) row /\
    Forall (fun x => lies_inside x \/ x = nan) row in
  getDimension fo_sample = dim_input /\
  getDimension to_sample = dim_input /\
  getSize fo_sample = getSize to_sample /\
  Forall kept (rows fo_sample) /\
  Forall kept (rows to_sample).
Proof.
  intros H kept. apply bootstrap_loop_well_formed in H as (H1 & H2 & H3 & H4 & H5).
  assert (Hkept : forall row, length row = dim_input /\ in_unit_eps row -> kept row).
  { intros row [Hlen Hin]. split; [exact Hlen|]. split.
    - unfold in_unit_eps in Hin. eapply Forall_impl; [exact Hin|].
      intros x Hx. unfold outside in Hx. apply orb_false_iff in Hx. exact Hx.
    - apply in_unit_eps_spec. exact Hin. }
  split; [exact H1|]. split; [exact H2|]. split; [exact H3|].
  split; (eapply Forall_impl; [eassumption|exact Hkept]).
Qed.

(** The loop over the outputs, when it does not raise. *)
Lemma bootstrap_outputs_Ok (ot : OpenTURNS) (bootstrap_size : nat) (verbose plot : bool)
    (X : Sample) (dim_input : nat) :
  forall (l : list string) (acc : BootstrapStore) (w w' : World) (store : BootstrapStore),
    consistent_store ot bootstrap_size dim_input acc ->
    foldM (bootstrap_output ot bootstrap_size verbose plot X dim_input) l acc w
      = (w', Ok store) ->
    consistent_store ot bootstrap_size dim_input store /\
    (forall oo, is_Some (FO store !! oo) <-> oo ∈ l \/ is_Some (FO acc !! oo)).
Proof.
  induction l as [|oo l IH]; intros acc w w' store Hacc; cbn [foldM].
  - unfold ret. intros [= <- <-]. split; [exact Hacc|].
    intros oo. split; [auto|]. intros [Hin|H]; [inversion Hin|exact H].
  - unfold bind at 1.
    destruct (bootstrap_output ot bootstrap_size verbose plot X dim_input acc oo w)
      as [w1 [acc1|e]] eqn:Hone; [|discriminate].
    apply bootstrap_output_Ok in Hone
      as (Y & w0 & fo & to & foI & toI & HY & Hw0 & _ & _ & _ & Hloop & HCI & ->).
    assert (Hacc1 : consistent_store ot bootstrap_size dim_input
              (mkBootstrapStore (<[oo := fo]> (FO acc)) (<[oo := to]> (TO acc))
                 (<[oo := foI]> (FOI acc)) (<[oo := toI]> (TOI acc)))).
    { intros k. cbn [FO TO FOI TOI]. destruct (decide (oo = k)) as [<-|Hne].
      - right. exists fo, to, foI, toI. rewrite !lookup_insert_eq.
        pose proof (bootstrap_loop_well_formed _ _ _ _ _ _ _ _ _ Hloop)
          as (Hdf & Hdt & Hsz & _ & _).
        pose proof Hloop as Hloop'. unfold bootstrap_loop in Hloop'.
        apply replicate_loop_Ok in Hloop'
          as (_ & _ & _ & _ & _ & _ & calls & reps & _ & Hlen & Hinds & _ & _ & Hfo & _);
          [|reflexivity..].
        repeat (split; [first [reflexivity | assumption]|]).
        unfold getSize. rewrite Hfo. cbn [Sample_new rows repeat app].
        rewrite length_map, <- Hlen, (Forall2_length _ _ _ Hinds). apply length_filter.
      - rewrite !lookup_insert_ne by exact Hne. apply Hacc. }
    intros Hrest. apply (IH _ _ _ _ Hacc1) in Hrest as [Hstore Hkeys].
    split; [exact Hstore|]. intros k. rewrite Hkeys. cbn [FO].
    rewrite lookup_insert_is_Some, elem_of_cons.
    destruct (decide (oo = k)); intuition (subst; auto).
Qed.

(** X9: when [computeBootstrapChaosSobolIndices] returns, [self.bootstrap]
    exists and its dictionaries have the names of the outputs as keys; for
    each of them the stored intervals are the confidence intervals of the
    stored collections, and these collections have the dimension of the input
    sample, the same number of rows, and at most [bootstrap_size] rows. *)
Theorem bootstrap_store_consistent (ot : OpenTURNS) (bootstrap_size : nat)
    (verbose plot : option bool) (w w' : World) :
  computeBootstrapChaosSobolIndices ot bootstrap_size verbose plot w = (w', Ok tt) ->
  exists store,
    bootstrap (self w') = Some store /\
    (forall oo, is_Some (FO store !! oo) <-> oo ∈ output (self w)) /\
    consistent_store ot bootstrap_size (getDimension (inputSample (self w))) store.
Proof.
  unfold computeBootstrapChaosSobolIndices. unfold bind at 1. unfold get_self at 1.
  unfold bind.
  match goal with
  | |- context [foldM ?body ?l ?acc w] =>
      destruct (foldM body l acc w) as [w1 [store|e]] eqn:Hfold
  end; [|discriminate].
  unfold modify_self, set_self. intros [= <-]. cbn [self with_bootstrap bootstrap].
  apply bootstrap_outputs_Ok in Hfold as [Hstore Hkeys].
  - exists store. split; [reflexivity|]. split; [|exact Hstore].
    intros oo. rewrite Hkeys. cbn [FO]. rewrite lookup_empty.
    split; [intros [H|[x Hx]]; [exact H|discriminate] | auto].
  - intros oo. left. cbn [FO TO FOI TOI]. rewrite !lookup_empty. auto.
Qed.

Lemma replicate_body_setup (ot : OpenTURNS) (X Y : Sample) (eps : Interval)
    (acc : Sample * Sample) (i : nat) (w : World) :
  same_setup (self w) (self (fst (replicate_body ot X Y eps acc i w))).
Proof.
  unfold replicate_body. destruct acc as [fo to]. unfold bind at 1.
  rewrite multiBootstrap_pair. cbv zeta.
  destruct (Sample_select X _) as [X_boot|e]; cbn [result_bind];
    [|apply same_setup_refl].
  destruct (Sample_select Y _) as [Y_boot|e]; cbn [result_bind];
    [|apply same_setup_refl].
  unfold bind at 1.
  match goal with
  | |- context [_computeChaosSensitivity ot X_boot Y_boot None None None ?w1] =>
      pose proof (fit_default_calls ot X_boot Y_boot w1) as (Hsetup & _);
      destruct (_computeChaosSensitivity ot X_boot Y_boot None None None w1)
        as [w2 [[f t]|e]]
  end; cbn [fst self] in Hsetup; [|exact Hsetup].
  unfold bind, lift, ret.
  destruct (Interval_contains eps f) as [[|]|]; cbn [fst]; try exact Hsetup.
  destruct (Interval_contains eps t) as [[|]|]; cbn [fst]; try exact Hsetup.
  destruct (Sample_add fo f); cbn [fst]; try exact Hsetup.
  destruct (Sample_add to t); exact Hsetup.
Qed.

Lemma bootstrap_output_setup (ot : OpenTURNS) (bootstrap_size : nat) (verbose plot : bool)
    (X : Sample) (dim_input : nat) (acc : BootstrapStore) (oo : string) (w : World) :
  same_setup (self w)
    (self (fst (bootstrap_output ot bootstrap_size verbose plot X dim_input acc oo w))).
Proof.
  unfold bootstrap_output. unfold bind at 1.
  set (w0 := fst ((if verbose then print [stars; oo; stars; newline] else ret tt) w)).
  assert (H0 : same_setup (self w) (self w0)).
  { subst w0. destruct verbose; apply same_setup_refl. }
  assert (Hprint : (if verbose then print [stars; oo; stars; newline] else ret tt) w
                   = (w0, Ok tt)).
  { subst w0. destruct verbose; reflexivity. }
  rewrite Hprint. unfold bind at 1. unfold get_self at 1. unfold bind at 1. unfold lift at 1.
  destruct (dict_getitem (outputSample (self w0)) oo) as [Y|e]; [|exact H0].
  unfold bind at 1. unfold bootstrap_loop.
  pose proof (foldM_preserves (fun w1 w2 => same_setup (self w1) (self w2))
                (replicate_body ot X Y (unit_eps dim_input))
                (fun w1 => same_setup_refl (self w1))
                (fun w1 w2 w3 => same_setup_trans (self w1) (self w2) (self w3))
                (replicate_body_setup ot X Y (unit_eps dim_input))
                (seq 0 bootstrap_size) (Sample_new 0 dim_input, Sample_new 0 dim_input) w0)
    as H1.
  cbv beta in H1.
  destruct (foldM _ _ _ w0) as [w1 [[fo to]|e]]; cbn [fst] in H1 |- *.
  2: { eapply same_setup_trans; eassumption. }
  assert (Hw1 : same_setup (self w) (self w1)) by (eapply same_setup_trans; eassumption).
  unfold bind, lift, ret, get_self, reject, raise.
  destruct (computeSobolIndicesConfidenceInterval ot fo to None) as [[foI toI]|e];
    [|exact Hw1].
  destruct plot; [|exact Hw1].
  destruct (computeMean ot fo); [|exact Hw1].
  destruct (computeMean ot to); [|exact Hw1].
  destruct (DrawSobolIndices_rejects ot _ _ _ _ _); exact Hw1.
Qed.

(** X10: whatever its outcome, [computeBootstrapChaosSobolIndices] leaves the
    data of the object and the point estimates [self.S1] and [self.ST] as they
    are; [self.bootstrap] is written only when the method returns. *)
Theorem bootstrap_keeps_point_estimates (ot : OpenTURNS) (bootstrap_size : nat)
    (verbose plot : option bool) (w : World) :
  let w' := fst (computeBootstrapChaosSobolIndices ot bootstrap_size verbose plot w) in
  let r := snd (computeBootstrapChaosSobolIndices ot bootstrap_size verbose plot w) in
  input (self w') = input (self w) /\
  output (self w') = output (self w) /\
  inputSample (self w') = inputSample (self w) /\
  outputSample (self w') = outputSample (self w) /\
  distribution (self w') = distribution (self w) /\
  S1 (self w') = S1 (self w) /\
  ST (self w') = ST (self w) /\
  (r <> Ok tt -> bootstrap (self w') = bootstrap (self w)).
Proof.
  cbv zeta.
  destruct (computeBootstrapChaosSobolIndices ot bootstrap_size verbose plot w)
    as [w' r] eqn:Hrun.
  cbn [fst snd]. revert Hrun.
  unfold computeBootstrapChaosSobolIndices. unfold bind at 1. unfold get_self at 1.
  unfold bind.
  match goal with
  | |- context [foldM ?body ?l ?acc w] =>
      pose proof (foldM_preserves (fun w1 w2 => same_setup (self w1) (self w2)) body
                    (fun w1 => same_setup_refl (self w1))
                    (fun w1 w2 w3 => same_setup_trans (self w1) (self w2) (self w3))
                    (bootstrap_output_setup ot bootstrap_size _ _ _ _) l acc w) as H1;
      destruct (foldM body l acc w) as [w1 [store|e]]
  end; cbv beta in H1; cbn [fst] in H1;
    destruct H1 as (Hi & Ho & HiS & HoS & Hd & HS1 & HST & Hb).
  - unfold modify_self, set_self. intros [= <- <-].
    cbn [self with_bootstrap input output inputSample outputSample distribution S1 ST].
    do 7 (split; [assumption|]). intros H. destruct (H eq_refl).
  - intros [= <- <-]. do 7 (split; [assumption|]). intros _. exact Hb.
Qed.

(** Without the dictionary [self.metamodel] a fit cannot return. *)
Lemma fit_needs_dictionaries (ot : OpenTURNS) (X Y : Sample)
    (strategy : option string) (q : option float) (verbose : option bool) (w : World) :
  metamodel (self w) = None ->
  self (fst (_computeChaosSensitivity ot X Y strategy q verbose w)) = self w /\
  exists e, snd (_computeChaosSensitivity ot X Y strategy q verbose w) = Raise e.
Proof.
  intros Hm. unfold_fit. project_world.
  repeat step.
  all: try congruence.
  all: split; [reflexivity | eexists; reflexivity].
Qed.

Lemma replicate_body_needs (ot : OpenTURNS) (X Y : Sample) (eps : Interval)
    (acc : Sample * Sample) (i : nat) (w : World) :
  metamodel (self w) = None ->
  exists w' e, replicate_body ot X Y eps acc i w = (w', Raise e) /\ self w' = self w.
Proof.
  intros Hm. unfold replicate_body. destruct acc as [fo to]. unfold bind at 1.
  rewrite multiBootstrap_pair. cbv zeta.
  destruct (Sample_select X _) as [X_boot|e]; cbn [result_bind];
    [|eexists _, _; split; reflexivity].
  destruct (Sample_select Y _) as [Y_boot|e]; cbn [result_bind];
    [|eexists _, _; split; reflexivity].
  unfold bind at 1.
  match goal with
  | |- context [_computeChaosSensitivity ot X_boot Y_boot None None None ?w1] =>
      destruct (fit_needs_dictionaries ot X_boot Y_boot None None None w1)
        as (Hs & e & He); [exact Hm|];
      destruct (_computeChaosSensitivity ot X_boot Y_boot None None None w1) as [w2 r]
  end.
  cbn [fst snd self] in Hs, He. subst r. eexists _, _. split; [reflexivity|exact Hs].
Qed.

Lemma bootstrap_output_needs (ot : OpenTURNS) (bootstrap_size : nat) (verbose plot : bool)
    (X : Sample) (dim_input : nat) (acc : BootstrapStore) (oo : string) (w : World) :
  metamodel (self w) = None ->
  0 < bootstrap_size ->
  exists w' e,
    bootstrap_output ot bootstrap_size verbose plot X dim_input acc oo w = (w', Raise e) /\
    self w' = self w.
Proof.
  intros Hm HB. unfold bootstrap_output. unfold bind at 1.
  set (w0 := fst ((if verbose then print [stars; oo; stars; newline] else ret tt) w)).
  assert (H0 : self w0 = self w) by (subst w0; destruct verbose; reflexivity).
  assert (Hprint : (if verbose then print [stars; oo; stars; newline] else ret tt) w
                   = (w0, Ok tt)) by (subst w0; destruct verbose; reflexivity).
  rewrite Hprint. unfold bind at 1. unfold get_self at 1. unfold bind at 1. unfold lift at 1.
  destruct (dict_getitem (outputSample (self w0)) oo) as [Y|e];
    [|eexists _, _; split; [reflexivity|exact H0]].
  unfold bind at 1. unfold bootstrap_loop.
  destruct bootstrap_size as [|n]; [lia|]. cbn [seq foldM]. unfold bind at 1.
  destruct (replicate_body_needs ot X Y (unit_eps dim_input)
              (Sample_new 0 dim_input, Sample_new 0 dim_input) 0 w0)
    as (w1 & e & Hbody & Hs); [rewrite H0; exact Hm|].
  rewrite Hbody. eexists _, _. split; [reflexivity|congruence].
Qed.

(** X11: on an object whose point estimates were never computed (there is no
    [self.metamodel]), with at least one replicate and one output,
    [computeBootstrapChaosSobolIndices] never returns: it raises and leaves
    the object as it was. *)
Theorem bootstrap_needs_point_estimates (ot : OpenTURNS) (bootstrap_size : nat)
    (verbose plot : option bool) (w : World) :
  metamodel (self w) = None ->
  0 < bootstrap_size ->
  output (self w) <> [] ->
  exists w' e,
    computeBootstrapChaosSobolIndices ot bootstrap_size verbose plot w = (w', Raise e) /\
    self w' = self w.
Proof.
  intros Hm HB Hout.
  unfold computeBootstrapChaosSobolIndices. unfold bind at 1. unfold get_self at 1.
  destruct (output (self w)) as [|oo outs]; [contradiction|].
  cbn [foldM]. unfold bind at 1. unfold bind at 1.
  match goal with
  | |- context [bootstrap_output ot bootstrap_size ?v ?p ?X ?d ?acc oo w] =>
      destruct (bootstrap_output_needs ot bootstrap_size v p X d acc oo w Hm HB)
        as (w1 & e & Hbody & Hs)
  end.
  rewrite Hbody. eexists _, _. split; [reflexivity|exact Hs].
Qed.

Lemma fit_default_silent (ot : OpenTURNS) (X Y : Sample) (w : World) :
  stdout (fst (_computeChaosSensitivity ot X Y None None None w)) = stdout w.
Proof.
  unfold_fit. project_world. repeat step. all: reflexivity.
Qed.

Lemma replicate_body_silent (ot : OpenTURNS) (X Y : Sample) (eps : Interval)
    (acc : Sample * Sample) (i : nat) (w : World) :
  stdout (fst (replicate_body ot X Y eps acc i w)) = stdout w.
Proof.
  unfold replicate_body. destruct acc as [fo to]. unfold bind at 1.
  rewrite multiBootstrap_pair. cbv zeta.
  destruct (Sample_select X _) as [X_boot|e]; cbn [result_bind]; [|reflexivity].
  destruct (Sample_select Y _) as [Y_boot|e]; cbn [result_bind]; [|reflexivity].
  unfold bind at 1.
  match goal with
  | |- context [_computeChaosSensitivity ot X_boot Y_boot None None None ?w1] =>
      pose proof (fit_default_silent ot X_boot Y_boot w1) as Hout;
      destruct (_computeChaosSensitivity ot X_boot Y_boot None None None w1)
        as [w2 [[f t]|e]]
  end; cbn [fst stdout] in Hout; [|exact Hout].
  unfold bind, lift, ret.
  destruct (Interval_contains eps f) as [[|]|]; cbn [fst]; try exact Hout.
  destruct (Interval_contains eps t) as [[|]|]; cbn [fst]; try exact Hout.
  destruct (Sample_add fo f); cbn [fst]; try exact Hout.
  destruct (Sample_add to t); exact Hout.
Qed.

Lemma bootstrap_loop_silent (ot : OpenTURNS) (bootstrap_size : nat) (X Y : Sample)
    (dim_input : nat) (w : World) :
  stdout (fst (bootstrap_loop ot bootstrap_size X Y dim_input w)) = stdout w.
Proof.
  unfold bootstrap_loop.
  apply (foldM_preserves (fun w1 w2 => stdout w2 = stdout w1)
           (replicate_body ot X Y (unit_eps dim_input))).
  - reflexivity.
  - intros w1 w2 w3 H1 H2. congruence.
  - apply replicate_body_silent.
Qed.

Lemma bootstrap_output_effects (ot : OpenTURNS) (bootstrap_size : nat) (verbose plot : bool)
    (X : Sample) (dim_input : nat) (acc : BootstrapStore) (oo : string)
    (w w' : World) (acc' : BootstrapStore) :
  bootstrap_output ot bootstrap_size verbose plot X dim_input acc oo w = (w', Ok acc') ->
  same_setup (self w) (self w') /\
  stdout w' = stdout w ++ banners verbose [oo] /\
  randomGenerator w' = Nat.iter bootstrap_size (draw ot (getSize X)) (randomGenerator w) /\
  exists calls, chaosRuns w' = chaosRuns w ++ calls /\ length calls = bootstrap_size.
Proof.
  intros H. apply bootstrap_output_Ok in H
    as (Y & w0 & fo & to & foI & toI & HY & Hw0 & Hout & Hrng & Hruns & Hloop & _ & _).
  pose proof (bootstrap_loop_silent ot bootstrap_size X Y dim_input w0) as Hsilent.
  rewrite Hloop in Hsilent. cbn [fst] in Hsilent.
  unfold bootstrap_loop in Hloop.
  apply replicate_loop_Ok in Hloop
    as (Hs & Hg & _ & _ & _ & _ & calls & reps & Hc & Hlen & _); [|reflexivity..].
  rewrite Hw0 in Hs. split; [exact Hs|].
  split; [congruence|]. split; [congruence|].
  exists calls. split; [congruence|exact Hlen].
Qed.

Lemma bootstrap_outputs_effects (ot : OpenTURNS) (bootstrap_size : nat) (verbose plot : bool)
    (X : Sample) (dim_input : nat) :
  forall (l : list string) (acc : BootstrapStore) (w w' : World) (store : BootstrapStore),
    foldM (bootstrap_output ot bootstrap_size verbose plot X dim_input) l acc w
      = (w', Ok store) ->
    same_setup (self w) (self w') /\
    stdout w' = stdout w ++ banners verbose l /\
    randomGenerator w' =
      Nat.iter (length l * bootstrap_size) (draw ot (getSize X)) (randomGenerator w) /\
    exists calls,
      chaosRuns w' = chaosRuns w ++ calls /\ length calls = length l * bootstrap_size.
Proof.
  induction l as [|oo l IH]; intros acc w w' store; cbn [foldM].
  - unfold ret. intros [= <- <-]. split; [apply same_setup_refl|].
    split; [unfold banners; destruct verbose; symmetry; apply app_nil_r|].
    split; [reflexivity|]. exists []. split; [symmetry; apply app_nil_r|reflexivity].
  - unfold bind at 1.
    destruct (bootstrap_output ot bootstrap_size verbose plot X dim_input acc oo w)
      as [w1 [acc1|e]] eqn:Hone; [|discriminate].
    apply bootstrap_output_effects in Hone as (Hs1 & Ho1 & Hg1 & c1 & Hc1 & Hl1).
    intros Hrest. apply IH in Hrest as (Hs2 & Ho2 & Hg2 & c2 & Hc2 & Hl2).
    split; [eapply same_setup_trans; eassumption|].
    split.
    { rewrite Ho2, Ho1, <- app_assoc. f_equal. unfold banners. destruct verbose; reflexivity. }
    split.
    { rewrite Hg2, Hg1. cbn [length Nat.mul]. rewrite Nat.add_comm.
      symmetry. apply Nat.iter_add. }
    exists (c1 ++ c2). split; [rewrite Hc2, Hc1, app_assoc; reflexivity|].
    rewrite length_app, Hl1, Hl2. reflexivity.
Qed.

(** X12: a bootstrap that returns has drawn one selection and called the chaos
    algorithm once per replicate and per output, and has printed the banners
    of the outputs (none without [verbose]) and nothing else. *)
Theorem bootstrap_effects (ot : OpenTURNS) (bootstrap_size : nat)
    (verbose plot : option bool) (w w' : World) :
  computeBootstrapChaosSobolIndices ot bootstrap_size verbose plot w = (w', Ok tt) ->
  let K := length (output (self w)) * bootstrap_size in
  stdout w' = stdout w ++ banners (param true verbose) (output (self w)) /\
  randomGenerator w' =
    Nat.iter K (draw ot (getSize (inputSample (self w)))) (randomGenerator w) /\
  exists calls, chaosRuns w' = chaosRuns w ++ calls /\ length calls = K.
Proof.
  unfold computeBootstrapChaosSobolIndices. unfold bind at 1. unfold get_self at 1.
  unfold bind.
  match goal with
  | |- context [foldM ?body ?l ?acc w] =>
      destruct (foldM body l acc w) as [w1 [store|e]] eqn:Hfold
  end; [|discriminate].
  unfold modify_self, set_self. intros [= <-]. cbv zeta. cbn [stdout randomGenerator chaosRuns].
  apply bootstrap_outputs_effects in Hfold as (_ & Ho & Hg & calls & Hc & Hl).
  split; [exact Ho|]. split; [exact Hg|]. exists calls. split; assumption.
Qed.

(** ** Resampling any number of samples *)

Lemma mapR_raises {A B} (f : A -> result B) (l : list A) :
  (exists e, mapR f l = Raise e) <-> exists x e, x ∈ l /\ f x = Raise e.
Proof.
  split.
  - intros [e He]. apply mapR_Raise in He as (x & Hin & Hx). eauto.
  - intros (x & e & Hin & Hx). induction l as [|y l IH]; [inversion Hin|].
    simpl. destruct (f y) as [b|e'] eqn:Hy; simpl; [|eauto].
    apply elem_of_cons in Hin as [->|Hin]; [congruence|].
    destruct (IH Hin) as [e' ->]. simpl. eauto.
Qed.

Lemma Sample_select_raises (Z : Sample) (selection : list nat) :
  (exists e, Sample_select Z selection = Raise e) <->
  exists i, i ∈ selection /\ getSize Z <= i.
Proof.
  unfold Sample_select, getSize.
  destruct (mapR _ selection) as [rs|e] eqn:Hrs; simpl.
  - split; [intros [e He]; discriminate|]. intros (i & Hi & Hle).
    assert (H : exists e, mapR (fun i : nat => match rows Z !! i with
                                      | Some r => Ok r
                                      | None => Raise "IndexError"
                                      end) selection = Raise e).
    { apply mapR_raises. exists i, "IndexError". split; [exact Hi|].
      apply lookup_ge_None in Hle. rewrite Hle. reflexivity. }
    destruct H as [e He]. congruence.
  - split; [|eauto]. intros _. apply mapR_Raise in Hrs as (i & Hi & Hx).
    exists i. split; [exact Hi|].
    destruct (rows Z !! i) eqn:Hl; [discriminate|]. apply lookup_ge_None. exact Hl.
Qed.

Lemma Sample_select_rows (Z Zb : Sample) (selection : list nat) :
  Sample_select Z selection = Ok Zb ->
  getDimension Zb = getDimension Z /\
  getDescription Zb = getDescription Z /\
  Forall2 (fun i row => rows Z !! i = Some row) selection (rows Zb).
Proof.
  unfold Sample_select.
  destruct (mapR _ selection) as [rs|] eqn:Hrs; simpl; [|discriminate].
  intros [= <-]. split; [reflexivity|]. split; [reflexivity|]. cbn [rows].
  apply mapR_Forall2 in Hrs. eapply Forall2_impl; [exact Hrs|].
  cbv beta. intros i row. destruct (rows Z !! i); [intros [= ->]; reflexivity|discriminate].
Qed.

(** X13: [multiBootstrap] on one or more samples draws one selection, of the
    size of the first sample, and changes nothing else; it raises exactly when
    a drawn index falls outside one of the samples; otherwise it returns one
    sample for each sample given, with the same dimension and description,
    whose rows are the rows at the drawn indices, in the order of the
    selection. *)
Theorem multiBootstrap_selection (ot : OpenTURNS) (Z0 : Sample) (others : list Sample)
    (w : World) :
  let N := getSize Z0 in
  let selection := fst (GenerateSelection ot N N (randomGenerator w)) in
  let w' := fst (multiBootstrap ot (Z0 :: others) w) in
  let r := snd (multiBootstrap ot (Z0 :: others) w) in
  self w' = self w /\ stdout w' = stdout w /\ chaosRuns w' = chaosRuns w /\
  randomGenerator w' = draw ot N (randomGenerator w) /\
  ((exists e, r = Raise e) <->
   exists Z i, Z ∈ Z0 :: others /\ i ∈ selection /\ getSize Z <= i) /\
  (forall boots, r = Ok boots ->
     Forall2 (fun Z Zb =>
                getDimension Zb = getDimension Z /\
                getDescription Zb = getDescription Z /\
                Forall2 (fun i row => rows Z !! i = Some row) selection (rows Zb))
       (Z0 :: others) boots).
Proof.
  cbv zeta. unfold multiBootstrap, bind, generateSelection, lift, draw.
  destruct (GenerateSelection ot _ _ _) as [selection g].
  cbn [fst snd self stdout chaosRuns randomGenerator].
  do 4 (split; [reflexivity|]).
  split.
  - rewrite mapR_raises. split.
    + intros (Z & e & HZ & He). destruct (Sample_select_raises Z selection) as [H _].
      destruct H as (i & Hi & Hle); [eauto|]. eauto.
    + intros (Z & i & HZ & Hi & Hle). destruct (Sample_select_raises Z selection) as [_ H].
      destruct H as [e He]; [eauto|]. eauto.
  - intros boots Hb. apply mapR_Forall2 in Hb. eapply Forall2_impl; [exact Hb|].
    intros Z Zb. apply Sample_select_rows.
Qed.

(** ** The failures of the confidence intervals *)

Lemma list_setitem_Ok {A} (l : list A) (i : nat) (v : A) :
  i < length l -> exists l', list_setitem l i v = Ok l' /\ length l' = length l.
Proof.
  intros Hi. unfold list_setitem. rewrite decide_True by exact Hi.
  eexists. split; [reflexivity|]. apply length_insert.
Qed.

(** The outcome of one turn of the loop of the confidence intervals, on
    lists long enough. *)
Lemma confidence_body_outcome (ot : OpenTURNS) (fo_sample to_sample : Sample) (alpha : float)
    (acc : Bounds) (i n : nat) :
  let beta := ((1.0 - alpha) / 2)%float in
  i < n -> i < getDimension fo_sample ->
  length (fo_lb acc) = n -> length (fo_ub acc) = n ->
  length (to_lb acc) = n -> length (to_ub acc) = n ->
  match confidence_body ot fo_sample to_sample alpha acc i with
  | Ok b =>
      length (fo_lb b) = n /\ length (fo_ub b) = n /\
      length (to_lb b) = n /\ length (to_ub b) = n
  | Raise e =>
      Sample_column to_sample i = Raise e \/
      exists p, (p = beta \/ p = (1.0 - beta)%float) /\
        (computeQuantile ot (column fo_sample i) p = Raise e \/
         computeQuantile ot (column to_sample i) p = Raise e)
  end.
Proof.
  intros beta Hi HD H1 H2 H3 H4. unfold confidence_body. fold beta.
  unfold Sample_column at 1. rewrite decide_True by exact HD. cbn [result_bind].
  fold (column fo_sample i).
  destruct (Sample_column to_sample i) as [to_i|e] eqn:Hto; cbn [result_bind];
    [|left; reflexivity].
  assert (Hcol : to_i = column to_sample i).
  { revert Hto. unfold Sample_column, column. destruct (decide _); [|discriminate].
    intros [= <-]. reflexivity. }
  subst to_i.
  destruct (computeQuantile ot (column fo_sample i) beta) as [v1|e] eqn:Q1; cbn [result_bind];
    [|right; exists beta; split; [left; reflexivity|left; exact Q1]].
  destruct (list_setitem_Ok (fo_lb acc) i v1) as (l1 & -> & L1); [lia|]. cbn [result_bind].
  destruct (computeQuantile ot (column fo_sample i) (1.0 - beta)) as [v2|e] eqn:Q2;
    cbn [result_bind];
    [|right; exists (1.0 - beta)%float; split; [right; reflexivity|left; exact Q2]].
  destruct (list_setitem_Ok (fo_ub acc) i v2) as (l2 & -> & L2); [lia|]. cbn [result_bind].
  destruct (computeQuantile ot (column to_sample i) beta) as [v3|e] eqn:Q3; cbn [result_bind];
    [|right; exists beta; split; [left; reflexivity|right; exact Q3]].
  destruct (list_setitem_Ok (to_lb acc) i v3) as (l3 & -> & L3); [lia|]. cbn [result_bind].
  destruct (computeQuantile ot (column to_sample i) (1.0 - beta)) as [v4|e] eqn:Q4;
    cbn [result_bind];
    [|right; exists (1.0 - beta)%float; split; [right; reflexivity|right; exact Q4]].
  destruct (list_setitem_Ok (to_ub acc) i v4) as (l4 & -> & L4); [lia|]. cbn [result_bind].
  cbn [fo_lb fo_ub to_lb to_ub]. repeat split; congruence.
Qed.

Lemma confidence_loop_Raise (ot : OpenTURNS) (fo_sample to_sample : Sample) (alpha : float)
    (n : nat) (e : exception) :
  let beta := ((1.0 - alpha) / 2)%float in
  forall (m k : nat) (acc : Bounds),
    k + m <= n -> n <= getDimension fo_sample ->
    length (fo_lb acc) = n -> length (fo_ub acc) = n ->
    length (to_lb acc) = n -> length (to_ub acc) = n ->
    foldR (confidence_body ot fo_sample to_sample alpha) (seq k m) acc = Raise e ->
    exists i, i < n /\
      (Sample_column to_sample i = Raise e \/
       exists p, (p = beta \/ p = (1.0 - beta)%float) /\
         (computeQuantile ot (column fo_sample i) p = Raise e \/
          computeQuantile ot (column to_sample i) p = Raise e)).
Proof.
  intros beta. induction m as [|m IH]; intros k acc Hk Hn H1 H2 H3 H4; cbn [seq foldR].
  - discriminate.
  - pose proof (confidence_body_outcome ot fo_sample to_sample alpha acc k n
                  ltac:(lia) ltac:(lia) H1 H2 H3 H4) as Hbody.
    cbv zeta in Hbody. fold beta in Hbody.
    destruct (confidence_body ot fo_sample to_sample alpha acc k) as [b|e']; cbn [result_bind].
    + destruct Hbody as (L1 & L2 & L3 & L4). apply IH; [lia|assumption..].
    + intros [= <-]. exists k. split; [lia|exact Hbody].
Qed.

(** X14: [computeSobolIndicesConfidenceInterval] raises no exception of its
    own: when it raises, for some input dimension [i] either the total-order
    sample has no column [i], or one of the four quantile computations on
    column [i] raised that exception; the assignments to its four lists of
    bounds never fail. *)
Theorem confidence_interval_failure (ot : OpenTURNS) (fo_sample to_sample : Sample)
    (alpha : option float) (e : exception) :
  computeSobolIndicesConfidenceInterval ot fo_sample to_sample alpha = Raise e ->
  let beta := ((1.0 - param 0.95 alpha) / 2)%float in
  exists i, i < getDimension fo_sample /\
    (Sample_column to_sample i = Raise e \/
     exists p, (p = beta \/ p = (1.0 - beta)%float) /\
       (computeQuantile ot (column fo_sample i) p = Raise e \/
        computeQuantile ot (column to_sample i) p = Raise e)).
Proof.
  unfold computeSobolIndicesConfidenceInterval.
  destruct (foldR _ _ _) as [b|e'] eqn:Hloop; cbn [result_bind]; [discriminate|].
  intros [= <-].
  eapply (confidence_loop_Raise ot fo_sample to_sample (param 0.95%float alpha)
            (getDimension fo_sample) e' (getDimension fo_sample) 0); [lia|lia|..|exact Hloop].
  all: apply repeat_length.
Qed.

(** * Further runs on concrete data *)

(** The fixed strategy on the grid, after the point estimates. *)
Lemma fit_postcondition_witness :
  let X := inputSample Reference.car in
  let Y := Reference.response Reference.grid in
  let w := Reference.estimated Reference.car in
  exists w' f t,
    _computeChaosSensitivity Reference.ot X Y (Some "fixed") None None w = (w', Ok (f, t)) /\
    let D := length (input (self w)) in
    length f = D /\ length t = D /\
    exists c res oo names dm dc,
      chaosRuns w' = chaosRuns w ++ [c] /\
      call_inputSample c = X /\ call_outputSample c = Y /\
      call_distribution c = distribution (self w) /\
      FunctionalChaosAlgorithm_run Reference.ot X Y (distribution (self w)) (call_strategy c)
        = Ok res /\
      sobol_vectors Reference.ot D (mkFunctionalChaosSobolIndices res) = Ok (f, t) /\
      getDescription Y = oo :: names /\
      metamodel (self w) = Some dm /\
      chaosSI (self w) = Some dc /\
      metamodel (self w') = Some (<[oo := getMetaModel res]> dm) /\
      chaosSI (self w') = Some (<[oo := mkFunctionalChaosSobolIndices res]> dc).
Proof.
  intros X Y w. eexists _, _, _. split.
  - vm_compute. reflexivity.
  - eapply (fit_postcondition Reference.ot X Y (Some "fixed") None None w).
    vm_compute. reflexivity.
Defined.

(** A strategy named ['linear']. *)
Lemma unknown_strategy_raises_witness :
  let X := inputSample Reference.car in
  let Y := Reference.response Reference.grid in
  let w := Reference.estimated Reference.car in
  let w' := fst (_computeChaosSensitivity Reference.ot X Y (Some "linear") None None w) in
  let r := snd (_computeChaosSensitivity Reference.ot X Y (Some "linear") None None w) in
  ("linear" <> "fixed" /\ "linear" <> "cleaning") /\
  w' = w /\
  (exists e, r = Raise e) /\
  (forall basis oo names,
     fit_basis Reference.ot (self w) (param 0.4%float None) = Ok basis ->
     getDescription Y = oo :: names ->
     r = Raise "UnboundLocalError").
Proof.
  intros X Y w.
  assert (H1 : "linear" <> "fixed") by discriminate.
  assert (H2 : "linear" <> "cleaning") by discriminate.
  split; [split; assumption|].
  exact (unknown_strategy_raises Reference.ot X Y "linear" None None w H1 H2).
Defined.

(** Two inputs and one marginal. *)
Lemma marginals_must_match_inputs_witness :
  let X := inputSample Reference.mismatched in
  let Y := Reference.response Reference.grid in
  let w := Reference.world Reference.mismatched in
  length (input (self w)) <> length (distribution (self w)) /\
  exists e,
    _computeChaosSensitivity Reference.ot X Y None None None w = (w, Raise e) /\
    (length (input (self w)) < length (distribution (self w)) -> e = "IndexError").
Proof.
  intros X Y w.
  assert (H : length (input (self w)) <> length (distribution (self w)))
    by (vm_compute; lia).
  split; [exact H|].
  exact (marginals_must_match_inputs Reference.ot X Y None None None w H).
Defined.

(** The point estimates computed on a fresh object and computed again. *)
Lemma estimates_replace_previous_witness :
  let w := Reference.world Reference.car in
  let v := Reference.estimated Reference.car in
  (input (self w) = input (self v) /\ output (self w) = output (self v) /\
   inputSample (self w) = inputSample (self v) /\
   outputSample (self w) = outputSample (self v) /\
   distribution (self w) = distribution (self v) /\
   bootstrap (self w) = bootstrap (self v)) /\
  snd (computeChaosSensitivity Reference.ot (Some "fixed") None w)
  = snd (computeChaosSensitivity Reference.ot (Some "fixed") None v) /\
  self (fst (computeChaosSensitivity Reference.ot (Some "fixed") None w))
  = self (fst (computeChaosSensitivity Reference.ot (Some "fixed") None v)).
Proof.
  intros w v.
  assert (H1 : input (self w) = input (self v)) by (vm_compute; reflexivity).
  assert (H2 : output (self w) = output (self v)) by (vm_compute; reflexivity).
  assert (H3 : inputSample (self w) = inputSample (self v)) by (vm_compute; reflexivity).
  assert (H4 : outputSample (self w) = outputSample (self v)) by (vm_compute; reflexivity).
  assert (H5 : distribution (self w) = distribution (self v)) by (vm_compute; reflexivity).
  assert (H6 : bootstrap (self w) = bootstrap (self v)) by (vm_compute; reflexivity).
  split; [split; [exact H1|]; split; [exact H2|]; split; [exact H3|]; split; [exact H4|];
          split; [exact H5|exact H6] |].
  exact (estimates_replace_previous Reference.ot (Some "fixed") None w v H1 H2 H3 H4 H5 H6).
Defined.

(** The point estimates of the two outputs of the grid. *)
Lemma point_estimates_stored_witness :
  let w := Reference.world Reference.crash in
  exists w',
    computeChaosSensitivity Reference.ot None None w = (w', Ok tt) /\
    (forall oo, oo ∈ output (self w) -> is_Some (outputSample (self w) !! oo)) /\
    exists dS1 dST,
      S1 (self w') = Some dS1 /\ ST (self w') = Some dST /\
      (forall oo, is_Some (dS1 !! oo) <-> oo ∈ output (self w)) /\
      (forall oo, is_Some (dST !! oo) <-> oo ∈ output (self w)) /\
      (forall oo f, dS1 !! oo = Some f -> first_order_of Reference.ot (self w) oo f) /\
      (forall oo t, dST !! oo = Some t -> total_order_of Reference.ot (self w) oo t).
Proof.
  intros w. eexists. split.
  - vm_compute. reflexivity.
  - eapply (point_estimates_stored Reference.ot None None w). vm_compute. reflexivity.
Defined.

(** The same with the fixed strategy. *)
Lemma point_estimates_effects_witness :
  let w := Reference.world Reference.crash in
  exists w',
    computeChaosSensitivity Reference.ot (Some "fixed") None w = (w', Ok tt) /\
    let name := param "cleaning" (Some "fixed") in
    let q := param 0.4%float None in
    stdout w' =
      stdout w ++ concat (map (estimate_lines Reference.ot (self w) name q) (output (self w))) /\
    exists calls,
      chaosRuns w' = chaosRuns w ++ calls /\
      Forall2 (estimate_call Reference.ot (self w) name q) (output (self w)) calls.
Proof.
  intros w. eexists. split.
  - vm_compute. reflexivity.
  - eapply (point_estimates_effects Reference.ot (Some "fixed") None w).
    vm_compute. reflexivity.
Defined.

(** Three replicates with a library whose index routines answer [nan] for
    the first input: the rows kept hold a NaN coordinate. *)
Lemma retained_collections_well_formed_witness :
  let v := [nan; 0.5]%float in
  let ot := Reference.returning v v in
  let X := inputSample Reference.car in
  let Y := Reference.response Reference.grid in
  let w := Reference.estimated Reference.car in
  exists w' fo_sample to_sample,
    (bootstrap_loop ot 3 X Y 2 w = (w', Ok (fo_sample, to_sample)) /\
     rows fo_sample = [v; v; v]) /\
    let kept (row : Point) :=
      length row = 2 /\
      Forall (fun x => (x <? 1e-9)%float = false /\ (1 - 1e-9 <? x)%float = false) row /\
      Forall (fun x => lies_inside x \/ x = nan) row in
    getDimension fo_sample = 2 /\
    getDimension to_sample = 2 /\
    getSize fo_sample = getSize to_sample /\
    Forall kept (rows fo_sample) /\
    Forall kept (rows to_sample).
Proof.
  intros v ot X Y w. eexists _, _, _. split.
  - split; [vm_compute; reflexivity|reflexivity].
  - eapply (retained_collections_well_formed ot 3 X Y 2 w). vm_compute. reflexivity.
Defined.

(** Three replicates of each of the two outputs of the grid. *)
Lemma bootstrap_store_consistent_witness :
  let w := Reference.estimated Reference.crash in
  exists w',
    computeBootstrapChaosSobolIndices Reference.ot 3 None None w = (w', Ok tt) /\
    exists store,
      bootstrap (self w') = Some store /\
      (forall oo, is_Some (FO store !! oo) <-> oo ∈ output (self w)) /\
      consistent_store Reference.ot 3 (getDimension (inputSample (self w))) store.
Proof.
  intros w. eexists. split.
  - vm_compute. reflexivity.
  - eapply (bootstrap_store_consistent Reference.ot 3 None None w). vm_compute. reflexivity.
Defined.

(** The bootstrap on an object without point estimates. *)
Lemma bootstrap_needs_point_estimates_witness :
  let w := Reference.world Reference.car in
  (metamodel (self w) = None /\ 0 < 3 /\ output (self w) <> []) /\
  exists w' e,
    computeBootstrapChaosSobolIndices Reference.ot 3 None None w = (w', Raise e) /\
    self w' = self w.
Proof.
  intros w.
  assert (H1 : metamodel (self w) = None) by reflexivity.
  assert (H2 : 0 < 3) by lia.
  assert (H3 : output (self w) <> []) by (vm_compute; discriminate).
  split; [split; [exact H1|]; split; [exact H2|exact H3] |].
  exact (bootstrap_needs_point_estimates Reference.ot 3 None None w H1 H2 H3).
Defined.

(** Three silent replicates of each of the two outputs of the grid. *)
Lemma bootstrap_effects_witness :
  let w := Reference.estimated Reference.crash in
  exists w',
    computeBootstrapChaosSobolIndices Reference.ot 3 (Some false) None w = (w', Ok tt) /\
    let K := length (output (self w)) * 3 in
    stdout w' = stdout w ++ banners (param true (Some false)) (output (self w)) /\
    randomGenerator w' =
      Nat.iter K (draw Reference.ot (getSize (inputSample (self w)))) (randomGenerator w) /\
    exists calls, chaosRuns w' = chaosRuns w ++ calls /\ length calls = K.
Proof.
  intros w. eexists. split.
  - vm_compute. reflexivity.
  - eapply (bootstrap_effects Reference.ot 3 (Some false) None w). vm_compute. reflexivity.
Defined.

(** The confidence intervals of two empty collections. *)
Lemma confidence_interval_failure_witness :
  let empty := Sample_new 0 1 in
  computeSobolIndicesConfidenceInterval Reference.ot empty empty None = Raise "RuntimeError" /\
  let beta := ((1.0 - param 0.95 None) / 2)%float in
  exists i, i < getDimension empty /\
    (Sample_column empty i = Raise "RuntimeError" \/
     exists p, (p = beta \/ p = (1.0 - beta)%float) /\
       (computeQuantile Reference.ot (column empty i) p = Raise "RuntimeError" \/
        computeQuantile Reference.ot (column empty i) p = Raise "RuntimeError")).
Proof.
  intros empty.
  assert (H : computeSobolIndicesConfidenceInterval Reference.ot empty empty None
              = Raise "RuntimeError") by (vm_compute; reflexivity).
  split; [exact H|].
  exact (confidence_interval_failure Reference.ot empty empty None "RuntimeError" H).
Defined.
